(** * Phase classification and repetition counting of the pose corrector

    A shallow embedding of the rule engines found in
    [backend/pose-corrector/comprehensive_pose_corrector.py],
    [backend/pose-corrector/professional_pose_corrector.py] and of the two
    session-control handlers of [backend/pose-corrector/pose_corrector_api.py].

    Conventions of the embedding.
    - A Python [float] that only goes through [+], [-], [*], [/], comparisons,
      [min], [max] and [abs] is an exact rational ([Q]); decimal literals such
      as [0.7] stand for the rational they denote.  The two scores that go
      through [numpy.std] need a square root and are real numbers ([R]).
    - A phase is one of the five string literals the engines assign to
      [current_phase]; it is an enumeration here.
    - A [collections.deque(maxlen=n)] is a list, oldest entry first, with the
      eviction of [append] written out.
    - A method body is a computation over the object's attributes that may
      raise: attribute writes made before a [raise] stay, exactly as the
      [try]/[except] blocks of the source observe them. *)

From Stdlib Require Import List ZArith QArith Qminmax Lia Lra Lqa Reals Bool Ascii.
From stdpp Require Import base option list gmap strings.
Import ListNotations.

(* ------------------------------------------------------------------------- *)
(** ** Python values shared by the engines *)
(* ------------------------------------------------------------------------- *)

(** The strings "start", "quarter", "peak", "return", "end". *)
Inductive Phase := Start | Quarter | Peak | Return | End.

#[global] Instance Phase_eq_dec : EqDecision Phase.
Proof. solve_decision. Defined.

(** The built-in exceptions the modelled code can raise. *)
Inductive exn := IndexError | KeyError | TypeError | ValueError.

(** [x < y] and [x <= y] on floats, as booleans. *)
Definition Qltb (x y : Q) : bool := negb (Qle_bool y x).
Definition Qleb (x y : Q) : bool := Qle_bool x y.

(** [abs(x)] *)
Definition py_abs (x : Q) : Q := if Qltb x 0 then Qopp x else x.

(** [max(l)] and [min(l)] of a list of floats: the first extreme element is
    kept; on the empty list Python raises [ValueError]. *)
Definition py_max (l : list Q) : option Q :=
  match l with
  | [] => None
  | x :: t => Some (fold_left (fun m y => if Qltb m y then y else m) t x)
  end.

Definition py_min (l : list Q) : option Q :=
  match l with
  | [] => None
  | x :: t => Some (fold_left (fun m y => if Qltb y m then y else m) t x)
  end.

(** [l[-n:]]: the last [n] items, all of [l] when it is shorter; [l[-0:]] is
    [l[0:]], the whole list. *)
Definition last_n {A} (n : nat) (l : list A) : list A :=
  if (n =? 0)%nat then l else drop (length l - n) l.

(** [deque(maxlen=n).append(x)]: the oldest entries leave when the deque is
    full. *)
Definition deque_append {A} (maxlen : nat) (x : A) (d : list A) : list A :=
  drop (length (d ++ [x]) - maxlen) (d ++ [x]).

(** [l.count(x)] *)
Definition py_count {A} `{EqDecision A} (x : A) (l : list A) : nat :=
  length (filter (fun y => y = x) l).

(** [numpy.argmax]: the first index of the largest entry ([0] stands for the
    call on the empty list, which the callers guard). *)
Fixpoint argmax_from (best : Q) (besti i : nat) (l : list Q) : nat :=
  match l with
  | [] => besti
  | x :: t => if Qltb best x then argmax_from x i (S i) t
              else argmax_from best besti (S i) t
  end.

Definition np_argmax (l : list Q) : nat :=
  match l with
  | [] => 0%nat
  | x :: t => argmax_from x 0%nat 1%nat t
  end.

(** Column [idx] of a list of frames, [[frame[idx] for frame in frames]];
    [None] is the [IndexError] of a frame that is too short. *)
Definition column (idx : nat) (frames : list (list Q)) : option (list Q) :=
  mapM (fun frame : list Q => frame !! idx) frames.

(** *** Computations over an object that may raise *)

Definition M (S A : Type) : Type := S -> S * (exn + A).

Definition ret {S A} (a : A) : M S A := fun s => (s, inr a).
Definition raise {S A} (e : exn) : M S A := fun s => (s, inl e).
Definition bind {S A B} (m : M S A) (k : A -> M S B) : M S B :=
  fun s => match m s with
           | (s', inl e) => (s', inl e)
           | (s', inr a) => k a s'
           end.
Definition get {S} : M S S := fun s => (s, inr s).
Definition modify {S} (f : S -> S) : M S unit := fun s => (f s, inr tt).
(** An indexing or lookup that raises [e] when it has no result. *)
Definition orraise {S A} (e : exn) (o : option A) : M S A :=
  match o with
  | Some a => ret a
  | None => raise e
  end.

Notation "x <- m ;; k" := (bind m (fun x => k))
  (at level 100, m at next level, right associativity).
Notation "m ;;; k" := (bind m (fun _ => k))
  (at level 100, right associativity).

(** [m] never writes an attribute. *)
Definition read_only {S A} (m : M S A) : Prop := forall s, fst (m s) = s.

(** The allowed-transition table both engines spell out as the dictionary
    [valid_transitions]. *)
Definition valid_transitions (from : Phase) : list Phase :=
  match from with
  | Start => [Quarter]
  | Quarter => [Peak; Start]
  | Peak => [Return]
  | Return => [End; Peak]
  | End => [Start]
  end.

Definition allowed (from to : Phase) : bool :=
  bool_decide (to ∈ valid_transitions from).

(** [expected_sequence] of the two scorers. *)
Definition expected_sequence : list Phase := [Start; Quarter; Peak; Return; End].

(** [sum(1 for i, phase in enumerate(recent) if i < len(expected) and
    phase == expected[i])] *)
Fixpoint positional_matches (recent expected : list Phase) : nat :=
  match recent, expected with
  | p :: r, e :: x => (if bool_decide (p = e) then 1 else 0) + positional_matches r x
  | _, _ => 0
  end.

(* ------------------------------------------------------------------------- *)
(** ** numpy statistics over the reals *)
(* ------------------------------------------------------------------------- *)

Module Stats.
Local Open Scope R_scope.

Definition Rsum (l : list R) : R := fold_right Rplus 0 l.

(** [numpy.mean] *)
Definition np_mean (l : list R) : R := Rsum l / INR (length l).

(** [numpy.std] with its default [ddof=0]: the root of the mean squared
    deviation. *)
Definition np_std (l : list R) : R :=
  sqrt (np_mean (map (fun x => (x - np_mean l) * (x - np_mean l)) l)).

(** [max(l)] on a non-empty list of floats. *)
Definition Rmax_list (l : list R) : R :=
  match l with
  | [] => 0
  | x :: t => fold_left Rmax t x
  end.

End Stats.

(** [for x in l: ...] collecting one result per item, stopping at the first
    exception. *)
Fixpoint forM {S A B} (f : A -> M S B) (l : list A) : M S (list B) :=
  match l with
  | [] => ret []
  | x :: t => (y <- f x ;; ys <- forM f t ;; ret (y :: ys))
  end.

(* ------------------------------------------------------------------------- *)
(** ** The comprehensive engine ([comprehensive_pose_corrector.py]) *)
(* ------------------------------------------------------------------------- *)

Module Comprehensive.
Local Open Scope Q_scope.
Local Open Scope string_scope.

(** One threshold dictionary of [load_exercise_thresholds].  The category
    dictionaries leave ['phase_stability'] and ['confidence_threshold'] out:
    [None] is the absent key, whose subscript raises [KeyError]. *)
Record Thresholds := {
  min_angle_range : Q;
  phase_stability : option nat;
  rep_cooldown : Q;
  confidence_threshold : option Q;
  velocity_threshold : Q
}.

Definition default_thresholds : Thresholds :=
  {| min_angle_range := 25; phase_stability := Some 3%nat; rep_cooldown := 20;
     confidence_threshold := Some (7#10); velocity_threshold := 3#2 |}.

Definition exercise_specific : gmap string Thresholds :=
  {[ "upper_body" := {| min_angle_range := 30; phase_stability := None;
                        rep_cooldown := 15; confidence_threshold := None;
                        velocity_threshold := 2 |};
     "lower_body" := {| min_angle_range := 35; phase_stability := None;
                        rep_cooldown := 25; confidence_threshold := None;
                        velocity_threshold := 12#10 |};
     "core" := {| min_angle_range := 20; phase_stability := None;
                  rep_cooldown := 18; confidence_threshold := None;
                  velocity_threshold := 18#10 |};
     "cardio" := {| min_angle_range := 15; phase_stability := None;
                    rep_cooldown := 10; confidence_threshold := None;
                    velocity_threshold := 25#10 |} ]}.

(** The attributes of [ComprehensivePoseCorrector] that rep detection reads or
    writes ([session_stats] by its two counters). *)
Record State := {
  angle_buffer : list (list Q);          (* deque(maxlen=60) *)
  phase_buffer : list Phase;             (* deque(maxlen=20) *)
  phase_history_buffer : list Phase;     (* deque(maxlen=10) *)
  rep_count : nat;
  current_phase : Phase;
  last_rep_time : Q;
  movement_quality_history : list R;     (* deque(maxlen=30) *)
  current_exercise_name : string;
  current_category : string;
  exercise_confidence : Q;
  total_reps : nat;                      (* session_stats['total_reps'] *)
  exercise_changes : nat                 (* session_stats['exercise_changes'] *)
}.

(** [__init__] *)
Definition init : State :=
  {| angle_buffer := []; phase_buffer := []; phase_history_buffer := [];
     rep_count := 0; current_phase := Start; last_rep_time := 0;
     movement_quality_history := []; current_exercise_name := "unknown";
     current_category := "general"; exercise_confidence := 0;
     total_reps := 0; exercise_changes := 0 |}.

Definition set_angle_buffer (v : list (list Q)) (s : State) : State :=
  {| angle_buffer := v; phase_buffer := phase_buffer s;
     phase_history_buffer := phase_history_buffer s; rep_count := rep_count s;
     current_phase := current_phase s; last_rep_time := last_rep_time s;
     movement_quality_history := movement_quality_history s;
     current_exercise_name := current_exercise_name s;
     current_category := current_category s;
     exercise_confidence := exercise_confidence s;
     total_reps := total_reps s; exercise_changes := exercise_changes s |}.

Definition set_phase_buffer (v : list Phase) (s : State) : State :=
  {| angle_buffer := angle_buffer s; phase_buffer := v;
     phase_history_buffer := phase_history_buffer s; rep_count := rep_count s;
     current_phase := current_phase s; last_rep_time := last_rep_time s;
     movement_quality_history := movement_quality_history s;
     current_exercise_name := current_exercise_name s;
     current_category := current_category s;
     exercise_confidence := exercise_confidence s;
     total_reps := total_reps s; exercise_changes := exercise_changes s |}.

(** [self.current_phase = p; self.phase_history_buffer.append(p)] *)
Definition commit_phase (p : Phase) (s : State) : State :=
  {| angle_buffer := angle_buffer s; phase_buffer := phase_buffer s;
     phase_history_buffer := deque_append 10 p (phase_history_buffer s);
     rep_count := rep_count s;
     current_phase := p; last_rep_time := last_rep_time s;
     movement_quality_history := movement_quality_history s;
     current_exercise_name := current_exercise_name s;
     current_category := current_category s;
     exercise_confidence := exercise_confidence s;
     total_reps := total_reps s; exercise_changes := exercise_changes s |}.

(** [self.rep_count += 1; self.session_stats['total_reps'] += 1;
    self.last_rep_time = timestamp] *)
Definition count_rep (timestamp : Q) (s : State) : State :=
  {| angle_buffer := angle_buffer s; phase_buffer := phase_buffer s;
     phase_history_buffer := phase_history_buffer s;
     rep_count := rep_count s + 1;
     current_phase := current_phase s; last_rep_time := timestamp;
     movement_quality_history := movement_quality_history s;
     current_exercise_name := current_exercise_name s;
     current_category := current_category s;
     exercise_confidence := exercise_confidence s;
     total_reps := total_reps s + 1; exercise_changes := exercise_changes s |}.

Definition push_quality (q : R) (s : State) : State :=
  {| angle_buffer := angle_buffer s; phase_buffer := phase_buffer s;
     phase_history_buffer := phase_history_buffer s; rep_count := rep_count s;
     current_phase := current_phase s; last_rep_time := last_rep_time s;
     movement_quality_history := deque_append 30 q (movement_quality_history s);
     current_exercise_name := current_exercise_name s;
     current_category := current_category s;
     exercise_confidence := exercise_confidence s;
     total_reps := total_reps s; exercise_changes := exercise_changes s |}.

(** [get_primary_angles_for_exercise]: the category's four channel indices. *)
Definition category_angles : gmap string (list nat) :=
  {[ "upper_body" := [0; 1; 2; 3]%nat; "lower_body" := [4; 5; 6; 7]%nat;
     "core" := [2; 3; 4; 5]%nat; "cardio" := [0; 1; 6; 7]%nat;
     "general" := [0; 1; 2; 3]%nat ]}.

Definition get_primary_angles_for_exercise (category : string) : list nat :=
  default [0; 1; 2; 3]%nat (category_angles !! category).

(** [self.exercise_thresholds['category_specific'].get(self.current_category,
    self.exercise_thresholds['default'])] *)
Definition category_thresholds (s : State) : Thresholds :=
  default default_thresholds (exercise_specific !! current_category s).

(** The position of [primary_angle] within the window of channel values. *)
Definition position_in_range (primary_angle min_val max_val : Q) : Q :=
  if Qltb min_val max_val then (primary_angle - min_val) / (max_val - min_val)
  else 1#2.

(** The [if]/[elif] chain of [determine_exercise_phase] below the position. *)
Definition phase_rules (cur : Phase) (position velocity vthresh : Q) : Phase :=
  match cur with
  | Start =>
      if Qltb (25#100) position && Qltb vthresh velocity then Quarter else cur
  | Quarter =>
      if Qltb (7#10) position && Qltb (vthresh * (8#10)) velocity then Peak
      else if Qltb position (15#100) then Start
      else cur
  | Peak =>
      if Qltb position (6#10) && Qltb (vthresh * (6#10)) velocity then Return
      else cur
  | Return =>
      if Qltb position (2#10) && Qltb velocity (vthresh * (5#10)) then End
      else if Qltb (7#10) position then Peak
      else cur
  | End =>
      if Qltb velocity 1 && Qltb position (15#100) then End
      else if Qltb vthresh velocity && Qltb (2#10) position then Start
      else cur
  end.

Definition determine_exercise_phase (primary_angle velocity angle_range : Q)
    (thresholds : Thresholds) (recent_angles : list (list Q)) (angle_idx : nat)
    : M State Phase :=
  s <- get ;;
  if Qltb angle_range (min_angle_range thresholds) then ret (current_phase s)
  else
    recent_vals <- orraise IndexError (column angle_idx recent_angles) ;;
    min_val <- orraise ValueError (py_min recent_vals) ;;
    max_val <- orraise ValueError (py_max recent_vals) ;;
    ret (phase_rules (current_phase s)
           (position_in_range primary_angle min_val max_val)
           velocity (velocity_threshold thresholds)).

Definition validate_and_update_phase (new_phase : Phase) (thresholds : Thresholds)
    : M State unit :=
  k <- orraise KeyError (phase_stability thresholds) ;;
  s <- get ;;
  let recent_phases := last_n k (phase_buffer s) in
  if (2 <=? py_count new_phase recent_phases)%nat then
    if allowed (current_phase s) new_phase then modify (commit_phase new_phase)
    else ret tt
  else ret tt.

(** [self.phase_buffer.append(new_phase)] *)
Definition vote (new_phase : Phase) (s : State) : State :=
  set_phase_buffer (deque_append 20 new_phase (phase_buffer s)) s.

(** The lines "Phase stability and transition validation" of
    [advanced_rep_detection]: the vote is buffered, and validated once
    [thresholds['phase_stability']] votes are there. *)
Definition stabilize (new_phase : Phase) (thresholds : Thresholds) : M State unit :=
  modify (vote new_phase) ;;;
  k <- orraise KeyError (phase_stability thresholds) ;;
  s <- get ;;
  if (k <=? length (phase_buffer s))%nat
  then validate_and_update_phase new_phase thresholds
  else ret tt.

Definition check_rep_completion (s : State) (timestamp max_range : Q)
    (thresholds : Thresholds) : bool :=
  bool_decide (current_phase s = End)
  && Qltb (rep_cooldown thresholds / 30) (timestamp - last_rep_time s)
  && Qltb (min_angle_range thresholds) max_range
  && (3 <=? length (phase_history_buffer s))%nat.

(** The score of [calculate_movement_quality] from the two metric lists and
    the committed-phase history. *)
Definition movement_quality (angle_ranges velocities : list R)
    (history : list Phase) : R :=
  (let range_quality :=
     match angle_ranges with
     | [] => 1 / 2
     | _ => Rmin (Stats.Rmax_list angle_ranges / 60) 1
     end in
   let velocity_consistency :=
     if (1 <? length velocities)%nat then
       Rmax 0 (Rmin 1 (1 - Stats.np_std velocities
                             / (Stats.np_mean velocities + / 1000000)))
     else 1 / 2 in
   let sequence_quality :=
     if (5 <=? length history)%nat then
       INR (positional_matches (last_n 5 history) expected_sequence) / 5
     else 1 / 2 in
   range_quality * (4 / 10) + velocity_consistency * (3 / 10)
   + sequence_quality * (3 / 10))%R.

(** [calculate_movement_quality]; nothing in its [try] block raises on lists
    of floats, so the [except] branch is left out. *)
Definition calculate_movement_quality (angle_ranges velocities : list Q)
    (thresholds : Thresholds) : M State R :=
  s <- get ;;
  let overall_quality :=
    movement_quality (map Q2R angle_ranges) (map Q2R velocities)
                     (phase_history_buffer s) in
  modify (push_quality overall_quality) ;;;
  ret overall_quality.

(** The range of channel [idx] over the trailing 15 frames of a buffer,
    [max(values) - min(values)]. *)
Definition trailing_range (buffer : list (list Q)) (idx : nat) : option Q :=
  values ← column idx (last_n 15 buffer);
  hi ← py_max values;
  lo ← py_min values;
  Some (hi - lo).

(** One round of the [for] loop over the primary channels: the channel's range
    and velocity over the trailing frames. *)
Definition channel_metrics (recent_angles : list (list Q)) (angle_idx : nat)
    : M State (Q * Q) :=
  values <- orraise IndexError (column angle_idx recent_angles) ;;
  hi <- orraise ValueError (py_max values) ;;
  lo <- orraise ValueError (py_min values) ;;
  if (5 <=? length values)%nat then
    v1 <- orraise IndexError (values !! (length values - 1)%nat) ;;
    v5 <- orraise IndexError (values !! (length values - 5)%nat) ;;
    ret (hi - lo, py_abs (v1 - v5) / 4)
  else ret (hi - lo, 0).

(** What [advanced_rep_detection] returns: rep count, phase, confidence and
    movement quality. *)
Definition Result : Type := nat * Phase * Q * R.

(** The [try] block of [advanced_rep_detection] below the early return;
    [None] is the implicit [return None] after the inner [if]. *)
Definition detection_body (current_angles : list Q) (timestamp : Q)
    : M State (option Result) :=
  modify (fun s => set_angle_buffer (deque_append 60 current_angles (angle_buffer s)) s) ;;;
  s <- get ;;
  let thresholds := category_thresholds s in
  if (15 <=? length (angle_buffer s))%nat then
    let recent_angles := last_n 15 (angle_buffer s) in
    let primary_angles := get_primary_angles_for_exercise (current_category s) in
    metrics <- forM (channel_metrics recent_angles) primary_angles ;;
    let angle_ranges := map fst metrics in
    let angle_velocities := map snd metrics in
    let max_range_idx := np_argmax angle_ranges in
    actual_angle_idx <- orraise IndexError (primary_angles !! max_range_idx) ;;
    primary_angle_val <- orraise IndexError (current_angles !! actual_angle_idx) ;;
    let max_velocity := default 0 (py_max angle_velocities) in
    range_at <- orraise IndexError (angle_ranges !! max_range_idx) ;;
    new_phase <- determine_exercise_phase primary_angle_val max_velocity range_at
                   thresholds recent_angles actual_angle_idx ;;
    stabilize new_phase thresholds ;;;
    max_range <- orraise ValueError (py_max angle_ranges) ;;
    s <- get ;;
    (if check_rep_completion s timestamp max_range thresholds
     then modify (count_rep timestamp) else ret tt) ;;;
    quality <- calculate_movement_quality angle_ranges angle_velocities thresholds ;;
    s <- get ;;
    ret (Some (rep_count s, current_phase s, 8#10, quality))
  else ret None.

(** [advanced_rep_detection(current_angles, timestamp)]: the early return, the
    [try] block, and the [except] branch that reports the attributes as the
    exception left them. *)
Definition advanced_rep_detection (current_angles : list Q) (timestamp : Q)
    (s : State) : State * option Result :=
  if bool_decide (current_angles = []) || (length (angle_buffer s) <? 15)%nat
  then (s, Some (rep_count s, Start, 1#2, (1 / 2)%R))
  else
    match detection_body current_angles timestamp s with
    | (s', inr r) => (s', r)
    | (s', inl _) => (s', Some (rep_count s', current_phase s', 1#2, (1 / 2)%R))
    end.

(** What [identify_exercise] hands to [process_frame]: name, similarity and
    category of the best match. *)
Definition Identified : Type := string * Q * string.

(** The session part of [process_frame] for a frame with landmarks: with
    features at hand, the exercise context follows a confident new match and
    rep detection runs; [None] is the frame without analysis. *)
Definition process_frame (ident : Identified) (pose_features : list Q)
    (timestamp : Q) (s : State) : State * option Result :=
  let '(exercise_name, similarity, category) := ident in
  if bool_decide (pose_features = []) then (s, None) else
  let s1 :=
    if Qltb (7#10) similarity
       && negb (bool_decide (exercise_name = current_exercise_name s))
    then {| angle_buffer := angle_buffer s; phase_buffer := phase_buffer s;
            phase_history_buffer := phase_history_buffer s;
            rep_count := rep_count s; current_phase := current_phase s;
            last_rep_time := last_rep_time s;
            movement_quality_history := movement_quality_history s;
            current_exercise_name := exercise_name;
            current_category := category;
            exercise_confidence := similarity;
            total_reps := total_reps s;
            exercise_changes := exercise_changes s + 1 |}
    else s in
  advanced_rep_detection pose_features timestamp s1.

(** The ['r'] key of [main]: [rep_count = 0; session_stats['total_reps'] = 0]. *)
Definition reset_key (s : State) : State :=
  {| angle_buffer := angle_buffer s; phase_buffer := phase_buffer s;
     phase_history_buffer := phase_history_buffer s; rep_count := 0;
     current_phase := current_phase s; last_rep_time := last_rep_time s;
     movement_quality_history := movement_quality_history s;
     current_exercise_name := current_exercise_name s;
     current_category := current_category s;
     exercise_confidence := exercise_confidence s;
     total_reps := 0; exercise_changes := exercise_changes s |}.

(** One frame of a session, and a run of frames with no reset in between. *)
Definition ingest (s : State) (f : Identified * list Q * Q) : State :=
  let '(ident, pose_features, timestamp) := f in
  fst (process_frame ident pose_features timestamp s).

Definition ingest_all (s : State) (frames : list (Identified * list Q * Q)) : State :=
  fold_left ingest frames s.

(** What reaches a session between its creation and its end. *)
Inductive Event :=
| Frame (ident : Identified) (pose_features : list Q) (timestamp : Q)
| KeyR.

Definition step (s : State) (e : Event) : State :=
  match e with
  | Frame ident pose_features timestamp =>
      fst (process_frame ident pose_features timestamp s)
  | KeyR => reset_key s
  end.

Definition run (s : State) (events : list Event) : State :=
  fold_left step events s.


(** *** Shapes of one call, for the properties below *)

(** The three tests a buffered vote passes to be committed. *)
Definition consensus (k : nat) (new_phase : Phase) (s : State) : bool :=
  (k <=? length (phase_buffer s))%nat
  && (2 <=? py_count new_phase (last_n k (phase_buffer s)))%nat
  && allowed (current_phase s) new_phase.

(** The ways the [try] block of [advanced_rep_detection] can end, from the
    object [s1] that already holds the new frame. *)
Inductive body_end (timestamp : Q) (s1 : State)
  : State -> exn + option Result -> Prop :=
| end_before_vote r :
    body_end timestamp s1 s1 r
| end_in_stabilize p s2 e :
    stabilize p (category_thresholds s1) s1 = (s2, inl e) ->
    body_end timestamp s1 s2 (inl e)
| end_after_vote p s2 e :
    stabilize p (category_thresholds s1) s1 = (s2, inr tt) ->
    body_end timestamp s1 s2 (inl e)
| end_normally p s2 metrics max_range :
    forM (channel_metrics (last_n 15 (angle_buffer s1)))
         (get_primary_angles_for_exercise (current_category s1)) s1
      = (s1, inr metrics) ->
    py_max (map fst metrics) = Some max_range ->
    stabilize p (category_thresholds s1) s1 = (s2, inr tt) ->
    let s3 := if check_rep_completion s2 timestamp max_range (category_thresholds s1)
              then count_rep timestamp s2 else s2 in
    let q := movement_quality (map Q2R (map fst metrics)) (map Q2R (map snd metrics))
                              (phase_history_buffer s3) in
    body_end timestamp s1 (push_quality q s3)
             (inr (Some (rep_count s3, current_phase s3, 8#10, q))).

(** One call of [advanced_rep_detection], attribute by attribute. *)
Definition phase_kept_or_moved (s s' : State) : Prop :=
  (current_phase s' = current_phase s
   /\ phase_history_buffer s' = phase_history_buffer s)
  \/ (allowed (current_phase s) (current_phase s') = true
      /\ phase_history_buffer s' =
         deque_append 10 (current_phase s') (phase_history_buffer s)).

Definition rep_kept (s s' : State) : Prop :=
  rep_count s' = rep_count s /\ total_reps s' = total_reps s
  /\ last_rep_time s' = last_rep_time s.

Definition rep_counted (timestamp : Q) (s s' : State) : Prop :=
  rep_count s' = (rep_count s + 1)%nat
  /\ total_reps s' = (total_reps s + 1)%nat
  /\ last_rep_time s' = timestamp
  /\ current_phase s' = End
  /\ rep_cooldown (category_thresholds s) / 30 < timestamp - last_rep_time s
  /\ (exists idx r,
        idx ∈ get_primary_angles_for_exercise (current_category s)
        /\ trailing_range (angle_buffer s') idx = Some r
        /\ min_angle_range (category_thresholds s) < r)
  /\ (3 <= length (phase_history_buffer s'))%nat.

(** What a session created by [__init__] keeps for ever. *)
Definition untouched (s : State) : Prop :=
  angle_buffer s = [] /\ phase_buffer s = [] /\ phase_history_buffer s = []
  /\ current_phase s = Start /\ rep_count s = 0%nat.

End Comprehensive.

(* ------------------------------------------------------------------------- *)
(** ** Strings of exercise names *)
(* ------------------------------------------------------------------------- *)

(** A string of ASCII characters only ([str.isascii()]).  The strings of this
    development are byte strings: they stand for the Python strings that hold
    ASCII characters only, and [lower] below is [str.lower()] on those; a name
    with other letters, which [str.lower()] would map by the Unicode tables,
    is outside the model. *)
Definition is_ascii_char (c : ascii) : bool := (nat_of_ascii c <? 128)%nat.

Fixpoint is_ascii (s : string) : bool :=
  match s with
  | EmptyString => true
  | String c t => is_ascii_char c && is_ascii t
  end.

(** [str.lower()] on an ASCII string: the letters A to Z move to a to z. *)
Definition lower_ascii (c : ascii) : ascii :=
  let n := nat_of_ascii c in
  if (65 <=? n)%nat && (n <=? 90)%nat then ascii_of_nat (n + 32) else c.

Fixpoint lower (s : string) : string :=
  match s with
  | EmptyString => EmptyString
  | String c t => String (lower_ascii c) (lower t)
  end.

(** [sub in s] on strings. *)
Fixpoint contains (sub s : string) : bool :=
  String.prefix sub s
  || match s with
     | EmptyString => false
     | String _ t => contains sub t
     end.

(* ------------------------------------------------------------------------- *)
(** ** The professional engine ([professional_pose_corrector.py]) *)
(* ------------------------------------------------------------------------- *)

Module Professional.
Local Open Scope Q_scope.
Local Open Scope string_scope.

(** [self.thresholds], never reassigned. *)
Definition min_angle_range : Q := 25.
Definition phase_stability_frames : nat := 3.
Definition rep_cooldown_seconds : Q := 1.
Definition velocity_threshold : Q := 15#10.

(** One entry of [self.exercise_patterns]. *)
Record Pattern := {
  pattern_mean : list Q;
  pattern_range : list Q;
  pattern_phases : nat
}.

(** What [load_exercise_database] leaves on the object. *)
Record Database := {
  exercise_mapping : gmap string string;
  exercise_patterns : gmap string Pattern
}.

(** [angle_buffer] receives the primary angle (a float) from
    [universal_rep_detection] and the whole feature list from
    [advanced_rep_detection]. *)
Inductive Entry :=
| Scalar (x : Q)
| Vector (v : list Q).

Record State := {
  current_exercise_id : option string;
  current_exercise_name : string;
  target_exercise_pattern : option Pattern;
  angle_buffer : list Entry;             (* deque(maxlen=45) *)
  phase_buffer : list Phase;             (* deque(maxlen=10) *)
  phase_history : list Phase;            (* deque(maxlen=20) *)
  rep_count : nat;
  current_phase : Phase;
  last_rep_time : Q;
  phase_transition_count : nat;
  form_scores : list Q;                  (* deque(maxlen=30) *)
  confidence_scores : list R;            (* deque(maxlen=30) *)
  session_start_time : option Q;
  rep_flash_timer : Q
}.

(** [__init__], created at time [now]. *)
Definition init (now : Q) : State :=
  {| current_exercise_id := None;
     current_exercise_name := "No exercise selected";
     target_exercise_pattern := None;
     angle_buffer := []; phase_buffer := []; phase_history := [];
     rep_count := 0; current_phase := Start; last_rep_time := 0;
     phase_transition_count := 0; form_scores := []; confidence_scores := [];
     session_start_time := Some now; rep_flash_timer := 0 |}.

Definition set_angle_buffer (v : list Entry) (s : State) : State :=
  {| current_exercise_id := current_exercise_id s;
     current_exercise_name := current_exercise_name s;
     target_exercise_pattern := target_exercise_pattern s;
     angle_buffer := v; phase_buffer := phase_buffer s;
     phase_history := phase_history s; rep_count := rep_count s;
     current_phase := current_phase s; last_rep_time := last_rep_time s;
     phase_transition_count := phase_transition_count s;
     form_scores := form_scores s; confidence_scores := confidence_scores s;
     session_start_time := session_start_time s;
     rep_flash_timer := rep_flash_timer s |}.

Definition set_phase_buffer (v : list Phase) (s : State) : State :=
  {| current_exercise_id := current_exercise_id s;
     current_exercise_name := current_exercise_name s;
     target_exercise_pattern := target_exercise_pattern s;
     angle_buffer := angle_buffer s; phase_buffer := v;
     phase_history := phase_history s; rep_count := rep_count s;
     current_phase := current_phase s; last_rep_time := last_rep_time s;
     phase_transition_count := phase_transition_count s;
     form_scores := form_scores s; confidence_scores := confidence_scores s;
     session_start_time := session_start_time s;
     rep_flash_timer := rep_flash_timer s |}.

Definition set_phase_history (v : list Phase) (s : State) : State :=
  {| current_exercise_id := current_exercise_id s;
     current_exercise_name := current_exercise_name s;
     target_exercise_pattern := target_exercise_pattern s;
     angle_buffer := angle_buffer s; phase_buffer := phase_buffer s;
     phase_history := v; rep_count := rep_count s;
     current_phase := current_phase s; last_rep_time := last_rep_time s;
     phase_transition_count := phase_transition_count s;
     form_scores := form_scores s; confidence_scores := confidence_scores s;
     session_start_time := session_start_time s;
     rep_flash_timer := rep_flash_timer s |}.

(** [self.current_phase = p; self.phase_history.append(p)], with
    [self.phase_transition_count += bump]. *)
Definition commit_phase (p : Phase) (bump : nat) (s : State) : State :=
  {| current_exercise_id := current_exercise_id s;
     current_exercise_name := current_exercise_name s;
     target_exercise_pattern := target_exercise_pattern s;
     angle_buffer := angle_buffer s; phase_buffer := phase_buffer s;
     phase_history := deque_append 20 p (phase_history s);
     rep_count := rep_count s;
     current_phase := p; last_rep_time := last_rep_time s;
     phase_transition_count := phase_transition_count s + bump;
     form_scores := form_scores s; confidence_scores := confidence_scores s;
     session_start_time := session_start_time s;
     rep_flash_timer := rep_flash_timer s |}.

(** [self.rep_count += 1; self.last_rep_time = timestamp;
    self.rep_flash_timer = timestamp]; [transitions] is the transition counter
    and [history] the committed-phase history the caller leaves behind. *)
Definition count_rep (timestamp : Q) (transitions : nat) (history : list Phase)
    (s : State) : State :=
  {| current_exercise_id := current_exercise_id s;
     current_exercise_name := current_exercise_name s;
     target_exercise_pattern := target_exercise_pattern s;
     angle_buffer := angle_buffer s; phase_buffer := phase_buffer s;
     phase_history := history; rep_count := rep_count s + 1;
     current_phase := current_phase s; last_rep_time := timestamp;
     phase_transition_count := transitions;
     form_scores := form_scores s; confidence_scores := confidence_scores s;
     session_start_time := session_start_time s;
     rep_flash_timer := timestamp |}.

Definition push_confidence (c : R) (s : State) : State :=
  {| current_exercise_id := current_exercise_id s;
     current_exercise_name := current_exercise_name s;
     target_exercise_pattern := target_exercise_pattern s;
     angle_buffer := angle_buffer s; phase_buffer := phase_buffer s;
     phase_history := phase_history s; rep_count := rep_count s;
     current_phase := current_phase s; last_rep_time := last_rep_time s;
     phase_transition_count := phase_transition_count s;
     form_scores := form_scores s;
     confidence_scores := deque_append 30 c (confidence_scores s);
     session_start_time := session_start_time s;
     rep_flash_timer := rep_flash_timer s |}.

(** [set_target_exercise(exercise_id)]: binds the exercise and resets the
    counters when the id is in the database, and only prints otherwise. *)
Definition set_target_exercise (db : Database) (exercise_id : string)
    (s : State) : State * bool :=
  match exercise_mapping db !! exercise_id with
  | Some name =>
      ({| current_exercise_id := Some exercise_id;
          current_exercise_name := name;
          target_exercise_pattern := exercise_patterns db !! exercise_id;
          angle_buffer := angle_buffer s; phase_buffer := [];
          phase_history := []; rep_count := 0;
          current_phase := Start; last_rep_time := 0;
          phase_transition_count := phase_transition_count s;
          form_scores := []; confidence_scores := [];
          session_start_time := session_start_time s;
          rep_flash_timer := rep_flash_timer s |}, true)
  | None => (s, false)
  end.

(** *** [universal_rep_detection] *)

(** The [angles] dictionary of [extract_pose_features], read with
    [angles.get(name, 90)]. *)
Definition angle (angles : gmap string Q) (name : string) : Q :=
  default 90 (angles !! name).

(** [min(a, b)] and [max(a, b)] of two floats. *)
Definition min2 (a b : Q) : Q := if Qltb b a then b else a.
Definition max2 (a b : Q) : Q := if Qltb a b then b else a.

(** The dictionary [angle_thresholds]. *)
Record AngleThresholds := {
  extended : Q;
  quarter : Q;
  peak : Q;
  return_ : Q
}.

(** [max] of a list of [(range, joint)] tuples, compared as tuples. *)
Definition pair_lt (a b : Q * nat) : bool :=
  Qltb (fst a) (fst b) || (Qeq_bool (fst a) (fst b) && (snd a <? snd b)%nat).

Definition max_pair (l : list (Q * nat)) : option (Q * nat) :=
  match l with
  | [] => None
  | x :: t => Some (fold_left (fun m y => if pair_lt m y then y else m) t x)
  end.

(** The floats among buffer entries ([isinstance(v, (int, float))]). *)
Definition scalars (l : list Entry) : list Q :=
  omap (fun e => match e with Scalar x => Some x | Vector _ => None end) l.

(** All entries as floats, or [None] when one is a list: [max(l) - min(l)]
    then raises [TypeError]. *)
Definition all_scalars (l : list Entry) : option (list Q) :=
  mapM (fun e => match e with Scalar x => Some x | Vector _ => None end) l.

(** The generic branch's choice of the primary angle. *)
Definition generic_primary_angle (angles : gmap string Q) (buffer : list Entry) : Q :=
  let elbows := min2 (angle angles "left_elbow") (angle angles "right_elbow") in
  let all_angles :=
    [angle angles "left_elbow"; angle angles "right_elbow";
     angle angles "left_shoulder"; angle angles "right_shoulder";
     angle angles "left_knee"; angle angles "right_knee"] in
  if (10 <=? length buffer)%nat then
    let joint_values := scalars (last_n 10 buffer) in
    let angle_ranges :=
      omap (fun i =>
              match py_max joint_values, py_min joint_values with
              | Some hi, Some lo =>
                  if (1 <? length joint_values)%nat then Some (hi - lo, i) else None
              | _, _ => None
              end) (seq 0 (length all_angles)) in
    match max_pair angle_ranges with
    | Some (_, best_joint) => default elbows (all_angles !! best_joint)
    | None => elbows
    end
  else elbows.

(** The branch on the lower-cased exercise name: the primary angle and the
    angle thresholds of the movement family. *)
Definition primary_movement (exercise_name : string) (angles : gmap string Q)
    (buffer : list Entry) : Q * AngleThresholds :=
  let has w := contains w exercise_name in
  let elbows := min2 (angle angles "left_elbow") (angle angles "right_elbow") in
  if has "curl" then
    (elbows, {| extended := 150; quarter := 120; peak := 70; return_ := 110 |})
  else if has "squat" || has "lunge" then
    (min2 (angle angles "left_knee") (angle angles "right_knee"),
     {| extended := 170; quarter := 140; peak := 90; return_ := 120 |})
  else if has "press" && (has "bench" || has "chest") then
    (elbows, {| extended := 170; quarter := 120; peak := 70; return_ := 100 |})
  else if has "press" && (has "shoulder" || has "overhead") then
    (elbows, {| extended := 170; quarter := 130; peak := 60; return_ := 100 |})
  else if has "raise" || (has "lateral" && has "raise") then
    (max2 (angle angles "left_shoulder") (angle angles "right_shoulder"),
     {| extended := 30; quarter := 60; peak := 120; return_ := 90 |})
  else if has "row" || (has "pull" && negb (has "down")) then
    (elbows, {| extended := 170; quarter := 120; peak := 70; return_ := 100 |})
  else if has "pulldown" || (has "pull" && has "down") then
    (elbows, {| extended := 170; quarter := 120; peak := 60; return_ := 100 |})
  else
    (generic_primary_angle angles buffer,
     {| extended := 160; quarter := 120; peak := 70; return_ := 100 |}).

(** "Universal phase detection": the phase of an angle by absolute bands. *)
Definition phase_of_angle (primary_angle : Q) (thresholds : AngleThresholds) : Phase :=
  if Qltb (extended thresholds) primary_angle then Start
  else if Qltb (quarter thresholds) primary_angle then Quarter
  else if Qltb primary_angle (peak thresholds) then Peak
  else if Qltb primary_angle (return_ thresholds) then Return
  else End.

(** [deque[-5:]]: a deque cannot be sliced, the subscript raises
    [TypeError: sequence index must be integer, not 'slice']. *)
Definition deque_slice {A} (d : list A) : option (list A) := None.

Section Universal.

(** The order in which Python iterates over [set(self.phase_buffer)]; it
    depends on the string hashes of the run. *)
Variable set_iter : list Phase -> list Phase.

(** [max(set(buf), key=list(buf).count)]: the first phase, in the set's
    iteration order, with the largest count. *)
Definition most_common (buf : list Phase) : option Phase :=
  match set_iter buf with
  | [] => None
  | x :: t =>
      Some (fold_left
              (fun m y => if (py_count m buf <? py_count y buf)%nat then y else m)
              t x)
  end.

(** What the two detections return: rep count, phase and confidence. *)
Definition Result : Type := nat * Phase * R.

(** The body of [universal_rep_detection] below its first guard. *)
Definition universal_body (angles : gmap string Q) (timestamp : Q)
    : M State Result :=
  s <- get ;;
  let exercise_name := lower (current_exercise_name s) in
  let '(primary_angle, thresholds) :=
    primary_movement exercise_name angles (angle_buffer s) in
  modify (fun s => set_angle_buffer (deque_append 45 (Scalar primary_angle) (angle_buffer s)) s) ;;;
  s <- get ;;
  if (length (angle_buffer s) <? 10)%nat then
    ret (rep_count s, current_phase s, (1 / 2)%R)
  else
    recent_angles <- orraise TypeError (all_scalars (last_n 10 (angle_buffer s))) ;;
    hi <- orraise ValueError (py_max recent_angles) ;;
    lo <- orraise ValueError (py_min recent_angles) ;;
    let angle_range := hi - lo in
    let new_phase := phase_of_angle primary_angle thresholds in
    modify (fun s => set_phase_buffer (deque_append 10 new_phase (phase_buffer s)) s) ;;;
    s <- get ;;
    (if (3 <=? length (phase_buffer s))%nat then
       most <- orraise ValueError (most_common (phase_buffer s)) ;;
       if bool_decide (most = current_phase s) then ret tt
       else modify (commit_phase most 0)
     else ret tt) ;;;
    s <- get ;;
    cycle_complete <-
      (if (3 <=? length (phase_history s))%nat then
         recent <- orraise TypeError (deque_slice (phase_history s)) ;;
         ret (bool_decide (Peak ∈ recent) && bool_decide (current_phase s = Start))
       else ret false) ;;
    let is_good_rep :=
      cycle_complete && Qltb (8#10) (timestamp - last_rep_time s)
      && Qltb 35 angle_range in
    (if is_good_rep then modify (count_rep timestamp (phase_transition_count s) [])
     else ret tt) ;;;
    let confidence :=
      if Qltb 0 angle_range then Rmin 1 (Q2R angle_range / 80) else (1 / 2)%R in
    modify (push_confidence confidence) ;;;
    s <- get ;;
    ret (rep_count s, current_phase s, confidence).

(** [universal_rep_detection(features, angles, timestamp)]; it has no [try]
    block of its own, an exception leaves through [inl]. *)
Definition universal_rep_detection (features : list Q) (angles : gmap string Q)
    (timestamp : Q) (s : State) : State * (exn + Result) :=
  if bool_decide (features = []) || bool_decide (angles = ∅)
  then (s, inr (rep_count s, current_phase s, (1 / 2)%R))
  else universal_body angles timestamp s.

End Universal.

(** *** [advanced_rep_detection] and its helpers *)

(** [numpy.argsort] of a short array: the indices in ascending order of their
    values, equal values in index order. *)
Fixpoint insert_by (key : nat -> Q) (i : nat) (sorted : list nat) : list nat :=
  match sorted with
  | [] => [i]
  | j :: t => if Qltb (key i) (key j) then i :: j :: t
              else j :: insert_by key i t
  end.

Definition np_argsort (a : list Q) : list nat :=
  fold_left (fun acc i => insert_by (fun j => default 0 (a !! j)) i acc)
            (seq 0 (length a)) [].

(** [numpy.mean] of a list of floats. *)
Definition mean (l : list Q) : Q :=
  fold_right Qplus 0 l / inject_Z (Z.of_nat (length l)).

(** Column [idx] of the buffered entries; a float entry has no subscript
    ([TypeError]), a short list raises [IndexError]. *)
Fixpoint entry_column (idx : nat) (frames : list Entry) : exn + list Q :=
  match frames with
  | [] => inr []
  | Scalar _ :: _ => inl TypeError
  | Vector v :: t =>
      match v !! idx with
      | None => inl IndexError
      | Some x =>
          match entry_column idx t with
          | inl e => inl e
          | inr xs => inr (x :: xs)
          end
      end
  end.

Definition determine_movement_phase (current_angle angle_range velocity : Q)
    (recent_values : list Q) : M State Phase :=
  s <- get ;;
  let cur := current_phase s in
  if Qltb angle_range min_angle_range then ret cur
  else
    min_angle <- orraise ValueError (py_min recent_values) ;;
    max_angle <- orraise ValueError (py_max recent_values) ;;
    if Qleb max_angle min_angle then ret cur
    else
      let position := (current_angle - min_angle) / (max_angle - min_angle) in
      ret (match cur with
           | Start =>
               if Qltb (25#100) position && Qltb velocity_threshold velocity
               then Quarter else cur
           | Quarter =>
               if Qltb (75#100) position && Qltb (15#10) velocity then Peak
               else if Qltb position (2#10) && Qltb velocity 2 then Start
               else cur
           | Peak =>
               if Qltb position (7#10) && Qltb 1 velocity then Return else cur
           | Return =>
               if Qltb position (25#100) && Qltb velocity (15#10) then End
               else if Qltb (6#10) position then Peak
               else cur
           | End =>
               if Qltb velocity 1 && Qltb position (2#10) then End
               else if Qltb velocity_threshold velocity && Qltb (3#10) position
               then Start
               else cur
           end).

Definition validate_phase_transition (new_phase : Phase) : M State unit :=
  s <- get ;;
  let recent_phases := last_n phase_stability_frames (phase_buffer s) in
  if (2 <=? py_count new_phase recent_phases)%nat then
    if allowed (current_phase s) new_phase then
      if bool_decide (new_phase = current_phase s) then ret tt
      else modify (commit_phase new_phase 1)
    else ret tt
  else ret tt.

Definition detect_rep_completion (s : State) (timestamp angle_range velocity : Q)
    : bool :=
  bool_decide (current_phase s = End)
  && Qltb rep_cooldown_seconds (timestamp - last_rep_time s)
  && Qltb min_angle_range angle_range
  && (3 <=? phase_transition_count s)%nat
  && (4 <=? length (phase_history s))%nat.

Definition calculate_phase_confidence (s : State) (angle_range velocity : Q) : R :=
  (let range_quality := Rmin (Q2R angle_range / 60) 1 in
   let consistency :=
     if (5 <? length (confidence_scores s))%nat
     then 1 - Stats.np_std (last_n 5 (confidence_scores s))
     else 1 / 2 in
   let sequence_score :=
     if (4 <=? length (phase_history s))%nat then
       INR (positional_matches (last_n 5 (phase_history s)) expected_sequence) / 5
     else 1 / 2 in
   Rmax (2 / 10)
        (Rmin 1 (range_quality * (4 / 10) + consistency * (3 / 10)
                 + sequence_score * (3 / 10))))%R.

(** One round of the loop over [primary_indices]: the values and velocities
    gathered so far, extended by channel [idx]. *)
Definition gather (current_features : list Q) (recent_angles : list Entry)
    (acc : list Q * list Q) (idx : nat) : M State (list Q * list Q) :=
  let '(primary_values, velocities) := acc in
  if (idx <? length current_features)%nat then
    match entry_column idx recent_angles with
    | inl e => raise e
    | inr values =>
        if (5 <=? length values)%nat then
          v1 <- orraise IndexError (values !! (length values - 1)%nat) ;;
          v5 <- orraise IndexError (values !! (length values - 5)%nat) ;;
          ret ((primary_values ++ last_n 5 values)%list,
               (velocities ++ [py_abs (v1 - v5) / 4])%list)
        else ret ((primary_values ++ last_n 5 values)%list, velocities)
    end
  else ret acc.

Fixpoint foldM {S A B} (f : B -> A -> M S B) (l : list A) (b : B) : M S B :=
  match l with
  | [] => ret b
  | x :: t => (b' <- f b x ;; foldM f t b')
  end.

(** The [try] block of [advanced_rep_detection]. *)
Definition advanced_body (current_features : list Q) (timestamp : Q)
    : M State Result :=
  modify (fun s => set_angle_buffer (deque_append 45 (Vector current_features) (angle_buffer s)) s) ;;;
  s <- get ;;
  let recent_angles := last_n 15 (angle_buffer s) in
  let primary_indices :=
    match target_exercise_pattern s with
    | Some pattern => last_n 2 (np_argsort (pattern_range pattern))
    | None => [0; 1; 2; 3]%nat
    end in
  gathered <- foldM (gather current_features recent_angles) primary_indices ([], []) ;;
  let '(primary_values, velocities) := gathered in
  if bool_decide (primary_values = []) then
    ret (rep_count s, current_phase s, (1 / 2)%R)
  else
    let current_angle := mean (last_n 2 primary_values) in
    hi <- orraise ValueError (py_max primary_values) ;;
    lo <- orraise ValueError (py_min primary_values) ;;
    let angle_range := hi - lo in
    let max_velocity := default 0 (py_max velocities) in
    new_phase <- determine_movement_phase current_angle angle_range max_velocity
                   primary_values ;;
    modify (fun s => set_phase_buffer (deque_append 10 new_phase (phase_buffer s)) s) ;;;
    s <- get ;;
    (if (phase_stability_frames <=? length (phase_buffer s))%nat
     then validate_phase_transition new_phase else ret tt) ;;;
    s <- get ;;
    (if detect_rep_completion s timestamp angle_range max_velocity
     then modify (count_rep timestamp 0 (phase_history s)) else ret tt) ;;;
    s <- get ;;
    let confidence := calculate_phase_confidence s angle_range max_velocity in
    modify (push_confidence confidence) ;;;
    s <- get ;;
    ret (rep_count s, current_phase s, confidence).

(** [advanced_rep_detection(current_features, timestamp)] *)
Definition advanced_rep_detection (current_features : list Q) (timestamp : Q)
    (s : State) : State * Result :=
  if bool_decide (current_features = []) || (length (angle_buffer s) <? 15)%nat
  then (s, (rep_count s, Start, (1 / 2)%R))
  else if negb (bool_decide (current_exercise_name s = EmptyString))
          && (contains "curl" (lower (current_exercise_name s))
              || bool_decide (current_exercise_id s = Some "xiA6lRr"))
  then (s, (rep_count s, current_phase s, (1 / 2)%R))
  else
    match advanced_body current_features timestamp s with
    | (s', inr r) => (s', r)
    | (s', inl _) => (s', (rep_count s', current_phase s', (1 / 2)%R))
    end.

(** *** [process_frame] *)

(** The form score [analyze_exercise_form] appends to [form_scores]; [None]
    when it returns before the append (a feature list that is not 8 long, or
    an angle missing from the dictionary). *)
Definition form_score (features : list Q) (angles : gmap string Q) : option Q :=
  if bool_decide (length features = 8%nat) then
    l_elbow ← angles !! "left_elbow"; r_elbow ← angles !! "right_elbow";
    l_shoulder ← angles !! "left_shoulder"; r_shoulder ← angles !! "right_shoulder";
    l_hip ← angles !! "left_hip"; r_hip ← angles !! "right_hip";
    l_knee ← angles !! "left_knee"; r_knee ← angles !! "right_knee";
    let symmetry_score :=
      1 - (py_abs (l_elbow - r_elbow) + py_abs (l_shoulder - r_shoulder)
           + py_abs (l_hip - r_hip) + py_abs (l_knee - r_knee)) / 240 in
    Some (max2 (2#10) (min2 1 symmetry_score))
  else None.

Definition push_form_score (x : Q) (s : State) : State :=
  {| current_exercise_id := current_exercise_id s;
     current_exercise_name := current_exercise_name s;
     target_exercise_pattern := target_exercise_pattern s;
     angle_buffer := angle_buffer s; phase_buffer := phase_buffer s;
     phase_history := phase_history s; rep_count := rep_count s;
     current_phase := current_phase s; last_rep_time := last_rep_time s;
     phase_transition_count := phase_transition_count s;
     form_scores := deque_append 30 x (form_scores s);
     confidence_scores := confidence_scores s;
     session_start_time := session_start_time s;
     rep_flash_timer := rep_flash_timer s |}.

(** [if self.current_exercise_id:] *)
Definition exercise_bound (s : State) : bool :=
  match current_exercise_id s with
  | Some id => negb (bool_decide (id = EmptyString))
  | None => false
  end.

Section Session.

Variable set_iter : list Phase -> list Phase.

(** The session part of [process_frame] for a frame with landmarks and
    features: rep detection, then the form score; an exception of the
    detection ends the frame (the [except] branch only prints). *)
Definition process_frame (s : State) (f : list Q * gmap string Q * Q) : State :=
  let '(features, angles, timestamp) := f in
  if exercise_bound s && negb (bool_decide (features = [])) then
    match universal_rep_detection set_iter features angles timestamp s with
    | (s', inl _) => s'
    | (s', inr _) =>
        match form_score features angles with
        | Some x => push_form_score x s'
        | None => s'
        end
    end
  else s.

Definition run (s : State) (frames : list (list Q * gmap string Q * Q)) : State :=
  fold_left process_frame frames s.

End Session.


(** *** Shapes of one call, for the properties below *)

(** A function is an iteration order of sets when it lists the members of
    its argument once each. *)
Definition set_iteration (set_iter : list Phase -> list Phase) : Prop :=
  forall l, NoDup (set_iter l) /\ forall p, p ∈ set_iter l <-> p ∈ l.

Definition phase_stays_or_follows_edge (s s' : State) : Prop :=
  current_phase s' = current_phase s
  \/ allowed (current_phase s) (current_phase s') = true.

Definition rep_kept_or_next (s s' : State) : Prop :=
  rep_count s' = rep_count s \/ rep_count s' = (rep_count s + 1)%nat.

End Professional.

(* ------------------------------------------------------------------------- *)
(** ** The session handlers ([pose_corrector_api.py]) *)
(* ------------------------------------------------------------------------- *)

Module Api.
Local Open Scope string_scope.
Import Professional.

(** [ExerciseResponse] *)
Record ExerciseResponse := {
  status : string;
  exercise_id : string;
  exercise_name : string;
  message : string
}.

(** What a handler gives back: its response, or the [HTTPException] it
    raises. *)
Inductive Reply (A : Type) :=
| Response (a : A)
| HTTPException (status_code : nat) (detail : string).
Arguments Response {A} a.
Arguments HTTPException {A} status_code detail.

(** [POST /api/start-exercise]: the return value of [set_target_exercise] is
    dropped, and the call raises nothing, so the [except] branch with its
    status 400 is never taken. *)
Definition start_exercise (db : Database) (request_exercise_id : string)
    (s : State) : State * Reply ExerciseResponse :=
  let '(s', _) := set_target_exercise db request_exercise_id s in
  (s', Response {| status := "started";
                   exercise_id := request_exercise_id;
                   exercise_name := current_exercise_name s';
                   message := "Exercise session started: "
                                +:+ current_exercise_name s' |}).

(** [POST /api/reset] *)
Definition reset_session (s : State) : State * Reply (string * string) :=
  ({| current_exercise_id := current_exercise_id s;
      current_exercise_name := current_exercise_name s;
      target_exercise_pattern := target_exercise_pattern s;
      angle_buffer := angle_buffer s; phase_buffer := phase_buffer s;
      phase_history := []; rep_count := 0;
      current_phase := Start; last_rep_time := last_rep_time s;
      phase_transition_count := phase_transition_count s;
      form_scores := form_scores s; confidence_scores := confidence_scores s;
      session_start_time := None;
      rep_flash_timer := rep_flash_timer s |},
   Response ("reset", "Session reset successfully")).

End Api.

(* ------------------------------------------------------------------------- *)
(** ** The specification's own definitions *)
(* ------------------------------------------------------------------------- *)

(** Definitions written from the words of the specification, to be compared
    with the ones taken from the source. *)
Module Spec.

(** "position = (primaryAngleValue - windowMin) / (windowMax - windowMin) ...
    (if windowMax == windowMin, treat position as 0.5)" *)
Definition position (primaryAngleValue windowMin windowMax : Q) : Q :=
  if Qeq_bool windowMax windowMin then 1#2
  else (primaryAngleValue - windowMin) / (windowMax - windowMin).

(** One row of the guarded transition table: From, Guard, Candidate.  The
    guard reads position, velocity and vThresh. *)
Record Row := {
  from : Phase;
  guard : Q -> Q -> Q -> bool;
  candidate : Phase
}.

Definition guard_table : list Row :=
  [ {| from := Start;
       guard := fun position velocity vThresh =>
                  Qltb (25#100) position && Qltb vThresh velocity;
       candidate := Quarter |};
    {| from := Quarter;
       guard := fun position velocity vThresh =>
                  Qltb (7#10) position && Qltb ((8#10) * vThresh) velocity;
       candidate := Peak |};
    {| from := Quarter;
       guard := fun position velocity vThresh => Qltb position (15#100);
       candidate := Start |};
    {| from := Peak;
       guard := fun position velocity vThresh =>
                  Qltb position (6#10) && Qltb ((6#10) * vThresh) velocity;
       candidate := Return |};
    {| from := Return;
       guard := fun position velocity vThresh =>
                  Qltb position (2#10) && Qltb velocity ((5#10) * vThresh);
       candidate := End |};
    {| from := Return;
       guard := fun position velocity vThresh => Qltb (7#10) position;
       candidate := Peak |};
    {| from := End;
       guard := fun position velocity vThresh =>
                  Qltb velocity 1 && Qltb position (15#100);
       candidate := End |};
    {| from := End;
       guard := fun position velocity vThresh =>
                  Qltb vThresh velocity && Qltb (2#10) position;
       candidate := Start |} ].

(** The first row of the current state whose guard holds. *)
Definition matching (cur : Phase) (position velocity vThresh : Q) : option Row :=
  List.find (fun row => bool_decide (from row = cur)
                        && guard row position velocity vThresh)
            guard_table.

(** The candidate of the table: that of the matching row, and the current
    phase when no row matches ("any unmatched"). *)
Definition classify (cur : Phase) (position velocity vThresh : Q) : Phase :=
  match matching cur position velocity vThresh with
  | Some row => candidate row
  | None => cur
  end.

(** "clamp(x, 0, 1)" *)
Definition clamp (x lo hi : R) : R := Rmax lo (Rmin hi x).

(** "the fraction of the last 5 committed phases matching the canonical
    ordering [Start,Quarter,Peak,Return,End] positionally" *)
Definition adherence (history : list Phase) : R :=
  (INR (length (filter (fun pair : Phase * Phase => pair.1 = pair.2)
                       (zip (last_n 5 history) expected_sequence))) / 5)%R.

(** The quality score of the specification, for a denominator
    [mean + offset] of the velocity term; the specification's own formula is
    the one with offset [0]. *)
Definition quality_with (offset observedRange : R) (recentVelocities : list R)
    (history : list Phase) : R :=
  (4 / 10 * Rmin (observedRange / 60) 1
   + 3 / 10 * (if (length recentVelocities <? 2)%nat then 1 / 2
               else clamp (1 - Stats.np_std recentVelocities
                               / (Stats.np_mean recentVelocities + offset)) 0 1)
   + 3 / 10 * (if (length history <? 5)%nat then 1 / 2 else adherence history))%R.

Definition quality : R -> list R -> list Phase -> R := quality_with 0%R.

End Spec.

(* ------------------------------------------------------------------------- *)
(** ** Sample sessions *)
(* ------------------------------------------------------------------------- *)

Module Samples.
Local Open Scope Q_scope.
Local Open Scope string_scope.

(** *** A comprehensive engine that already holds fifteen frames *)

(** A frame whose left elbow is at [a] degrees, every other joint at 90. *)
Definition frame_of (a : Q) : list Q := [a; 90; 90; 90; 90; 90; 90; 90].

Definition warm (left_elbows : list Q) (p : Phase) (votes history : list Phase)
    : Comprehensive.State :=
  {| Comprehensive.angle_buffer := map frame_of left_elbows;
     Comprehensive.phase_buffer := votes;
     Comprehensive.phase_history_buffer := history;
     Comprehensive.rep_count := 0;
     Comprehensive.current_phase := p;
     Comprehensive.last_rep_time := 0;
     Comprehensive.movement_quality_history := [];
     Comprehensive.current_exercise_name := "unknown";
     Comprehensive.current_category := "general";
     Comprehensive.exercise_confidence := 0;
     Comprehensive.total_reps := 0;
     Comprehensive.exercise_changes := 0 |}.

(** The arm has started to move: eleven frames at 100 degrees, then a rise. *)
Definition rising : Comprehensive.State :=
  warm [100; 100; 100; 100; 100; 100; 100; 100; 100; 100; 100; 110; 120; 130; 140]
       Start [] [].

Definition rising1 : Comprehensive.State :=
  fst (Comprehensive.advanced_rep_detection (frame_of 150) 1 rising).
Definition rising2 : Comprehensive.State :=
  fst (Comprehensive.advanced_rep_detection (frame_of 160) 2 rising1).
Definition rising3 : Comprehensive.State :=
  fst (Comprehensive.advanced_rep_detection (frame_of 170) 3 rising2).

(** The arm is back down after a full cycle and rests in phase End. *)
Definition resting : Comprehensive.State :=
  warm [160; 150; 140; 130; 120; 110; 100; 100; 100; 100; 100; 100; 100; 100; 100]
       End [End; End; End] [Peak; Return; End].

Definition resting1 : Comprehensive.State :=
  fst (Comprehensive.advanced_rep_detection (frame_of 100) 100 resting).
Definition resting2 : Comprehensive.State :=
  fst (Comprehensive.advanced_rep_detection (frame_of 100) 101 resting1).

(** One full movement of the left elbow on a warm engine at 30 frames per
    second: at rest at 20 degrees, up to 170, down again, and a short rest. *)
Definition settled : Comprehensive.State :=
  warm [20; 20; 20; 20; 20; 20; 20; 20; 20; 20; 20; 20; 20; 20; 20] Start [] [].

Definition one_movement : list Q :=
  [30; 40; 50; 60; 70; 80; 90; 100; 110; 120; 130; 140; 150; 160; 170;
   160; 150; 140; 130; 120; 110; 100; 90; 80; 70; 60; 50; 40; 30; 20;
   20; 20; 20; 20; 20].

(** The phase and rep count after each frame of a list of left-elbow
    angles, frame [n] arriving at [n / 30] seconds. *)
Fixpoint trace (s : Comprehensive.State) (n : nat) (left_elbows : list Q)
    : list (Phase * nat) :=
  match left_elbows with
  | [] => []
  | a :: rest =>
      let s' := fst (Comprehensive.advanced_rep_detection (frame_of a)
                       (inject_Z (Z.of_nat n) / 30) s) in
      (Comprehensive.current_phase s', Comprehensive.rep_count s')
        :: trace s' (S n) rest
  end.

(** *** A professional engine bound to a curl *)

(** An iteration order of the phase set: the order of the hash slots of one
    run, here that of the cycle. *)
Definition hash_order (l : list Phase) : list Phase :=
  filter (fun p => p ∈ l) [Start; Quarter; Peak; Return; End].

Definition db : Professional.Database :=
  {| Professional.exercise_mapping := {[ "curl01" := "Dumbbell Curl" ]};
     Professional.exercise_patterns := ∅ |}.

(** The [angles] dictionary and the feature list of a pose with both elbows
    at [elbow] degrees. *)
Definition angles_of (elbow : Q) : gmap string Q :=
  {[ "left_elbow" := elbow; "right_elbow" := elbow;
     "left_shoulder" := 90; "right_shoulder" := 90;
     "left_hip" := 90; "right_hip" := 90;
     "left_knee" := 90; "right_knee" := 90 ]}.

Definition pose (elbow timestamp : Q) : list Q * gmap string Q * Q :=
  ([elbow; elbow; 90; 90; 90; 90; 90; 90], angles_of elbow, timestamp).

Definition bound : Professional.State :=
  fst (Professional.set_target_exercise db "curl01" (Professional.init 0)).

(** Twelve frames, one a second, with the elbows bent at 60 degrees. *)
Definition bent : list (list Q * gmap string Q * Q) :=
  map (fun t => pose 60 (inject_Z (Z.of_nat t))) (seq 1 12).

Definition after11 : Professional.State :=
  Professional.run hash_order bound (take 11 bent).
Definition after12 : Professional.State :=
  Professional.run hash_order bound bent.

(** A whole curl: elbows bent at 60 degrees, half open at 100, stretched at
    160, one frame a second. *)
Definition curl_cycle : list (list Q * gmap string Q * Q) :=
  map (fun '(elbow, t) => pose elbow (inject_Z (Z.of_nat t)))
      (zip (replicate 12 60 ++ replicate 4 100 ++ replicate 4 160) (seq 1 20)).

Definition after_cycle : Professional.State :=
  Professional.run hash_order bound curl_cycle.

End Samples.

(* ------------------------------------------------------------------------- *)
(** ** The rest of the session service *)
(* ------------------------------------------------------------------------- *)

(** [get_session_summary] of the professional engine and the handlers of
    [pose_corrector_api.py] that a session goes through besides the two
    above. *)
Module Service.
Local Open Scope Q_scope.
Local Open Scope string_scope.
Import Professional.

(** The dictionary [get_session_summary] returns. *)
Record Summary := {
  exercise_id : string;
  exercise_name : string;
  total_reps : nat;
  session_duration_minutes : Q;
  average_form_score : Q;
  average_confidence : R;
  total_phases_detected : nat;
  phase_transitions : nat
}.

(** [get_session_summary()] at time [now]; [time.time() - None] raises
    [TypeError] before anything is read. *)
Definition get_session_summary (now : Q) (s : State) : exn + Summary :=
  match session_start_time s with
  | None => inl TypeError
  | Some started =>
      let session_time := now - started in
      inr {| exercise_id :=
               match current_exercise_id s with
               | Some id => if bool_decide (id = EmptyString) then "None" else id
               | None => "None"
               end;
             exercise_name := current_exercise_name s;
             total_reps := rep_count s;
             session_duration_minutes := session_time / 60;
             average_form_score :=
               match form_scores s with
               | [] => 0
               | _ => mean (form_scores s)
               end;
             average_confidence :=
               match confidence_scores s with
               | [] => 0%R
               | _ => Stats.np_mean (confidence_scores s)
               end;
             total_phases_detected := length (phase_history s);
             phase_transitions := phase_transition_count s |}
  end.

(** [str(e)] of the [TypeError] of [time.time() - None]. *)
Definition float_minus_none : string :=
  "unsupported operand type(s) for -: 'float' and 'NoneType'".

(** [GET /api/session-summary] *)
Definition session_summary (now : Q) (s : State) : Api.Reply (string * Summary) :=
  match get_session_summary now s with
  | inr summary => Api.Response ("success", summary)
  | inl _ => Api.HTTPException 500 ("Failed to get summary: " +:+ float_minus_none)
  end.

(** [str.replace(' ', '_')] *)
Fixpoint replace_spaces (s : string) : string :=
  match s with
  | EmptyString => EmptyString
  | String c t =>
      String (if bool_decide (c = " "%char) then "_"%char else c) (replace_spaces t)
  end.

(** The websocket message [set_exercise]: by id through
    [set_target_exercise], whose result is dropped, or else by name, which
    writes the two attributes and nothing more.  The answer carries the bound
    id and name. *)
Definition set_exercise (db : Database) (exercise_name exercise_id : option string)
    (s : State) : State * (option string * string) :=
  let by_name :=
    match exercise_name with
    | Some name =>
        if bool_decide (name = EmptyString) then s
        else
          {| current_exercise_id := Some (replace_spaces (lower name) +:+ "_001");
             current_exercise_name := lower name;
             target_exercise_pattern := target_exercise_pattern s;
             angle_buffer := angle_buffer s; phase_buffer := phase_buffer s;
             phase_history := phase_history s; rep_count := rep_count s;
             current_phase := current_phase s; last_rep_time := last_rep_time s;
             phase_transition_count := phase_transition_count s;
             form_scores := form_scores s;
             confidence_scores := confidence_scores s;
             session_start_time := session_start_time s;
             rep_flash_timer := rep_flash_timer s |}
    | None => s
    end in
  let s' :=
    match exercise_id with
    | Some id =>
        if bool_decide (id = EmptyString) then by_name
        else fst (set_target_exercise db id s)
    | None => by_name
    end in
  (s', (current_exercise_id s', current_exercise_name s')).

(** The websocket message [reset]; it keeps the session start time. *)
Definition reset (s : State) : State :=
  {| current_exercise_id := current_exercise_id s;
     current_exercise_name := current_exercise_name s;
     target_exercise_pattern := target_exercise_pattern s;
     angle_buffer := angle_buffer s; phase_buffer := phase_buffer s;
     phase_history := []; rep_count := 0;
     current_phase := Start; last_rep_time := last_rep_time s;
     phase_transition_count := phase_transition_count s;
     form_scores := form_scores s; confidence_scores := confidence_scores s;
     session_start_time := session_start_time s;
     rep_flash_timer := rep_flash_timer s |}.

(** What a client can send to the one engine of the server. *)
Inductive Request :=
| StartExercise (request_exercise_id : string)
| ResetSession
| SetExercise (exercise_name exercise_id : option string)
| Reset
| FrameMessage (f : list Q * gmap string Q * Q).

Section Serve.

Variable set_iter : list Phase -> list Phase.
Variable db : Database.

Definition serve (s : State) (r : Request) : State :=
  match r with
  | StartExercise id => fst (Api.start_exercise db id s)
  | ResetSession => fst (Api.reset_session s)
  | SetExercise name id => fst (set_exercise db name id s)
  | Reset => reset s
  | FrameMessage f => process_frame set_iter s f
  end.

Definition session (s : State) (requests : list Request) : State :=
  fold_left serve requests s.

End Serve.

(** Every deque within its [maxlen]. *)
Definition within_capacity (s : State) : Prop :=
  (length (angle_buffer s) <= 45 /\ length (phase_buffer s) <= 10
   /\ length (phase_history s) <= 20 /\ length (form_scores s) <= 30
   /\ length (confidence_scores s) <= 30)%nat.

(** Every buffered score within the range its producer clamps it to. *)
Definition scores_in_range (s : State) : Prop :=
  Forall (fun x => 2#10 <= x /\ x <= 1) (form_scores s)
  /\ Forall (fun c => 0 <= c <= 1)%R (confidence_scores s).

End Service.

(* ------------------------------------------------------------------------- *)
(** ** Invariants of the engines *)
(* ------------------------------------------------------------------------- *)

(** A computation keeps [P]: whatever it returns or raises, the object still
    satisfies [P]. *)
Definition preserves {S A} (P : S -> Prop) (m : M S A) : Prop :=
  forall s, P s -> P (fst (m s)).

(** Consecutive entries along edges of the transition table. *)
Fixpoint follows_table (l : list Phase) : Prop :=
  match l with
  | a :: t =>
      match t with
      | b :: _ => allowed a b = true /\ follows_table t
      | [] => True
      end
  | [] => True
  end.

(** One call of the professional [advanced_rep_detection], seen from the rep
    counter: nothing counted, the transition counter grown by at most one; or
    one rep counted, under the tests of [detect_rep_completion], and the
    counter back at zero. *)
Definition rep_kept_or_counted (timestamp : Q) (s s' : Professional.State) : Prop :=
  (Professional.rep_count s' = Professional.rep_count s
   /\ Professional.last_rep_time s' = Professional.last_rep_time s
   /\ Professional.phase_transition_count s'
      <= Professional.phase_transition_count s + 1)%nat
  \/ (Professional.rep_count s' = (Professional.rep_count s + 1)%nat
      /\ Professional.current_phase s' = End
      /\ (1 < timestamp - Professional.last_rep_time s)%Q
      /\ (2 <= Professional.phase_transition_count s)%nat
      /\ (4 <= length (Professional.phase_history s'))%nat
      /\ Professional.phase_transition_count s' = 0%nat
      /\ Professional.last_rep_time s' = timestamp
      /\ Professional.rep_flash_timer s' = timestamp).

(** One call of [universal_rep_detection], seen from the committed phase: it
    stays, or it becomes a phase of the vote buffer that no other phase
    outnumbers there. *)
Definition phase_kept_or_plurality (s s' : Professional.State) : Prop :=
  Professional.current_phase s' = Professional.current_phase s
  \/ ((3 <= length (Professional.phase_buffer s'))%nat
      /\ Professional.current_phase s' ∈ Professional.phase_buffer s'
      /\ forall q : Phase,
           (py_count q (Professional.phase_buffer s')
            <= py_count (Professional.current_phase s')
                 (Professional.phase_buffer s'))%nat).

Module Invariant.
Import Comprehensive.

(** Every deque of the comprehensive engine within its [maxlen]. *)
Definition within_capacity (s : State) : Prop :=
  (length (angle_buffer s) <= 60 /\ length (phase_buffer s) <= 20
   /\ length (phase_history_buffer s) <= 10
   /\ length (movement_quality_history s) <= 30)%nat.

(** The committed-phase history is a path of the table that ends at the
    current phase. *)
Definition table_path (s : State) : Prop :=
  follows_table (phase_history_buffer s)
  /\ (phase_history_buffer s = []
      \/ last (phase_history_buffer s) = Some (current_phase s)).

End Invariant.

(** *** A warm comprehensive engine inside a category *)

Module Scenes.
Import Comprehensive.
Local Open Scope string_scope.

(** The object with [current_category] set, as [process_frame] sets it on a
    confident new match. *)
Definition in_category (category : string) (s : State) : State :=
  {| angle_buffer := angle_buffer s; phase_buffer := phase_buffer s;
     phase_history_buffer := phase_history_buffer s; rep_count := rep_count s;
     current_phase := current_phase s; last_rep_time := last_rep_time s;
     movement_quality_history := movement_quality_history s;
     current_exercise_name := current_exercise_name s;
     current_category := category;
     exercise_confidence := exercise_confidence s;
     total_reps := total_reps s; exercise_changes := exercise_changes s |}.

(** The rising arm of [Samples.rising], identified as an upper-body
    exercise. *)
Definition pressing : State := in_category "upper_body" Samples.rising.

(** A professional engine at the end of a press: phase End after four
    counted transitions, the left elbow coming down over the last frames. *)
Definition finishing : Professional.State :=
  {| Professional.current_exercise_id := Some "press01";
     Professional.current_exercise_name := "Shoulder Press";
     Professional.target_exercise_pattern := None;
     Professional.angle_buffer :=
       map (fun a : Q => Professional.Vector (Samples.frame_of a))
           [160; 160; 160; 160; 160; 160; 160; 160; 160; 160; 150; 140; 130;
            120; 110]%Q;
     Professional.phase_buffer := [];
     Professional.phase_history := [Quarter; Peak; Return; End];
     Professional.rep_count := 0;
     Professional.current_phase := End;
     Professional.last_rep_time := 0;
     Professional.phase_transition_count := 4;
     Professional.form_scores := [];
     Professional.confidence_scores := [];
     Professional.session_start_time := Some 0%Q;
     Professional.rep_flash_timer := 0 |}.

End Scenes.

(* ------------------------------------------------------------------------- *)
(** ** One frame of the comprehensive engine, up to the completion test *)
(* ------------------------------------------------------------------------- *)

Module Completion.
Import Comprehensive.
Local Open Scope Q_scope.

(** The exercise context [process_frame] hands to rep detection: a confident
    new match replaces name, category and confidence and is counted as an
    exercise change. *)
Definition follow_match (ident : Identified) (s : State) : State :=
  let '(exercise_name, similarity, category) := ident in
  if Qltb (7#10) similarity
     && negb (bool_decide (exercise_name = current_exercise_name s))
  then {| angle_buffer := angle_buffer s; phase_buffer := phase_buffer s;
          phase_history_buffer := phase_history_buffer s;
          rep_count := rep_count s; current_phase := current_phase s;
          last_rep_time := last_rep_time s;
          movement_quality_history := movement_quality_history s;
          current_exercise_name := exercise_name;
          current_category := category;
          exercise_confidence := similarity;
          total_reps := total_reps s;
          exercise_changes := exercise_changes s + 1 |}
  else s.

(** The [try] block of [advanced_rep_detection] down to the call of
    [check_rep_completion]: the frame is buffered, the metrics of the primary
    channels are computed, the candidate phase is voted and validated.
    [Some] hands the metrics and the largest range to the test; [None] is
    the skipped inner [if]. *)
Definition before_completion (current_angles : list Q)
    : M State (option (list (Q * Q) * Q)) :=
  modify (fun s => set_angle_buffer (deque_append 60 current_angles (angle_buffer s)) s) ;;;
  s <- get ;;
  let thresholds := category_thresholds s in
  if (15 <=? length (angle_buffer s))%nat then
    let recent_angles := last_n 15 (angle_buffer s) in
    let primary_angles := get_primary_angles_for_exercise (current_category s) in
    metrics <- forM (channel_metrics recent_angles) primary_angles ;;
    let angle_ranges := map fst metrics in
    let angle_velocities := map snd metrics in
    let max_range_idx := np_argmax angle_ranges in
    actual_angle_idx <- orraise IndexError (primary_angles !! max_range_idx) ;;
    primary_angle_val <- orraise IndexError (current_angles !! actual_angle_idx) ;;
    let max_velocity := default 0 (py_max angle_velocities) in
    range_at <- orraise IndexError (angle_ranges !! max_range_idx) ;;
    new_phase <- determine_exercise_phase primary_angle_val max_velocity range_at
                   thresholds recent_angles actual_angle_idx ;;
    stabilize new_phase thresholds ;;;
    max_range <- orraise ValueError (py_max angle_ranges) ;;
    ret (Some (metrics, max_range))
  else ret None.

(** The lines of the [try] block from the completion test on. *)
Definition from_completion (timestamp : Q) (thresholds : Thresholds)
    (metrics : list (Q * Q)) (max_range : Q) : M State (option Result) :=
  s <- get ;;
  (if check_rep_completion s timestamp max_range thresholds
   then modify (count_rep timestamp) else ret tt) ;;;
  quality <- calculate_movement_quality (map fst metrics) (map snd metrics)
               thresholds ;;
  s <- get ;;
  ret (Some (rep_count s, current_phase s, 8#10, quality)).

(** The completion a call of [advanced_rep_detection] detects: the call gets
    past its first return, reaches [check_rep_completion], and the test
    returns True. *)
Definition completion_detected (current_angles : list Q) (timestamp : Q)
    (s : State) : bool :=
  if bool_decide (current_angles = []) || (length (angle_buffer s) <? 15)%nat
  then false
  else
    match before_completion current_angles s with
    | (s2, inr (Some (_, max_range))) =>
        check_rep_completion s2 timestamp max_range (category_thresholds s)
    | _ => false
    end.

(** The same for one ingested frame, and the number of completions detected
    along a sequence of frames. *)
Definition detected_at (s : State) (f : Identified * list Q * Q) : bool :=
  let '(ident, pose_features, timestamp) := f in
  negb (bool_decide (pose_features = []))
  && completion_detected pose_features timestamp (follow_match ident s).

Fixpoint completions (s : State) (frames : list (Identified * list Q * Q)) : nat :=
  match frames with
  | [] => 0
  | f :: rest => (if detected_at s f then 1 else 0) + completions (ingest s f) rest
  end.

End Completion.

(* ------------------------------------------------------------------------- *)
(** ** One call of the universal detection, up to its rep test *)
(* ------------------------------------------------------------------------- *)

Module GoodRep.
Import Professional.
Local Open Scope Q_scope.

Section Detection.

Variable set_iter : list Phase -> list Phase.

(** The body of [universal_rep_detection] down to [is_good_rep]: [inl] is the
    return of a buffer shorter than 10, [inr] hands the range and the value
    of [is_good_rep] to the lines that follow. *)
Definition before_good_rep (angles : gmap string Q) (timestamp : Q)
    : M State (Result + Q * bool) :=
  s <- get ;;
  let exercise_name := lower (current_exercise_name s) in
  let '(primary_angle, thresholds) :=
    primary_movement exercise_name angles (angle_buffer s) in
  modify (fun s => set_angle_buffer (deque_append 45 (Scalar primary_angle) (angle_buffer s)) s) ;;;
  s <- get ;;
  if (length (angle_buffer s) <? 10)%nat then
    ret (inl (rep_count s, current_phase s, (1 / 2)%R))
  else
    recent_angles <- orraise TypeError (all_scalars (last_n 10 (angle_buffer s))) ;;
    hi <- orraise ValueError (py_max recent_angles) ;;
    lo <- orraise ValueError (py_min recent_angles) ;;
    let angle_range := hi - lo in
    let new_phase := phase_of_angle primary_angle thresholds in
    modify (fun s => set_phase_buffer (deque_append 10 new_phase (phase_buffer s)) s) ;;;
    s <- get ;;
    (if (3 <=? length (phase_buffer s))%nat then
       most <- orraise ValueError (most_common set_iter (phase_buffer s)) ;;
       if bool_decide (most = current_phase s) then ret tt
       else modify (commit_phase most 0)
     else ret tt) ;;;
    s <- get ;;
    cycle_complete <-
      (if (3 <=? length (phase_history s))%nat then
         recent <- orraise TypeError (deque_slice (phase_history s)) ;;
         ret (bool_decide (Peak ∈ recent) && bool_decide (current_phase s = Start))
       else ret false) ;;
    ret (inr (angle_range,
              cycle_complete && Qltb (8#10) (timestamp - last_rep_time s)
              && Qltb 35 angle_range)).

(** The lines from [if is_good_rep:] on. *)
Definition from_good_rep (timestamp angle_range : Q) (is_good_rep : bool)
    : M State Result :=
  s <- get ;;
  (if is_good_rep then modify (count_rep timestamp (phase_transition_count s) [])
   else ret tt) ;;;
  let confidence :=
    if Qltb 0 angle_range then Rmin 1 (Q2R angle_range / 80) else (1 / 2)%R in
  modify (push_confidence confidence) ;;;
  s <- get ;;
  ret (rep_count s, current_phase s, confidence).

(** The completion a call of [universal_rep_detection] detects: the call
    reaches [is_good_rep] and finds it True. *)
Definition good_rep_detected (features : list Q) (angles : gmap string Q)
    (timestamp : Q) (s : State) : bool :=
  if bool_decide (features = []) || bool_decide (angles = ∅) then false
  else
    match before_good_rep angles timestamp s with
    | (_, inr (inr (_, is_good_rep))) => is_good_rep
    | _ => false
    end.

(** The same for one frame of [process_frame]. *)
Definition detected_at (s : State) (f : list Q * gmap string Q * Q) : bool :=
  let '(features, angles, timestamp) := f in
  exercise_bound s && negb (bool_decide (features = []))
  && good_rep_detected features angles timestamp s.

End Detection.

End GoodRep.

(* ------------------------------------------------------------------------- *)
(** ** The phases committed since the last counted rep *)
(* ------------------------------------------------------------------------- *)

Module Cycle.
Import Comprehensive.

(** The calls that write the attributes of a session: [process_frame] on a
    frame with landmarks, the 'r' key of [main], and the three methods that
    write, called on their own. *)
Inductive Call :=
| ProcessFrame (ident : Identified) (pose_features : list Q) (timestamp : Q)
| PressR
| Detect (current_angles : list Q) (timestamp : Q)
| Validate (new_phase : Phase) (thresholds : Thresholds)
| Score (angle_ranges velocities : list Q) (thresholds : Thresholds).

Definition call (s : State) (c : Call) : State :=
  match c with
  | ProcessFrame ident pose_features timestamp =>
      fst (process_frame ident pose_features timestamp s)
  | PressR => reset_key s
  | Detect current_angles timestamp =>
      fst (advanced_rep_detection current_angles timestamp s)
  | Validate new_phase thresholds =>
      fst (validate_and_update_phase new_phase thresholds s)
  | Score angle_ranges velocities thresholds =>
      fst (calculate_movement_quality angle_ranges velocities thresholds s)
  end.

(** The object after a sequence of calls. *)
Definition session (s : State) (calls : list Call) : State :=
  fold_left call calls s.




End Cycle.

(* ------------------------------------------------------------------------- *)
(** * Properties *)
(* ------------------------------------------------------------------------- *)

(** ** Computations that leave the object alone *)

Section Monad.
Context {S : Type}.

Lemma read_only_ret {A} (a : A) : read_only (S:=S) (ret a).
Proof. intros s. reflexivity. Qed.

Lemma read_only_raise {A} (e : exn) : read_only (@raise S A e).
Proof. intros s. reflexivity. Qed.

Lemma read_only_get : read_only (@get S).
Proof. intros s. reflexivity. Qed.

Lemma read_only_orraise {A} (e : exn) (o : option A) :
  read_only (S:=S) (orraise e o).
Proof. destruct o; intros s; reflexivity. Qed.

Lemma read_only_bind {A B} (m : M S A) (k : A -> M S B) :
  read_only m -> (forall a, read_only (k a)) -> read_only (bind m k).
Proof.
  intros Hm Hk s. unfold bind. specialize (Hm s).
  destruct (m s) as [s' [e | a]]; simpl in *; subst; auto.
  apply Hk.
Qed.

Lemma read_only_forM {A B} (f : A -> M S B) (l : list A) :
  (forall a, read_only (f a)) -> read_only (forM f l).
Proof.
  intros Hf. induction l as [| x t IH]; simpl.
  - apply read_only_ret.
  - apply read_only_bind; [apply Hf |]. intros y.
    apply read_only_bind; [exact IH |]. intros ys. apply read_only_ret.
Qed.

Lemma read_only_run {A} (m : M S A) (s : S) :
  read_only m -> exists r, m s = (s, r).
Proof.
  intros H. specialize (H s). destruct (m s) as [s' r]; simpl in H; subst.
  eauto.
Qed.

End Monad.

Ltac read_only_tac :=
  repeat first
    [ apply read_only_ret | apply read_only_raise | apply read_only_get
    | apply read_only_orraise
    | apply read_only_bind; [| intros ?]
    | match goal with |- read_only (if ?b then _ else _) => destruct b end
    | match goal with |- read_only (match ?x with _ => _ end) => destruct x end ].

Module ComprehensiveFacts.
Import Comprehensive.
Local Open Scope Q_scope.

Lemma channel_metrics_read_only recent idx :
  read_only (channel_metrics recent idx).
Proof. unfold channel_metrics. read_only_tac. Qed.

Lemma determine_exercise_phase_read_only pa v r thr recent idx :
  read_only (determine_exercise_phase pa v r thr recent idx).
Proof. unfold determine_exercise_phase. read_only_tac. Qed.


Lemma stabilize_eq new_phase thr s :
  stabilize new_phase thr s =
  match phase_stability thr with
  | None => (vote new_phase s, inl KeyError)
  | Some k =>
      (if consensus k new_phase (vote new_phase s)
       then commit_phase new_phase (vote new_phase s)
       else vote new_phase s, inr tt)
  end.
Proof.
  unfold stabilize, validate_and_update_phase, bind, modify, orraise, get,
    ret, raise, consensus.
  destruct (phase_stability thr) as [k |]; [| reflexivity].
  repeat case_match; simpl in *; try reflexivity; try discriminate.
Qed.


Lemma detection_body_end current_angles timestamp s s' r :
  detection_body current_angles timestamp s = (s', r) ->
  body_end timestamp
    (set_angle_buffer (deque_append 60 current_angles (angle_buffer s)) s) s' r.
Proof.
  set (s1 := set_angle_buffer _ s). intros H.
  unfold detection_body in H.
  unfold bind at 1 in H. unfold modify at 1 in H. fold s1 in H.
  unfold bind at 1 in H. unfold get at 1 in H.
  destruct (15 <=? length (angle_buffer s1))%nat;
    [| inversion H; apply end_before_vote].
  unfold bind at 1 in H.
  destruct (read_only_run (forM (channel_metrics (last_n 15 (angle_buffer s1)))
              (get_primary_angles_for_exercise (current_category s1))) s1)
    as [rm Hr].
  { apply read_only_forM. intros a. apply channel_metrics_read_only. }
  rewrite Hr in H. destruct rm as [e | metrics];
    [inversion H; apply end_before_vote |].
  unfold bind at 1 in H.
  destruct (get_primary_angles_for_exercise (current_category s1) !! _)
    as [actual |]; [| inversion H; apply end_before_vote].
  simpl orraise in H. unfold ret at 1 in H.
  unfold bind at 1 in H.
  destruct (current_angles !! actual) as [pav |];
    [| inversion H; apply end_before_vote].
  simpl orraise in H. unfold ret at 1 in H.
  unfold bind at 1 in H.
  destruct (map fst metrics !! _) as [range_at |];
    [| inversion H; apply end_before_vote].
  simpl orraise in H. unfold ret at 1 in H.
  unfold bind at 1 in H.
  match type of H with context [determine_exercise_phase ?a ?b ?c ?d ?e ?f s1] =>
    destruct (read_only_run (determine_exercise_phase a b c d e f) s1) as [rp Hp];
    [apply determine_exercise_phase_read_only | rewrite Hp in H]
  end.
  destruct rp as [e | p]; [inversion H; apply end_before_vote |].
  unfold bind at 1 in H.
  destruct (stabilize p (category_thresholds s1) s1) as [s2 [e | []]] eqn:Hst;
    [inversion H; subst; eapply end_in_stabilize; eauto |].
  unfold bind at 1 in H.
  destruct (py_max (map fst metrics)) as [max_range |] eqn:Hmax;
    [| inversion H; subst; eapply end_after_vote; eauto].
  simpl orraise in H. unfold ret at 1 in H.
  pose proof (end_normally timestamp s1 p s2 metrics max_range Hr Hmax Hst) as Hn.
  simpl in Hn.
  unfold calculate_movement_quality, bind, get, modify, ret in H.
  destruct (check_rep_completion s2 timestamp max_range (category_thresholds s1));
    simpl in H; inversion H; subst; exact Hn.
Qed.

(** Comparisons as propositions. *)
Lemma Qltb_lt x y : Qltb x y = true <-> x < y.
Proof.
  unfold Qltb. rewrite negb_true_iff. split; intros H.
  - apply Qnot_le_lt. intros Hle. apply Qle_bool_iff in Hle. congruence.
  - destruct (Qle_bool y x) eqn:E; [| reflexivity].
    apply Qle_bool_iff in E. exfalso. apply (Qlt_not_le _ _ H E).
Qed.

Lemma Qltb_ge x y : Qltb x y = false <-> y <= x.
Proof.
  unfold Qltb. rewrite negb_false_iff. apply Qle_bool_iff.
Qed.

Lemma fold_max_in (f : Q -> Q -> bool) (t : list Q) (x : Q) :
  fold_left (fun m y => if f m y then y else m) t x ∈ x :: t.
Proof.
  revert x. induction t as [| y t IH]; intros x; simpl.
  - left.
  - destruct (f x y).
    + right. apply IH.
    + specialize (IH x). apply elem_of_cons in IH as [-> | IH].
      * left.
      * right. right. exact IH.
Qed.

Lemma py_max_in l x : py_max l = Some x -> x ∈ l.
Proof.
  destruct l as [| y t]; [discriminate |]. simpl. intros [= <-].
  apply (fold_max_in (fun m y => Qltb m y)).
Qed.

Lemma py_min_in l x : py_min l = Some x -> x ∈ l.
Proof.
  destruct l as [| y t]; [discriminate |]. simpl. intros [= <-].
  apply (fold_max_in (fun m y => Qltb y m)).
Qed.

(** Each metric of the loop is the trailing range of one primary channel. *)
Lemma channel_metrics_range recent idx s m :
  channel_metrics recent idx s = (s, inr m) ->
  (values ← column idx recent; hi ← py_max values; lo ← py_min values;
   Some (hi - lo)) = Some (fst m).
Proof.
  unfold channel_metrics, bind, orraise, ret, raise.
  destruct (column idx recent) as [values |]; cbn beta iota; [| discriminate].
  destruct (py_max values) as [hi |] eqn:Hhi; cbn beta iota; [| discriminate].
  destruct (py_min values) as [lo |] eqn:Hlo; cbn beta iota; [| discriminate].
  assert (Some values ≫= (fun values => hi ← py_max values; lo ← py_min values;
                                        Some (hi - lo)) = Some (hi - lo)) as ->.
  { cbn. rewrite Hhi. cbn. rewrite Hlo. reflexivity. }
  destruct (5 <=? length values)%nat.
  - destruct (values !! (length values - 1)%nat); cbn beta iota; [| discriminate].
    destruct (values !! (length values - 5)%nat); cbn beta iota; [| discriminate].
    intros [= <-]. reflexivity.
  - intros [= <-]. reflexivity.
Qed.

Lemma forM_channel_metrics_ranges recent l s metrics :
  forM (channel_metrics recent) l s = (s, inr metrics) ->
  forall r, r ∈ map fst metrics ->
  exists idx, idx ∈ l /\
    (values ← column idx recent; hi ← py_max values; lo ← py_min values;
     Some (hi - lo)) = Some r.
Proof.
  revert metrics. induction l as [| idx t IH]; intros metrics; simpl.
  - unfold ret. intros [= <-] r Hr. simpl in Hr. inversion Hr.
  - unfold bind at 1.
    destruct (read_only_run (channel_metrics recent idx) s) as [rm Hm];
      [apply channel_metrics_read_only |].
    rewrite Hm. destruct rm as [e | m]; [discriminate |].
    unfold bind at 1.
    destruct (read_only_run (forM (channel_metrics recent) t) s) as [rt Ht].
    { apply read_only_forM. intros a. apply channel_metrics_read_only. }
    rewrite Ht. destruct rt as [e | ms]; [discriminate |].
    unfold ret. intros [= <-] r Hr. simpl in Hr.
    apply elem_of_cons in Hr as [-> | Hr].
    + exists idx. split; [left |]. eapply channel_metrics_range; eauto.
    + destruct (IH ms Ht r Hr) as (i & Hi & Hrange).
      exists i. split; [right; exact Hi | exact Hrange].
Qed.

(** What [stabilize] can change. *)
Lemma stabilize_fields p thr s s2 r :
  stabilize p thr s = (s2, r) ->
  rep_count s2 = rep_count s /\ last_rep_time s2 = last_rep_time s
  /\ angle_buffer s2 = angle_buffer s
  /\ current_category s2 = current_category s
  /\ total_reps s2 = total_reps s
  /\ ((current_phase s2 = current_phase s
       /\ phase_history_buffer s2 = phase_history_buffer s)
      \/ (allowed (current_phase s) p = true /\ current_phase s2 = p
          /\ phase_history_buffer s2 = deque_append 10 p (phase_history_buffer s))).
Proof.
  rewrite stabilize_eq. destruct (phase_stability thr) as [k |].
  - destruct (consensus k p (vote p s)) eqn:Hc; intros [= <- <-]; simpl.
    + unfold consensus in Hc. apply andb_true_iff in Hc as [_ Hc].
      simpl in Hc. repeat split; try reflexivity. right. auto.
    + repeat split; try reflexivity. left. auto.
  - intros [= <- <-]; simpl. repeat split; try reflexivity. left. auto.
Qed.


Lemma check_rep_completion_true s timestamp max_range thr :
  check_rep_completion s timestamp max_range thr = true ->
  current_phase s = End
  /\ rep_cooldown thr / 30 < timestamp - last_rep_time s
  /\ min_angle_range thr < max_range
  /\ (3 <= length (phase_history_buffer s))%nat.
Proof.
  unfold check_rep_completion. rewrite !andb_true_iff.
  intros [[[H1 H2] H3] H4].
  apply bool_decide_eq_true in H1. apply Qltb_lt in H2. apply Qltb_lt in H3.
  apply Nat.leb_le in H4. auto.
Qed.

Lemma advanced_rep_detection_step current_angles timestamp s s' r :
  advanced_rep_detection current_angles timestamp s = (s', r) ->
  current_category s' = current_category s
  /\ phase_kept_or_moved s s'
  /\ (rep_kept s s' \/ rep_counted timestamp s s').
Proof.
  unfold advanced_rep_detection.
  destruct (bool_decide (current_angles = []) || _).
  { intros [= <- <-]. unfold phase_kept_or_moved, rep_kept. auto 10. }
  destruct (detection_body current_angles timestamp s) as [s2 r2] eqn:Hb.
  intros Hs'. assert (s' = s2) as -> by (destruct r2; congruence). clear Hs' r.
  apply detection_body_end in Hb.
  set (s1 := set_angle_buffer _ s) in Hb.
  assert (Hthr : category_thresholds s1 = category_thresholds s) by reflexivity.
  inversion Hb as [r0 | p s3 e Hst | p s3 e Hst
                   | p s3 metrics max_range Hm Hmax Hst s4 q]; subst.
  - unfold phase_kept_or_moved, rep_kept. simpl. auto 10.
  - apply stabilize_fields in Hst as (Hr & Hl & Ha & Hc & Ht & Hp).
    unfold phase_kept_or_moved, rep_kept. simpl in *.
    repeat split; auto. destruct Hp as [[-> ->] | (? & -> & ->)]; auto.
  - apply stabilize_fields in Hst as (Hr & Hl & Ha & Hc & Ht & Hp).
    unfold phase_kept_or_moved, rep_kept. simpl in *.
    repeat split; auto. destruct Hp as [[-> ->] | (? & -> & ->)]; auto.
  - apply stabilize_fields in Hst as (Hr & Hl & Ha & Hc & Ht & Hp).
    subst s4.
    destruct (check_rep_completion s3 timestamp max_range (category_thresholds s1))
      eqn:Hchk.
    + apply check_rep_completion_true in Hchk as (He & Hcool & Hrange & Hlen).
      simpl in *. repeat split; auto.
      * unfold phase_kept_or_moved. simpl.
        destruct Hp as [[-> ->] | (? & -> & ->)]; auto.
      * right. unfold rep_counted. simpl.
        rewrite Hr, Ht, Hl in *. repeat split; auto.
        apply py_max_in in Hmax.
        destruct (forM_channel_metrics_ranges _ _ _ _ Hm _ Hmax)
          as (idx & Hidx & Hrng).
        exists idx, max_range. repeat split; auto.
        unfold trailing_range. rewrite Ha. exact Hrng.
    + simpl in *. repeat split; auto.
      * unfold phase_kept_or_moved. simpl.
        destruct Hp as [[-> ->] | (? & -> & ->)]; auto.
      * left. unfold rep_kept. simpl. auto.
Qed.

(** A warm engine follows one full movement through the five phases and
    counts one rep, on the frame that commits End. *)
Example warm_engine_counts_one_movement :
  Samples.trace Samples.settled 1 Samples.one_movement
  = [(Start, 0); (Start, 0); (Start, 0); (Quarter, 0); (Quarter, 0);
     (Peak, 0); (Peak, 0); (Peak, 0); (Peak, 0); (Peak, 0); (Peak, 0);
     (Peak, 0); (Peak, 0); (Peak, 0); (Peak, 0); (Peak, 0); (Peak, 0);
     (Peak, 0); (Peak, 0); (Peak, 0); (Return, 0); (Return, 0); (Return, 0);
     (Return, 0); (Return, 0); (Return, 0); (Return, 0); (Return, 0);
     (Return, 0); (Return, 0); (Return, 0); (Return, 0); (Return, 0);
     (Return, 0); (End, 1)]%nat.
Proof. vm_compute. reflexivity. Qed.

End ComprehensiveFacts.

Module ProfessionalFacts.
Import Professional.
Local Open Scope Q_scope.

Lemma gather_read_only features recent acc idx :
  read_only (gather features recent acc idx).
Proof.
  unfold gather. destruct acc as [pv vs].
  destruct (idx <? length features)%nat; [| apply read_only_ret].
  destruct (entry_column idx recent); [apply read_only_raise |].
  read_only_tac.
Qed.

Lemma read_only_foldM {S A B} (f : B -> A -> M S B) (l : list A) (b : B) :
  (forall b a, read_only (f b a)) -> read_only (foldM f l b).
Proof.
  intros Hf. revert b. induction l as [| x t IH]; intros b; simpl.
  - apply read_only_ret.
  - apply read_only_bind; [apply Hf | intros b'; apply IH].
Qed.

Lemma determine_movement_phase_read_only a r v vals :
  read_only (determine_movement_phase a r v vals).
Proof. unfold determine_movement_phase. read_only_tac. Qed.

(** [validate_phase_transition] as one conditional. *)
Lemma validate_phase_transition_eq p s :
  validate_phase_transition p s =
  (if (2 <=? py_count p (last_n phase_stability_frames (phase_buffer s)))%nat
      && allowed (current_phase s) p
      && negb (bool_decide (p = current_phase s))
   then commit_phase p 1 s else s, inr tt).
Proof.
  unfold validate_phase_transition, bind, get, ret, modify.
  destruct (2 <=? _)%nat; [| reflexivity].
  destruct (allowed _ _); [| reflexivity].
  destruct (bool_decide _); reflexivity.
Qed.


Lemma advanced_body_step features timestamp s s' r :
  advanced_body features timestamp s = (s', r) ->
  phase_stays_or_follows_edge s s' /\ rep_kept_or_next s s'.
Proof.
  unfold advanced_body. intros H.
  unfold bind at 1 in H. unfold modify at 1 in H.
  set (s1 := set_angle_buffer _ s) in H.
  assert (Hk : forall x, phase_stays_or_follows_edge s1 x /\ rep_kept_or_next s1 x ->
                         phase_stays_or_follows_edge s x /\ rep_kept_or_next s x)
    by (intros x Hx; exact Hx).
  apply Hk. clear Hk.
  assert (Hrefl : phase_stays_or_follows_edge s1 s1 /\ rep_kept_or_next s1 s1)
    by (split; left; reflexivity).
  unfold bind at 1 in H. unfold get at 1 in H.
  unfold bind at 1 in H.
  match type of H with context [foldM ?f ?l ?b s1] =>
    destruct (read_only_run (foldM f l b) s1) as [rg Hg];
    [apply read_only_foldM; intros; apply gather_read_only | rewrite Hg in H]
  end.
  destruct rg as [e | [primary_values velocities]];
    [inversion H; subst; exact Hrefl |].
  destruct (bool_decide (primary_values = []));
    [inversion H; subst; exact Hrefl |].
  unfold bind at 1 in H.
  destruct (py_max primary_values) as [hi |];
    [| inversion H; subst; exact Hrefl].
  simpl orraise in H. unfold ret at 1 in H.
  unfold bind at 1 in H.
  destruct (py_min primary_values) as [lo |];
    [| inversion H; subst; exact Hrefl].
  simpl orraise in H. unfold ret at 1 in H.
  unfold bind at 1 in H.
  match type of H with context [determine_movement_phase ?a ?b ?c ?d s1] =>
    destruct (read_only_run (determine_movement_phase a b c d) s1) as [rp Hp];
    [apply determine_movement_phase_read_only | rewrite Hp in H]
  end.
  destruct rp as [e | p]; [inversion H; subst; exact Hrefl |].
  unfold bind at 1 in H. unfold modify at 1 in H.
  set (s2 := set_phase_buffer _ s1) in H.
  unfold bind at 1 in H. unfold get at 1 in H.
  unfold bind at 1 in H.
  assert (Hv : exists s3,
    (if (phase_stability_frames <=? length (phase_buffer s2))%nat
     then validate_phase_transition p else ret tt) s2 = (s3, inr tt)
    /\ phase_stays_or_follows_edge s1 s3 /\ rep_count s3 = rep_count s1).
  { destruct (phase_stability_frames <=? _)%nat.
    - rewrite validate_phase_transition_eq.
      destruct (_ && _ && _) eqn:Hc.
      + eexists. split; [reflexivity |]. split; [| reflexivity].
        right. simpl. apply andb_true_iff in Hc as [Hc _].
        apply andb_true_iff in Hc as [_ Hc]. exact Hc.
      + eexists. split; [reflexivity |]. split; [left |]; reflexivity.
    - eexists. split; [reflexivity |]. split; [left |]; reflexivity. }
  destruct Hv as (s3 & Hv & Hph & Hrep). rewrite Hv in H.
  unfold bind at 1 in H. unfold get at 1 in H.
  unfold bind, get, modify, ret in H.
  destruct (detect_rep_completion s3 timestamp (hi - lo) _);
    inversion H; subst; simpl; split; auto.
  - right. simpl. rewrite Hrep. reflexivity.
  - left. simpl. exact Hrep.
Qed.

Lemma advanced_rep_detection_moves features timestamp s :
  let s' := fst (advanced_rep_detection features timestamp s) in
  phase_stays_or_follows_edge s s' /\ rep_kept_or_next s s'.
Proof.
  unfold advanced_rep_detection.
  destruct (bool_decide (features = []) || _); [split; left; reflexivity |].
  destruct (negb _ && _); [split; left; reflexivity |].
  destruct (advanced_body features timestamp s) as [s2 [e | r]] eqn:Hb;
    simpl; eapply advanced_body_step; eauto.
Qed.

(** [universal_rep_detection] never reaches its rep increment: the slice of
    the deque raises as soon as three phases are committed. *)
Lemma universal_body_rep_count set_iter angles timestamp s :
  rep_count (fst (universal_body set_iter angles timestamp s)) = rep_count s.
Proof.
  unfold universal_body.
  unfold bind at 1. unfold get at 1.
  destruct (primary_movement _ angles (angle_buffer s)) as [primary thresholds].
  unfold bind at 1. unfold modify at 1.
  set (s1 := set_angle_buffer _ s).
  change (rep_count s) with (rep_count s1).
  unfold bind at 1. unfold get at 1.
  destruct (length (angle_buffer s1) <? 10)%nat; [reflexivity |].
  unfold bind at 1.
  destruct (all_scalars _) as [recent |]; [| reflexivity].
  simpl orraise. unfold ret at 1.
  unfold bind at 1. destruct (py_max recent) as [hi |]; [| reflexivity].
  simpl orraise. unfold ret at 1.
  unfold bind at 1. destruct (py_min recent) as [lo |]; [| reflexivity].
  simpl orraise. unfold ret at 1.
  unfold bind at 1. unfold modify at 1.
  set (s2 := set_phase_buffer _ s1).
  change (rep_count s1) with (rep_count s2).
  unfold bind at 1. unfold get at 1.
  unfold bind at 1.
  assert (Hv : exists s3 r3,
    (if (3 <=? length (phase_buffer s2))%nat
     then most <- orraise ValueError (most_common set_iter (phase_buffer s2)) ;;
          if bool_decide (most = current_phase s2) then ret tt
          else modify (commit_phase most 0)
     else ret tt) s2 = (s3, r3) /\ rep_count s3 = rep_count s2).
  { destruct (3 <=? _)%nat; [| eexists _, _; split; reflexivity].
    unfold bind. destruct (most_common _ _) as [most |];
      [| eexists _, _; split; reflexivity].
    simpl orraise. unfold ret at 1.
    destruct (bool_decide _); eexists _, _; split; reflexivity. }
  destruct Hv as (s3 & r3 & -> & <-).
  destruct r3 as [e | []]; [reflexivity |].
  unfold bind at 1. unfold get at 1.
  unfold bind at 1.
  destruct (3 <=? length (phase_history s3))%nat.
  - unfold bind at 1. unfold deque_slice. reflexivity.
  - unfold ret at 1. simpl andb. cbv beta iota.
    unfold bind, ret, modify, get. reflexivity.
Qed.

(** The sample iteration order is one of a set. *)
Lemma hash_order_set_iteration : set_iteration Samples.hash_order.
Proof.
  intros l. unfold Samples.hash_order. split.
  - apply NoDup_filter. apply (bool_decide_unpack _). reflexivity.
  - intros p. rewrite list_elem_of_filter. split; [tauto |].
    intros H. split; [exact H |]. destruct p; repeat constructor.
Qed.

(** Unanimous votes have one most common phase, whatever the order. *)
Lemma most_common_unanimous set_iter p n :
  set_iteration set_iter ->
  most_common set_iter (replicate (S n) p) = Some p.
Proof.
  intros Hs. destruct (Hs (replicate (S n) p)) as [Hnd Hel].
  unfold most_common.
  destruct (set_iter (replicate (S n) p)) as [| a t].
  - exfalso. assert (H : p ∈ @nil Phase) by (apply Hel; left). inversion H.
  - assert (Ha : a = p).
    { assert (H : a ∈ replicate (S n) p) by (apply Hel; left).
      apply elem_of_replicate in H. tauto. }
    subst a. destruct t as [| b t]; [reflexivity |].
    exfalso. assert (Hb : b = p).
    { assert (H : b ∈ replicate (S n) p) by (apply Hel; right; left).
      apply elem_of_replicate in H. tauto. }
    subst b. inversion Hnd as [| ? ? Hnotin _]. apply Hnotin. left.
Qed.

(** A whole curl through [universal_rep_detection]: the phases Peak, Return
    and Start are committed, and the next call raises [TypeError] at the
    slice of the deque; no rep is counted. *)
Example curl_cycle_raises :
  phase_history Samples.after_cycle = [Peak; Return; Start]
  /\ rep_count Samples.after_cycle = 0%nat
  /\ snd (universal_rep_detection Samples.hash_order
            [160; 160; 90; 90; 90; 90; 90; 90] (Samples.angles_of 160) 21
            Samples.after_cycle) = inl TypeError.
Proof. vm_compute. auto. Qed.

End ProfessionalFacts.

(* ------------------------------------------------------------------------- *)
(** ** The comprehensive engine never leaves its first return *)
(* ------------------------------------------------------------------------- *)

Section Fresh.
Import Comprehensive.

Lemma not_ready_returns current_angles timestamp s :
  (length (angle_buffer s) < 15)%nat ->
  advanced_rep_detection current_angles timestamp s
  = (s, Some (rep_count s, Start, 1#2, (1 / 2)%R)).
Proof.
  intros H. unfold advanced_rep_detection.
  apply Nat.ltb_lt in H. rewrite H, orb_true_r. reflexivity.
Qed.

Lemma untouched_step s e : untouched s -> untouched (step s e).
Proof.
  intros (Ha & Hv & Hh & Hp & Hr). destruct e as [[[name sim] cat] features t |].
  - unfold step, process_frame.
    destruct (bool_decide (features = []));
      [unfold untouched; simpl; auto |].
    match goal with |- untouched (fst (advanced_rep_detection _ _ ?x)) =>
      assert (Hx : untouched x)
    end.
    { destruct (_ && _); unfold untouched; simpl; auto. }
    rewrite not_ready_returns; [exact Hx |].
    destruct Hx as (-> & _). simpl. lia.
  - unfold step, reset_key, untouched. simpl. auto.
Qed.

Lemma untouched_run events s : untouched s -> untouched (run s events).
Proof.
  revert s. induction events as [| e t IH]; intros s H; simpl; [exact H |].
  apply IH, untouched_step, H.
Qed.

End Fresh.

(** C10. Starting from a fresh session of the comprehensive engine, whatever
    frames and key presses arrive, the angle buffer stays below 15 entries
    (it stays empty), and every call of [advanced_rep_detection] leaves the
    session as it is and returns the unchanged rep count with phase "start",
    confidence 0.5 and quality 0.5: no vote, no phase commit and no rep
    increment is reached. *)
Theorem C10_fresh_session_never_detects :
  forall events : list Comprehensive.Event,
    let s := Comprehensive.run Comprehensive.init events in
    (length (Comprehensive.angle_buffer s) < 15)%nat
    /\ Comprehensive.phase_buffer s = []
    /\ Comprehensive.phase_history_buffer s = []
    /\ Comprehensive.current_phase s = Start
    /\ Comprehensive.rep_count s = 0%nat
    /\ forall current_angles timestamp,
         Comprehensive.advanced_rep_detection current_angles timestamp s
         = (s, Some (Comprehensive.rep_count s, Start, 1#2, (1 / 2)%R)).
Proof.
  intros events s.
  assert (H : Comprehensive.untouched s).
  { apply untouched_run. unfold Comprehensive.untouched. simpl. auto. }
  destruct H as (Ha & Hv & Hh & Hp & Hr).
  assert (Hlen : (length (Comprehensive.angle_buffer s) < 15)%nat)
    by (rewrite Ha; simpl; lia).
  repeat split; auto.
  intros current_angles timestamp. apply not_ready_returns, Hlen.
Qed.

(* ------------------------------------------------------------------------- *)
(** ** The rep count moves by steps of one *)
(* ------------------------------------------------------------------------- *)

Lemma comprehensive_process_frame_rep ident features timestamp s :
  let s' := fst (Comprehensive.process_frame ident features timestamp s) in
  Comprehensive.rep_count s' = Comprehensive.rep_count s
  \/ Comprehensive.rep_count s' = (Comprehensive.rep_count s + 1)%nat.
Proof.
  destruct ident as [[name sim] cat]. unfold Comprehensive.process_frame.
  destruct (bool_decide (features = [])); [left; reflexivity |].
  match goal with |- context [Comprehensive.advanced_rep_detection _ _ ?x] =>
    set (s1 := x)
  end.
  assert (Hr : Comprehensive.rep_count s1 = Comprehensive.rep_count s)
    by (subst s1; destruct (_ && _); reflexivity).
  destruct (Comprehensive.advanced_rep_detection features timestamp s1)
    as [s' r] eqn:Hs.
  apply ComprehensiveFacts.advanced_rep_detection_step in Hs
    as (_ & _ & [(H & _) | (H & _)]); simpl; rewrite <- Hr; auto.
Qed.

Lemma professional_process_frame_rep set_iter s f :
  Professional.rep_count (Professional.process_frame set_iter s f)
  = Professional.rep_count s.
Proof.
  destruct f as [[features angles] timestamp]. unfold Professional.process_frame.
  destruct (_ && _); [| reflexivity].
  assert (H : Professional.rep_count
                (fst (Professional.universal_rep_detection set_iter features
                        angles timestamp s)) = Professional.rep_count s).
  { unfold Professional.universal_rep_detection.
    destruct (_ || _); [reflexivity |].
    apply ProfessionalFacts.universal_body_rep_count. }
  destruct (Professional.universal_rep_detection _ _ _ _ _) as [s' [e | r]];
    simpl in H; [exact H |].
  destruct (Professional.form_score features angles); simpl; exact H.
Qed.

(* ------------------------------------------------------------------------- *)
(** ** Phase changes and the transition table *)
(* ------------------------------------------------------------------------- *)

(** C1, as stated, fails on the professional engine: bound to a curl and fed
    frames with the elbows bent at 60 degrees, the committed phase is still
    Start after the eleventh frame and Peak after the twelfth, and
    Start -> Peak is not an edge of the table. *)
Lemma C1_counterexample_start_to_peak :
  Professional.current_phase Samples.after11 = Start
  /\ Professional.process_frame Samples.hash_order Samples.after11
       (Samples.pose 60 12) = Samples.after12
  /\ Professional.current_phase Samples.after12 = Peak
  /\ allowed Start Peak = false.
Proof. vm_compute. auto. Qed.

(** C1, amended. For every frame ingested by the comprehensive engine, and
    for every call of [advanced_rep_detection] of the professional engine, the
    committed phase stays or changes along an edge of the allowed-transition
    table; in particular it never goes from Start to Peak in one step. *)
Theorem C1_table_guarded_engines_follow_edges :
  (forall ident features timestamp s,
      let s' := fst (Comprehensive.process_frame ident features timestamp s) in
      (Comprehensive.current_phase s' = Comprehensive.current_phase s
       \/ allowed (Comprehensive.current_phase s)
                  (Comprehensive.current_phase s') = true)
      /\ ~ (Comprehensive.current_phase s = Start
            /\ Comprehensive.current_phase s' = Peak))
  /\ (forall features timestamp s,
        let s' := fst (Professional.advanced_rep_detection features timestamp s) in
        (Professional.current_phase s' = Professional.current_phase s
         \/ allowed (Professional.current_phase s)
                    (Professional.current_phase s') = true)
        /\ ~ (Professional.current_phase s = Start
              /\ Professional.current_phase s' = Peak)).
Proof.
  assert (Hsp : forall p q : Phase,
             p = q \/ allowed q p = true -> ~ (q = Start /\ p = Peak)).
  { intros p q [-> | H] [-> Hp]; [discriminate |]. subst p. discriminate. }
  split.
  - intros [[name sim] cat] features timestamp s s'.
    assert (H : Comprehensive.current_phase s' = Comprehensive.current_phase s
                \/ allowed (Comprehensive.current_phase s)
                           (Comprehensive.current_phase s') = true).
    { subst s'. unfold Comprehensive.process_frame.
      destruct (bool_decide (features = [])); [left; reflexivity |].
      match goal with |- context [Comprehensive.advanced_rep_detection _ _ ?x] =>
        set (s1 := x)
      end.
      assert (Hp : Comprehensive.current_phase s1 = Comprehensive.current_phase s)
        by (subst s1; destruct (_ && _); reflexivity).
      destruct (Comprehensive.advanced_rep_detection features timestamp s1)
        as [s2 r] eqn:Hs.
      apply ComprehensiveFacts.advanced_rep_detection_step in Hs
        as (_ & [(H & _) | (H & _)] & _); simpl; rewrite <- Hp; auto. }
    split; [exact H | apply Hsp, H].
  - intros features timestamp s s'.
    destruct (ProfessionalFacts.advanced_rep_detection_moves features timestamp s)
      as [H _].
    split; [exact H | apply Hsp, H].
Qed.

(* ------------------------------------------------------------------------- *)
(** ** The phase classifier against the guard table *)
(* ------------------------------------------------------------------------- *)

Section Classifier.
Local Open Scope Q_scope.
Import ComprehensiveFacts.

Lemma fold_max_upper (t : list Q) (x : Q) :
  let m := fold_left (fun m y => if Qltb m y then y else m) t x in
  x <= m /\ forall y, y ∈ t -> y <= m.
Proof.
  revert x. induction t as [| z t IH]; intros x; simpl.
  - split; [apply Qle_refl |]. intros y Hy. inversion Hy.
  - destruct (Qltb x z) eqn:E.
    + apply Qltb_lt in E. destruct (IH z) as [Hz Ht]. split.
      * eapply Qle_trans; [apply Qlt_le_weak, E | exact Hz].
      * intros y Hy. apply elem_of_cons in Hy as [-> | Hy]; auto.
    + apply Qltb_ge in E. destruct (IH x) as [Hx Ht]. split; [exact Hx |].
      intros y Hy. apply elem_of_cons in Hy as [-> | Hy]; auto.
      eapply Qle_trans; [exact E | exact Hx].
Qed.

Lemma fold_min_lower (t : list Q) (x : Q) :
  let m := fold_left (fun m y => if Qltb y m then y else m) t x in
  m <= x /\ forall y, y ∈ t -> m <= y.
Proof.
  revert x. induction t as [| z t IH]; intros x; simpl.
  - split; [apply Qle_refl |]. intros y Hy. inversion Hy.
  - destruct (Qltb z x) eqn:E.
    + apply Qltb_lt in E. destruct (IH z) as [Hz Ht]. split.
      * eapply Qle_trans; [exact Hz | apply Qlt_le_weak, E].
      * intros y Hy. apply elem_of_cons in Hy as [-> | Hy]; auto.
    + apply Qltb_ge in E. destruct (IH x) as [Hx Ht]. split; [exact Hx |].
      intros y Hy. apply elem_of_cons in Hy as [-> | Hy]; auto.
      eapply Qle_trans; [exact Hx | exact E].
Qed.

Lemma py_max_upper l hi y : py_max l = Some hi -> y ∈ l -> y <= hi.
Proof.
  destruct l as [| x t]; [discriminate |]. simpl. intros [= <-] Hy.
  destruct (fold_max_upper t x) as [Hx Ht].
  apply elem_of_cons in Hy as [-> | Hy]; auto.
Qed.

Lemma py_min_lower l lo y : py_min l = Some lo -> y ∈ l -> lo <= y.
Proof.
  destruct l as [| x t]; [discriminate |]. simpl. intros [= <-] Hy.
  destruct (fold_min_lower t x) as [Hx Ht].
  apply elem_of_cons in Hy as [-> | Hy]; auto.
Qed.

(** The newest frame's value closes the column of the window. *)
Lemma column_last idx frames values frame x :
  column idx frames = Some values ->
  last frames = Some frame -> frame !! idx = Some x -> x ∈ values.
Proof.
  unfold column. revert values.
  induction frames as [| f t IH]; intros values Hc Hl Hx; [discriminate |].
  rewrite mapM_Some in Hc. inversion Hc as [| ? v ? vs Hv Hrest]; subst.
  destruct t as [| g t'].
  - simpl in Hl. injection Hl as ->. rewrite Hx in Hv. injection Hv as ->.
    left.
  - right. apply IH; auto. apply mapM_Some. exact Hrest.
Qed.

(** In [advanced_rep_detection] the window handed to the classifier ends
    with the frame just buffered. *)
Lemma newest_frame_closes_window (current_angles : list Q)
    (buffer : list (list Q)) :
  last (last_n 15 (deque_append 60 current_angles buffer)) = Some current_angles.
Proof.
  unfold deque_append, last_n. simpl Nat.eqb. cbv iota.
  rewrite drop_app_le by (rewrite length_app; simpl; lia).
  rewrite drop_app_le by (rewrite length_app; simpl; lia).
  apply last_snoc.
Qed.

Lemma Qltb_proper a a' b b' : a == a' -> b == b' -> Qltb a b = Qltb a' b'.
Proof.
  intros Ha Hb. destruct (Qltb a b) eqn:E; symmetry.
  - apply Qltb_lt. apply Qltb_lt in E. rewrite <- Ha, <- Hb. exact E.
  - apply Qltb_ge. apply Qltb_ge in E. rewrite <- Ha, <- Hb. exact E.
Qed.

(** The [if]/[elif] chain of the source picks the candidate of the table. *)
Lemma phase_rules_classify cur position velocity vthresh :
  Comprehensive.phase_rules cur position velocity vthresh
  = Spec.classify cur position velocity vthresh.
Proof.
  unfold Spec.classify, Spec.matching, Spec.guard_table.
  destruct cur; cbn [List.find Spec.from Spec.guard Spec.candidate bool_decide
                     decide decide_rel Phase_eq_dec Phase_rec Phase_rect
                     andb sumbool_rec sumbool_rect];
    unfold Comprehensive.phase_rules;
    rewrite ?(Qltb_proper ((8#10) * vthresh) (vthresh * (8#10)) velocity velocity)
      by (try apply Qmult_comm; apply Qeq_refl);
    rewrite ?(Qltb_proper ((6#10) * vthresh) (vthresh * (6#10)) velocity velocity)
      by (try apply Qmult_comm; apply Qeq_refl);
    rewrite ?(Qltb_proper velocity velocity ((5#10) * vthresh) (vthresh * (5#10)))
      by (try apply Qmult_comm; apply Qeq_refl);
    repeat match goal with
           | |- context [Qltb ?a ?b] =>
               let c := fresh "c" in
               generalize (Qltb a b); intros c
           end;
    repeat match goal with c : bool |- _ => destruct c end;
    reflexivity.
Qed.

Lemma position_in_unit primary lo hi :
  lo <= primary -> primary <= hi ->
  Comprehensive.position_in_range primary lo hi = Spec.position primary lo hi
  /\ 0 <= Spec.position primary lo hi <= 1.
Proof.
  intros Hlo Hhi. unfold Comprehensive.position_in_range, Spec.position.
  destruct (Qltb lo hi) eqn:E.
  - apply Qltb_lt in E.
    destruct (Qeq_bool hi lo) eqn:E2.
    + apply Qeq_bool_iff in E2. exfalso. lra.
    + split; [reflexivity |]. split.
      * apply Qle_shift_div_l; lra.
      * apply Qle_shift_div_r; lra.
  - apply Qltb_ge in E.
    assert (Heq : hi == lo) by lra.
    apply Qeq_bool_iff in Heq. rewrite Heq.
    split; [reflexivity |]. split; lra.
Qed.

End Classifier.

(** C5, as stated, fails on the professional engine: in phase Quarter, at
    position 0.72 of a window from 0 to 100 with velocity 1.3, the guard
    table (with vThresh 1.5) gives candidate Peak while
    [determine_movement_phase] keeps Quarter. *)
Lemma C5_counterexample_professional_guards :
  let s := Professional.commit_phase Quarter 1 (Professional.init 0) in
  Professional.current_phase s = Quarter
  /\ Professional.determine_movement_phase 72 100 (13#10) [0; 100]%Q s
     = (s, inr Quarter)
  /\ Spec.position 72 0 100 = (72 / 100)%Q
  /\ Spec.classify Quarter (Spec.position 72 0 100) (13#10)
       Professional.velocity_threshold = Peak.
Proof. vm_compute. auto. Qed.

(** C5, amended. In the comprehensive engine, for a window of channel values
    that ends with the primary angle of the newest frame, the classifier
    returns the current phase unchanged when the observed range is below
    [min_angle_range], and otherwise the candidate of the guard table for
    (current phase, position, velocity), where position is
    (primary - windowMin) / (windowMax - windowMin), lies in [0,1], and is 0.5
    when windowMax equals windowMin; when no guard of the current state
    matches, the candidate is the current phase.  The classifier changes no
    attribute. *)
Theorem C5_comprehensive_classifier_follows_guard_table :
  forall primary_angle velocity angle_range thresholds recent_angles angle_idx
         s values frame,
    column angle_idx recent_angles = Some values ->
    last recent_angles = Some frame ->
    frame !! angle_idx = Some primary_angle ->
    exists windowMin windowMax,
      py_min values = Some windowMin /\ py_max values = Some windowMax
      /\ let position := Spec.position primary_angle windowMin windowMax in
         let vThresh := Comprehensive.velocity_threshold thresholds in
         Comprehensive.determine_exercise_phase primary_angle velocity
           angle_range thresholds recent_angles angle_idx s
         = (s, inr (if Qltb angle_range (Comprehensive.min_angle_range thresholds)
                    then Comprehensive.current_phase s
                    else Spec.classify (Comprehensive.current_phase s)
                           position velocity vThresh))
         /\ (0 <= position <= 1)%Q
         /\ ((windowMax == windowMin)%Q -> position = 1#2)
         /\ (Spec.matching (Comprehensive.current_phase s) position velocity
               vThresh = None ->
             Spec.classify (Comprehensive.current_phase s) position velocity
               vThresh = Comprehensive.current_phase s).
Proof.
  intros primary_angle velocity angle_range thresholds recent_angles angle_idx
         s values frame Hcol Hlast Hidx.
  pose proof (column_last _ _ _ _ _ Hcol Hlast Hidx) as Hin.
  destruct (py_min values) as [lo |] eqn:Hlo;
    [| destruct values; [inversion Hin | discriminate]].
  destruct (py_max values) as [hi |] eqn:Hhi;
    [| destruct values; [inversion Hin | discriminate]].
  exists lo, hi. split; [reflexivity |]. split; [reflexivity |].
  destruct (position_in_unit primary_angle lo hi) as [Hpos Hunit].
  { eapply py_min_lower; eauto. }
  { eapply py_max_upper; eauto. }
  cbv zeta. repeat split; try apply Hunit.
  - unfold Comprehensive.determine_exercise_phase, bind, get, orraise, ret.
    destruct (Qltb angle_range _); [reflexivity |].
    rewrite Hcol, Hlo, Hhi. cbn beta iota.
    rewrite Hpos, phase_rules_classify. reflexivity.
  - intros Heq. unfold Spec.position.
    apply Qeq_bool_iff in Heq. rewrite Heq. reflexivity.
  - intros Hnone. unfold Spec.classify. rewrite Hnone. reflexivity.
Qed.

(** The theorem at a window of three frames rising from 100 to 140. *)
Lemma C5_comprehensive_classifier_follows_guard_table_witness :
  last (Comprehensive.angle_buffer Samples.rising) = Some (Samples.frame_of 140)
  /\ exists windowMin windowMax,
       py_min [100; 120; 140]%Q = Some windowMin
       /\ py_max [100; 120; 140]%Q = Some windowMax.
Proof.
  assert (H1 : column 0 [Samples.frame_of 100; Samples.frame_of 120;
                         Samples.frame_of 140]
               = Some [100; 120; 140]%Q) by reflexivity.
  assert (H2 : last [Samples.frame_of 100; Samples.frame_of 120;
                     Samples.frame_of 140] = Some (Samples.frame_of 140))
    by reflexivity.
  assert (H3 : Samples.frame_of 140 !! 0%nat = Some 140%Q) by reflexivity.
  split; [reflexivity |].
  destruct (C5_comprehensive_classifier_follows_guard_table 140 10 40
              Comprehensive.default_thresholds _ 0%nat Samples.rising _ _
              H1 H2 H3) as (lo & hi & Hlo & Hhi & _).
  exists lo, hi. split; assumption.
Defined.

(* ------------------------------------------------------------------------- *)
(** ** The movement-quality score *)
(* ------------------------------------------------------------------------- *)

Section Quality.
Local Open Scope R_scope.

Lemma positional_matches_zip (recent expected : list Phase) :
  positional_matches recent expected
  = length (filter (fun pair : Phase * Phase => pair.1 = pair.2)
                   (zip recent expected)).
Proof.
  revert expected. induction recent as [| p r IH]; intros [| e x]; simpl;
    try reflexivity.
  rewrite IH. destruct (decide (p = e)) as [Heq | Hne].
  - rewrite bool_decide_eq_true_2 by exact Heq.
    rewrite filter_cons_True by exact Heq. reflexivity.
  - rewrite bool_decide_eq_false_2 by exact Hne.
    rewrite filter_cons_False by exact Hne. reflexivity.
Qed.

Lemma positional_matches_le (recent expected : list Phase) :
  (positional_matches recent expected <= length expected)%nat.
Proof.
  revert expected. induction recent as [| p r IH]; intros [| e x]; simpl;
    try lia.
  specialize (IH x). destruct (bool_decide (p = e)); lia.
Qed.

Lemma fold_Rmax_ge (t : list R) (x : R) : x <= fold_left Rmax t x.
Proof.
  revert x. induction t as [| y t IH]; intros x; simpl; [Lra.lra |].
  eapply Rle_trans; [apply (Rmax_l x y) | apply IH].
Qed.

Lemma clamp_unit x : 0 <= Rmax 0 (Rmin 1 x) <= 1.
Proof.
  split; [apply Rmax_l |].
  apply Rmax_lub; [Lra.lra | apply Rmin_l].
Qed.

Lemma movement_quality_spec angle_ranges velocities history :
  angle_ranges <> [] ->
  Comprehensive.movement_quality angle_ranges velocities history
  = Spec.quality_with (/ 1000000) (Stats.Rmax_list angle_ranges) velocities
      history.
Proof.
  intros Hne. unfold Comprehensive.movement_quality, Spec.quality_with,
    Spec.clamp, Spec.adherence.
  destruct angle_ranges as [| r0 rs]; [congruence |].
  rewrite positional_matches_zip.
  replace (length velocities <? 2)%nat with (negb (1 <? length velocities)%nat).
  2:{ destruct (Nat.ltb_spec 1 (length velocities));
      destruct (Nat.ltb_spec (length velocities) 2); simpl; try reflexivity; lia. }
  replace (length history <? 5)%nat with (negb (5 <=? length history)%nat).
  2:{ destruct (Nat.leb_spec 5 (length history));
      destruct (Nat.ltb_spec (length history) 5); simpl; try reflexivity; lia. }
  destruct (1 <? length velocities)%nat, (5 <=? length history)%nat; simpl;
    Lra.lra.
Qed.

End Quality.

(** C6, as stated, fails: for an observed range of 60 degrees, velocities 1
    and 3 (mean 2, standard deviation 1) and an empty history, the formula of
    the claim gives 0.4 + 0.3 * 0.5 + 0.3 * 0.5, and the code a larger score,
    because it divides the deviation by mean + 0.000001. *)
Lemma C6_counterexample_velocity_denominator :
  (Spec.quality 60 [1; 3] [] = 7 / 10
   /\ Comprehensive.movement_quality [60] [1; 3] [] > 7 / 10)%R.
Proof.
  assert (Hstd : Stats.np_std [1; 3]%R = 1%R).
  { unfold Stats.np_std, Stats.np_mean, Stats.Rsum. simpl.
    replace (((1 - (1 + (3 + 0)) / (1 + 1)) * (1 - (1 + (3 + 0)) / (1 + 1))
              + ((3 - (1 + (3 + 0)) / (1 + 1)) * (3 - (1 + (3 + 0)) / (1 + 1)) + 0))
             / (1 + 1))%R with 1%R by Lra.lra.
    apply sqrt_1. }
  assert (Hmean : Stats.np_mean [1; 3]%R = 2%R).
  { unfold Stats.np_mean, Stats.Rsum. simpl. Lra.lra. }
  split.
  - unfold Spec.quality, Spec.quality_with, Spec.clamp. simpl.
    rewrite Hstd, Hmean.
    replace (60 / 60)%R with 1%R by Lra.lra.
    replace (1 - 1 / (2 + 0))%R with (1 / 2)%R by Lra.lra.
    rewrite Rmin_left by Lra.lra. rewrite Rmin_right by Lra.lra.
    rewrite Rmax_right by Lra.lra. Lra.lra.
  - unfold Comprehensive.movement_quality. simpl.
    rewrite Hstd, Hmean.
    replace (60 / 60)%R with 1%R by Lra.lra.
    replace (1 - 1 / (2 + / 1000000))%R with (1000001 / 2000001)%R
      by (field; Lra.lra).
    rewrite Rmin_left by Lra.lra. rewrite Rmin_right by Lra.lra.
    rewrite Rmax_right by Lra.lra. Lra.lra.
Qed.

(** C6, amended. For a non-empty list of non-negative ranges the
    movement-quality score lies in [0,1] and equals
    0.4 * min(observedRange / 60, 1)
    + 0.3 * clamp(1 - stddev(velocities) / (mean(velocities) + 0.000001), 0, 1)
    + 0.3 * (fraction of the last 5 committed phases positionally matching
             [Start,Quarter,Peak,Return,End]),
    with observedRange the largest range, the velocity term exactly 0.5 for
    fewer than 2 velocity samples and the sequence term exactly 0.5 for a
    history of fewer than 5 entries. *)
Theorem C6_movement_quality_score :
  forall angle_ranges velocities history,
    angle_ranges <> [] ->
    Forall (fun r => 0 <= r)%R angle_ranges ->
    let q := Comprehensive.movement_quality angle_ranges velocities history in
    let range_term := Rmin (Stats.Rmax_list angle_ranges / 60) 1 in
    (0 <= q <= 1)%R
    /\ q = Spec.quality_with (/ 1000000) (Stats.Rmax_list angle_ranges)
             velocities history
    /\ ((length velocities < 2)%nat -> (5 <= length history)%nat ->
        q = (4 / 10 * range_term + 3 / 10 * (1 / 2)
             + 3 / 10 * Spec.adherence history)%R)
    /\ ((length history < 5)%nat -> (2 <= length velocities)%nat ->
        q = (4 / 10 * range_term
             + 3 / 10 * Spec.clamp
                          (1 - Stats.np_std velocities
                               / (Stats.np_mean velocities + / 1000000)) 0 1
             + 3 / 10 * (1 / 2))%R)
    /\ ((length velocities < 2)%nat -> (length history < 5)%nat ->
        q = (4 / 10 * range_term + 3 / 10 * (1 / 2) + 3 / 10 * (1 / 2))%R).
Proof.
  intros angle_ranges velocities history Hne Hpos q range_term.
  assert (Hq : q = Spec.quality_with (/ 1000000) (Stats.Rmax_list angle_ranges)
                     velocities history)
    by (apply movement_quality_spec, Hne).
  assert (Hrange : (0 <= range_term <= 1)%R).
  { subst range_term. destruct angle_ranges as [| r0 rs]; [congruence |].
    inversion Hpos as [| ? ? Hr0 _]; subst.
    pose proof (fold_Rmax_ge rs r0) as Hge. simpl.
    split; [| apply Rmin_r].
    apply Rmin_glb; Lra.lra. }
  assert (Hadh : (0 <= Spec.adherence history <= 1)%R).
  { unfold Spec.adherence. rewrite <- positional_matches_zip.
    pose proof (positional_matches_le (last_n 5 history) expected_sequence) as Hle.
    simpl length in Hle. apply le_INR in Hle.
    pose proof (pos_INR (positional_matches (last_n 5 history) expected_sequence)).
    replace (INR 5) with 5%R in Hle by (simpl; Lra.lra).
    split; Lra.lra. }
  repeat split.
  - rewrite Hq. unfold Spec.quality_with, Spec.clamp. fold range_term.
    pose proof (clamp_unit (1 - Stats.np_std velocities
                                / (Stats.np_mean velocities + / 1000000))) as Hc.
    destruct (length velocities <? 2)%nat, (length history <? 5)%nat; Lra.lra.
  - rewrite Hq. unfold Spec.quality_with, Spec.clamp. fold range_term.
    pose proof (clamp_unit (1 - Stats.np_std velocities
                                / (Stats.np_mean velocities + / 1000000))) as Hc.
    destruct (length velocities <? 2)%nat, (length history <? 5)%nat; Lra.lra.
  - exact Hq.
  - intros Hv Hh. rewrite Hq. unfold Spec.quality_with. fold range_term.
    apply Nat.ltb_lt in Hv. rewrite Hv.
    apply Nat.ltb_ge in Hh. rewrite Hh. reflexivity.
  - intros Hh Hv. rewrite Hq. unfold Spec.quality_with. fold range_term.
    apply Nat.ltb_lt in Hh. rewrite Hh.
    apply Nat.ltb_ge in Hv. rewrite Hv. reflexivity.
  - intros Hv Hh. rewrite Hq. unfold Spec.quality_with. fold range_term.
    apply Nat.ltb_lt in Hv. rewrite Hv.
    apply Nat.ltb_lt in Hh. rewrite Hh. reflexivity.
Qed.

(** The theorem at one range of 60 degrees and velocities 1 and 3. *)
Lemma C6_movement_quality_score_witness :
  ([60] : list R)%R <> []
  /\ Forall (fun r => 0 <= r)%R [60]%R
  /\ (0 <= Comprehensive.movement_quality [60] [1; 3] [] <= 1)%R.
Proof.
  assert (H1 : ([60] : list R)%R <> []) by discriminate.
  assert (H2 : Forall (fun r => 0 <= r)%R [60]%R)
    by (constructor; [Lra.lra | constructor]).
  split; [exact H1 |]. split; [exact H2 |].
  exact (proj1 (C6_movement_quality_score [60%R] [1%R; 3%R] [] H1 H2)).
Defined.

(* ------------------------------------------------------------------------- *)
(** ** Session control: reset, not-ready frames, unknown exercises *)
(* ------------------------------------------------------------------------- *)

(** C7, as stated, fails: after twelve frames the reset leaves the twelve
    buffered angles, the three buffered votes and the twelve form scores in
    place. *)
Lemma C7_counterexample_buffers_survive_reset :
  length (Professional.angle_buffer (fst (Api.reset_session Samples.after12)))
  = 12%nat
  /\ Professional.phase_buffer (fst (Api.reset_session Samples.after12))
     = [Peak; Peak; Peak]
  /\ length (Professional.form_scores (fst (Api.reset_session Samples.after12)))
     = 12%nat.
Proof. vm_compute. auto. Qed.

(** C7, amended. reset() zeroes the rep count, sets the current phase to
    Start, empties the committed-phase history and forgets the session start
    time; the angle buffer, the vote buffer, the score buffers and the time
    of the last rep stay as they were.  It is idempotent: a second reset in a
    row returns the same acknowledgement and leaves the very same session
    state. *)
Theorem C7_reset_is_idempotent :
  forall s : Professional.State,
    let r := fst (Api.reset_session s) in
    Professional.rep_count r = 0%nat
    /\ Professional.current_phase r = Start
    /\ Professional.phase_history r = []
    /\ Professional.session_start_time r = None
    /\ Professional.angle_buffer r = Professional.angle_buffer s
    /\ Professional.phase_buffer r = Professional.phase_buffer s
    /\ Professional.form_scores r = Professional.form_scores s
    /\ Professional.confidence_scores r = Professional.confidence_scores s
    /\ Professional.last_rep_time r = Professional.last_rep_time s
    /\ Api.reset_session r = (r, snd (Api.reset_session s)).
Proof. intros s. simpl. repeat split. Qed.

Lemma professional_not_ready_returns features timestamp s :
  (length (Professional.angle_buffer s) < 15)%nat ->
  Professional.advanced_rep_detection features timestamp s
  = (s, (Professional.rep_count s, Start, (1 / 2)%R)).
Proof.
  intros H. unfold Professional.advanced_rep_detection.
  apply Nat.ltb_lt in H. rewrite H, orb_true_r. reflexivity.
Qed.

(** C8, on the failing input: with 12 angles buffered (fewer than the 15 of
    the trailing window) and the committed phase at Peak,
    [advanced_rep_detection] leaves the session unchanged, as claimed, but
    reports phase "start" and not the committed phase. *)
Theorem C8_not_ready_reports_start :
  length (Professional.angle_buffer Samples.after12) = 12%nat
  /\ Professional.current_phase Samples.after12 = Peak
  /\ Professional.advanced_rep_detection [60; 60; 90; 90; 90; 90; 90; 90]%Q 13
       Samples.after12
     = (Samples.after12,
        (Professional.rep_count Samples.after12, Start, (1 / 2)%R)).
Proof.
  assert (Hlen : length (Professional.angle_buffer Samples.after12) = 12%nat)
    by (vm_compute; reflexivity).
  split; [exact Hlen |]. split; [vm_compute; reflexivity |].
  apply professional_not_ready_returns. rewrite Hlen. lia.
Qed.

(** C9, on the failing inputs: for an exercise id that is not in the
    database, [set_target_exercise] returns False and leaves the session
    exactly as it was, as claimed, but the start-exercise handler answers
    with status "started" and the previously bound exercise's name instead
    of reporting the failure. *)
Theorem C9_unknown_exercise_reported_as_started :
  forall db request_exercise_id s,
    Professional.exercise_mapping db !! request_exercise_id = None ->
    Professional.set_target_exercise db request_exercise_id s = (s, false)
    /\ Api.start_exercise db request_exercise_id s
       = (s, Api.Response
               {| Api.status := "started";
                  Api.exercise_id := request_exercise_id;
                  Api.exercise_name := Professional.current_exercise_name s;
                  Api.message := "Exercise session started: "
                                 +:+ Professional.current_exercise_name s |}).
Proof.
  intros db request_exercise_id s H.
  unfold Api.start_exercise, Professional.set_target_exercise.
  rewrite H. split; reflexivity.
Qed.

(** The theorem at the sample database, which has no exercise "nope". *)
Lemma C9_unknown_exercise_reported_as_started_witness :
  Professional.exercise_mapping Samples.db !! "nope"%string = None
  /\ Api.start_exercise Samples.db "nope" Samples.after12
     = (Samples.after12,
        Api.Response
          {| Api.status := "started";
             Api.exercise_id := "nope";
             Api.exercise_name :=
               Professional.current_exercise_name Samples.after12;
             Api.message :=
               "Exercise session started: "
               +:+ Professional.current_exercise_name Samples.after12 |}).
Proof.
  assert (H : Professional.exercise_mapping Samples.db !! "nope"%string = None)
    by reflexivity.
  split; [exact H |].
  exact (proj2 (C9_unknown_exercise_reported_as_started Samples.db "nope"
                  Samples.after12 H)).
Defined.

(* ------------------------------------------------------------------------- *)
(** * Further properties of the modelled code *)
(* ------------------------------------------------------------------------- *)

(** ** Keeping a property through a method body *)

Section Preserves.
Context {S : Type} (P : S -> Prop).

Lemma preserves_ret {A} (a : A) : preserves P (ret a).
Proof. intros s H. exact H. Qed.

Lemma preserves_raise {A} (e : exn) : preserves P (@raise S A e).
Proof. intros s H. exact H. Qed.

Lemma preserves_get : preserves P get.
Proof. intros s H. exact H. Qed.

Lemma preserves_orraise {A} (e : exn) (o : option A) : preserves P (orraise e o).
Proof. destruct o; intros s H; exact H. Qed.

Lemma preserves_modify (f : S -> S) :
  (forall s, P s -> P (f s)) -> preserves P (modify f).
Proof. intros Hf s H. apply Hf, H. Qed.

Lemma preserves_bind {A B} (m : M S A) (k : A -> M S B) :
  preserves P m -> (forall a, preserves P (k a)) -> preserves P (bind m k).
Proof.
  intros Hm Hk s H. unfold bind. specialize (Hm s H).
  destruct (m s) as [s' [e | a]]; simpl in *; [exact Hm |].
  apply Hk, Hm.
Qed.

Lemma preserves_read_only {A} (m : M S A) : read_only m -> preserves P m.
Proof. intros Hm s H. rewrite Hm. exact H. Qed.

End Preserves.

Ltac preserves_tac :=
  repeat first
    [ apply preserves_ret | apply preserves_raise | apply preserves_get
    | apply preserves_orraise
    | apply preserves_bind; [| intros ?]
    | match goal with |- preserves _ (if ?b then _ else _) => destruct b end
    | match goal with |- preserves _ (match ?x with _ => _ end) => destruct x end ].

Lemma length_deque_append {A} (maxlen : nat) (x : A) (d : list A) :
  length (deque_append maxlen x d) = Nat.min (length d + 1) maxlen.
Proof.
  unfold deque_append. rewrite length_drop, length_app. simpl. lia.
Qed.

(* ------------------------------------------------------------------------- *)
(** ** Buffers stay within their capacities *)
(* ------------------------------------------------------------------------- *)

Section ComprehensiveCapacity.
Import Comprehensive Invariant.

Lemma detection_body_capacity current_angles timestamp :
  preserves within_capacity (detection_body current_angles timestamp).
Proof.
  unfold detection_body, stabilize, validate_and_update_phase,
    calculate_movement_quality.
  preserves_tac;
    try (apply preserves_read_only;
         first [ apply read_only_forM; intros; apply ComprehensiveFacts.channel_metrics_read_only
               | apply ComprehensiveFacts.determine_exercise_phase_read_only ]);
    try (apply preserves_modify; intros s0 (Ha & Hv & Hh & Hq);
         unfold within_capacity; simpl; rewrite ?length_deque_append;
         repeat split; lia).
Qed.

Lemma advanced_rep_detection_capacity current_angles timestamp s :
  within_capacity s ->
  within_capacity (fst (advanced_rep_detection current_angles timestamp s)).
Proof.
  intros H. unfold advanced_rep_detection.
  destruct (_ || _); [exact H |].
  pose proof (detection_body_capacity current_angles timestamp s H) as Hb.
  destruct (detection_body current_angles timestamp s) as [s' [e | r]]; exact Hb.
Qed.

End ComprehensiveCapacity.

(** X1. In the comprehensive engine no frame and no key press takes a deque
    beyond its maxlen: from a session whose angle buffer, vote buffer,
    committed-phase history and quality history hold at most 60, 20, 10 and
    30 entries, every sequence of events leads to such a session. *)
Theorem X1_comprehensive_buffers_within_capacity :
  forall (events : list Comprehensive.Event) (s : Comprehensive.State),
    Invariant.within_capacity s ->
    Invariant.within_capacity (Comprehensive.run s events).
Proof.
  intros events. induction events as [| e rest IH]; intros s H; simpl;
    [exact H |].
  apply IH. destruct e as [[[name sim] cat] features t |]; simpl.
  - unfold Comprehensive.process_frame.
    destruct (bool_decide (features = [])); [exact H |].
    apply advanced_rep_detection_capacity.
    destruct (_ && _); exact H.
  - exact H.
Qed.

(** The theorem at the resting session and one more frame. *)
Lemma X1_comprehensive_buffers_within_capacity_witness :
  Invariant.within_capacity Samples.resting
  /\ Invariant.within_capacity
       (Comprehensive.run Samples.resting
          [Comprehensive.Frame ("unknown"%string, 0%Q, "general"%string)
             (Samples.frame_of 100) 100]).
Proof.
  assert (H : Invariant.within_capacity Samples.resting)
    by (unfold Invariant.within_capacity; simpl; lia).
  split; [exact H |].
  exact (X1_comprehensive_buffers_within_capacity _ Samples.resting H).
Defined.

Section ProfessionalInvariants.
Import Professional Service.
Local Open Scope Q_scope.

Lemma universal_body_capacity set_iter angles timestamp :
  preserves within_capacity (universal_body set_iter angles timestamp).
Proof.
  unfold universal_body.
  apply preserves_bind; [apply preserves_get | intros s0].
  destruct (primary_movement _ angles (angle_buffer s0)) as [primary thresholds].
  cbv zeta.
  preserves_tac;
    try (apply preserves_modify; intros s1 (Ha & Hv & Hh & Hf & Hc);
         unfold within_capacity; simpl; rewrite ?length_deque_append;
         repeat split; lia).
Qed.

(** The form score is clamped to [0.2, 1]. *)
Lemma form_score_range features angles x :
  form_score features angles = Some x -> 2#10 <= x /\ x <= 1.
Proof.
  unfold form_score. destruct (bool_decide _); [| discriminate].
  repeat (match goal with
          | |- context [angles !! ?k] => destruct (angles !! k); simpl; [| discriminate]
          end).
  intros [= <-]. unfold max2, min2.
  repeat match goal with
         | |- context [Qltb ?a ?b] =>
             let E := fresh "E" in
             destruct (Qltb a b) eqn:E;
             [apply ComprehensiveFacts.Qltb_lt in E
             | apply ComprehensiveFacts.Qltb_ge in E]
         end; split; lra.
Qed.

Lemma confidence_range (angle_range : Q) :
  (0 <= (if Qltb 0 angle_range then Rmin 1 (Q2R angle_range / 80) else 1 / 2)
   <= 1)%R.
Proof.
  destruct (Qltb 0 angle_range) eqn:E; [| split; Lra.lra].
  apply ComprehensiveFacts.Qltb_lt in E. apply Qreals.Qlt_Rlt in E.
  rewrite RMicromega.Q2R_0 in E.
  split; [apply Rmin_glb; Lra.lra | apply Rmin_l].
Qed.

Lemma universal_body_scores set_iter angles timestamp :
  preserves scores_in_range (universal_body set_iter angles timestamp).
Proof.
  unfold universal_body.
  apply preserves_bind; [apply preserves_get | intros s0].
  destruct (primary_movement _ angles (angle_buffer s0)) as [primary thresholds].
  cbv zeta.
  preserves_tac;
    try (apply preserves_modify; intros s1 [Hf Hc];
         unfold scores_in_range; simpl; split; auto; fail).
  all: apply preserves_modify; intros s1 [Hf Hc];
    unfold scores_in_range; simpl; split; auto;
    unfold deque_append; apply Forall_drop, Forall_app; split; auto;
    constructor; [apply confidence_range | constructor].
Qed.

Lemma process_frame_keeps set_iter (P : State -> Prop) s f :
  (forall angles timestamp, preserves P (universal_body set_iter angles timestamp)) ->
  (forall x s', form_score f.1.1 f.1.2 = Some x -> P s' -> P (push_form_score x s')) ->
  P s -> P (process_frame set_iter s f).
Proof.
  intros Hu Hp H. destruct f as [[features angles] timestamp].
  unfold process_frame. destruct (_ && _); [| exact H].
  assert (Hd : P (fst (universal_rep_detection set_iter features angles
                         timestamp s))).
  { unfold universal_rep_detection. destruct (_ || _); [exact H |].
    apply Hu, H. }
  destruct (universal_rep_detection _ _ _ _ _) as [s' [e | r]]; simpl in Hd;
    [exact Hd |].
  destruct (form_score features angles) as [x |] eqn:Hx; [| exact Hd].
  apply (Hp x); auto.
Qed.

Lemma serve_capacity set_iter db s r :
  within_capacity s -> within_capacity (serve set_iter db s r).
Proof.
  intros H. pose proof H as (Ha & Hv & Hh & Hf & Hc).
  destruct r as [id | | name id | | f]; simpl.
  - unfold Api.start_exercise, set_target_exercise.
    destruct (exercise_mapping db !! id); simpl; [| exact H].
    unfold within_capacity; simpl. repeat split; lia.
  - unfold within_capacity; simpl. repeat split; auto; lia.
  - unfold set_exercise, set_target_exercise. simpl.
    destruct id as [id |], name as [name |];
      repeat (match goal with
              | |- context [bool_decide ?p] => destruct (bool_decide p)
              | |- context [exercise_mapping db !! ?k] =>
                  destruct (exercise_mapping db !! k)
              end; simpl);
      try exact H; unfold within_capacity; simpl; repeat split; auto; lia.
  - unfold within_capacity; simpl. repeat split; auto; lia.
  - apply process_frame_keeps; auto.
    + intros. apply universal_body_capacity.
    + intros x s' _ (Ha' & Hv' & Hh' & Hf' & Hc').
      unfold within_capacity; simpl. rewrite length_deque_append.
      repeat split; lia.
Qed.

Lemma serve_scores set_iter db s r :
  scores_in_range s -> scores_in_range (serve set_iter db s r).
Proof.
  intros H. pose proof H as [Hf Hc].
  destruct r as [id | | name id | | f]; simpl.
  - unfold Api.start_exercise, set_target_exercise.
    destruct (exercise_mapping db !! id); simpl; [| exact H].
    split; constructor.
  - exact H.
  - unfold set_exercise, set_target_exercise. simpl.
    destruct id as [id |], name as [name |];
      repeat (match goal with
              | |- context [bool_decide ?p] => destruct (bool_decide p)
              | |- context [exercise_mapping db !! ?k] =>
                  destruct (exercise_mapping db !! k)
              end; simpl);
      try exact H; split; simpl; auto; constructor.
  - exact H.
  - apply process_frame_keeps; auto.
    + intros. apply universal_body_scores.
    + intros x s' Hx [Hf' Hc']. split; simpl; auto.
      unfold deque_append. apply Forall_drop, Forall_app. split; auto.
      constructor; [eapply form_score_range; eauto | constructor].
Qed.

End ProfessionalInvariants.

(** X2. Whatever requests the server's engine receives (start-exercise,
    reset, the websocket set_exercise and reset messages, frames), its five
    deques never exceed their maxlen: 45 angles, 10 votes, 20 committed
    phases, 30 form scores and 30 confidence scores. *)
Theorem X2_professional_buffers_within_capacity :
  forall set_iter db (requests : list Service.Request) (s : Professional.State),
    Service.within_capacity s ->
    Service.within_capacity (Service.session set_iter db s requests).
Proof.
  intros set_iter db requests.
  induction requests as [| r rest IH]; intros s H; simpl; [exact H |].
  apply IH, serve_capacity, H.
Qed.

(** The theorem at a fresh engine that is bound and fed twelve frames. *)
Lemma X2_professional_buffers_within_capacity_witness :
  Service.within_capacity (Professional.init 0)
  /\ Service.within_capacity
       (Service.session Samples.hash_order Samples.db (Professional.init 0)
          (Service.StartExercise "curl01" :: map Service.FrameMessage Samples.bent)).
Proof.
  assert (H : Service.within_capacity (Professional.init 0))
    by (unfold Service.within_capacity; simpl; lia).
  split; [exact H |].
  exact (X2_professional_buffers_within_capacity Samples.hash_order Samples.db
           _ (Professional.init 0) H).
Defined.

(* ------------------------------------------------------------------------- *)
(** ** The session summary *)
(* ------------------------------------------------------------------------- *)

Section Means.

Lemma Qsum_bounds (a b : Q) (l : list Q) :
  Forall (fun x => a <= x /\ x <= b)%Q l ->
  (a * inject_Z (Z.of_nat (length l)) <= fold_right Qplus 0 l
   /\ fold_right Qplus 0 l <= b * inject_Z (Z.of_nat (length l)))%Q.
Proof.
  induction 1 as [| x t [Hax Hxb] _ [IHa IHb]].
  - cbn. change (inject_Z (Z.of_nat 0)) with 0%Q. split; Lqa.lra.
  - cbn [length fold_right].
    assert (Hn : (inject_Z (Z.of_nat (S (length t)))
                  == 1 + inject_Z (Z.of_nat (length t)))%Q).
    { rewrite Nat2Z.inj_succ. unfold Z.succ. rewrite inject_Z_plus.
      change (inject_Z 1) with 1%Q. Lqa.lra. }
    rewrite Hn. split; Lqa.nra.
Qed.

Lemma mean_bounds (a b : Q) (l : list Q) :
  l <> [] -> Forall (fun x => a <= x /\ x <= b)%Q l ->
  (a <= Professional.mean l /\ Professional.mean l <= b)%Q.
Proof.
  intros Hne Hl. destruct (Qsum_bounds a b l Hl) as [Ha Hb].
  assert (Hpos : (0 < inject_Z (Z.of_nat (length l)))%Q).
  { destruct l; [congruence |]. simpl length.
    change 0%Q with (inject_Z 0). rewrite <- Zlt_Qlt. lia. }
  unfold Professional.mean. split.
  - apply Qle_shift_div_l; assumption.
  - apply Qle_shift_div_r; assumption.
Qed.

Lemma Rsum_bounds (a b : R) (l : list R) :
  Forall (fun x => a <= x <= b)%R l ->
  (a * INR (length l) <= Stats.Rsum l <= b * INR (length l))%R.
Proof.
  induction 1 as [| x t [Hax Hxb] _ [IHa IHb]].
  - simpl. split; Lra.lra.
  - cbn [length]. rewrite S_INR. simpl. split; Lra.lra.
Qed.

Lemma np_mean_bounds (a b : R) (l : list R) :
  l <> [] -> Forall (fun x => a <= x <= b)%R l ->
  (a <= Stats.np_mean l <= b)%R.
Proof.
  intros Hne Hl. destruct (Rsum_bounds a b l Hl) as [Ha Hb].
  assert (Hpos : (0 < INR (length l))%R).
  { destruct l; [congruence |]. apply lt_0_INR. simpl. lia. }
  unfold Stats.np_mean. split.
  - apply Rmult_le_reg_r with (INR (length l)); [exact Hpos |].
    unfold Rdiv. rewrite Rmult_assoc, Rinv_l by Lra.lra. Lra.lra.
  - apply Rmult_le_reg_r with (INR (length l)); [exact Hpos |].
    unfold Rdiv. rewrite Rmult_assoc, Rinv_l by Lra.lra. Lra.lra.
Qed.

End Means.

(** X3. In every session that starts with its scores in range (a fresh
    engine has none), [get_session_summary] either raises because the start
    time was cleared, or reports the current rep count and history length,
    an average form score that is 0 when no score is stored and otherwise
    positive and at most 1, and an average confidence within [0, 1].  The
    stored form scores lie within [0.2, 1]; of their mean only the bounds
    that the rounding of a sum of floats cannot break are stated. *)
Theorem X3_summary_averages_in_range :
  forall set_iter db (requests : list Service.Request) (s : Professional.State)
         (now : Q),
    Service.scores_in_range s ->
    let s' := Service.session set_iter db s requests in
    match Service.get_session_summary now s' with
    | inl e => e = TypeError /\ Professional.session_start_time s' = None
    | inr summary =>
        Service.total_reps summary = Professional.rep_count s'
        /\ Service.total_phases_detected summary
           = length (Professional.phase_history s')
        /\ ((Professional.form_scores s' = []
             /\ Service.average_form_score summary = 0%Q)
            \/ (Professional.form_scores s' <> []
                /\ (0 < Service.average_form_score summary
                    /\ Service.average_form_score summary <= 1)%Q))
        /\ (0 <= Service.average_confidence summary <= 1)%R
    end.
Proof.
  intros set_iter db requests s now H s'.
  assert (Hs : Service.scores_in_range s').
  { subst s'. revert s H. induction requests as [| r rest IH]; intros s H;
      simpl; [exact H |]. apply IH, serve_scores, H. }
  destruct Hs as [Hf Hc].
  unfold Service.get_session_summary.
  destruct (Professional.session_start_time s') as [started |]; [| auto].
  simpl. split; [reflexivity |]. split; [reflexivity |]. split.
  - destruct (Professional.form_scores s') as [| x t] eqn:E; [left; auto |].
    right. split; [discriminate |].
    destruct (mean_bounds (2#10) 1 (x :: t)) as [Hlo Hhi];
      [discriminate | exact Hf |].
    split; [| exact Hhi].
    eapply Qlt_le_trans; [| exact Hlo]. reflexivity.
  - destruct (Professional.confidence_scores s') as [| c t] eqn:E;
      [Lra.lra |].
    apply np_mean_bounds; [discriminate | exact Hc].
Qed.

(** The theorem at a fresh engine that is bound to the curl and fed twelve
    frames: twelve form scores are stored, and the summary reports their
    average. *)
Lemma X3_summary_averages_in_range_witness :
  Service.scores_in_range (Professional.init 0)
  /\ length (Professional.form_scores
               (Service.session Samples.hash_order Samples.db
                  (Professional.init 0)
                  (Service.StartExercise "curl01"
                   :: map Service.FrameMessage Samples.bent))) = 12%nat
  /\ match Service.get_session_summary 60
             (Service.session Samples.hash_order Samples.db
                (Professional.init 0)
                (Service.StartExercise "curl01"
                 :: map Service.FrameMessage Samples.bent)) with
     | inl e => e = TypeError
     | inr summary =>
         (0 < Service.average_form_score summary
          /\ Service.average_form_score summary <= 1)%Q
         /\ (0 <= Service.average_confidence summary <= 1)%R
     end.
Proof.
  assert (H : Service.scores_in_range (Professional.init 0))
    by (split; constructor).
  split; [exact H |].
  split; [vm_compute; reflexivity |].
  assert (Hstored : Professional.form_scores
                      (Service.session Samples.hash_order Samples.db
                         (Professional.init 0)
                         (Service.StartExercise "curl01"
                          :: map Service.FrameMessage Samples.bent)) <> [])
    by (vm_compute; discriminate).
  pose proof (X3_summary_averages_in_range Samples.hash_order Samples.db
                (Service.StartExercise "curl01"
                 :: map Service.FrameMessage Samples.bent)
                (Professional.init 0) 60 H) as Hx.
  cbv zeta in Hx.
  destruct (Service.get_session_summary 60 _) as [e | summary];
    [apply Hx |].
  destruct Hx as (_ & _ & [[Hnil _] | [_ Hform]] & Hconf).
  - exfalso. exact (Hstored Hnil).
  - split; [exact Hform | exact Hconf].
Defined.

(** X4. The REST reset breaks the summary: after [reset_session], whatever
    the session was, [get_session_summary] raises [TypeError] and the
    session-summary endpoint answers with status 500; after the websocket
    reset, which keeps the start time, the summary is available exactly
    when it was before. *)
Theorem X4_summary_fails_after_rest_reset :
  forall (s : Professional.State) (now : Q),
    Service.get_session_summary now (fst (Api.reset_session s)) = inl TypeError
    /\ Service.session_summary now (fst (Api.reset_session s))
       = Api.HTTPException 500
           ("Failed to get summary: " +:+ Service.float_minus_none)
    /\ (Service.get_session_summary now (Service.reset s) = inl TypeError
        <-> Service.get_session_summary now s = inl TypeError).
Proof.
  intros s now. split; [reflexivity |]. split; [reflexivity |].
  unfold Service.get_session_summary, Service.reset. simpl.
  destruct (Professional.session_start_time s); split; congruence.
Qed.

(* ------------------------------------------------------------------------- *)
(** ** What the professional frame path never does *)
(* ------------------------------------------------------------------------- *)

Section ServerReps.
Import Professional Service.

Lemma serve_rep_count set_iter db s r :
  (rep_count (serve set_iter db s r) <= rep_count s)%nat.
Proof.
  destruct r as [id | | name id | | f]; simpl; try lia.
  - unfold Api.start_exercise, set_target_exercise.
    destruct (exercise_mapping db !! id); simpl; lia.
  - unfold set_exercise, set_target_exercise. simpl.
    destruct id as [id |], name as [name |];
      repeat (match goal with
              | |- context [bool_decide ?p] => destruct (bool_decide p)
              | |- context [exercise_mapping db !! ?k] =>
                  destruct (exercise_mapping db !! k)
              end; simpl); lia.
  - rewrite professional_process_frame_rep. lia.
Qed.

End ServerReps.

(** X5. The server's engine never counts a repetition: no request, frames
    included, ever raises the rep count, so that a session that starts from
    a fresh engine reports 0 repetitions whatever it receives. *)
Theorem X5_server_never_counts_a_rep :
  forall set_iter db (requests : list Service.Request),
    (forall s : Professional.State,
        (Professional.rep_count (Service.session set_iter db s requests)
         <= Professional.rep_count s)%nat)
    /\ (forall now : Q,
          Professional.rep_count
            (Service.session set_iter db (Professional.init now) requests)
          = 0%nat).
Proof.
  intros set_iter db requests.
  assert (H : forall s : Professional.State,
             (Professional.rep_count (Service.session set_iter db s requests)
              <= Professional.rep_count s)%nat).
  { induction requests as [| r rest IH]; intros s; simpl; [lia |].
    etransitivity; [apply IH | apply serve_rep_count]. }
  split; [exact H |].
  intros now. specialize (H (Professional.init now)). simpl in H. lia.
Qed.

Section SliceRaises.
Import Professional.

Lemma universal_body_form_scores set_iter angles timestamp (fs : list Q) :
  preserves (fun s => form_scores s = fs)
            (universal_body set_iter angles timestamp).
Proof.
  unfold universal_body.
  apply preserves_bind; [apply preserves_get | intros s0].
  destruct (primary_movement _ angles (angle_buffer s0)) as [primary thresholds].
  cbv zeta.
  preserves_tac; apply preserves_modify; intros s1 H; exact H.
Qed.

Lemma most_common_some set_iter (buf : list Phase) :
  set_iteration set_iter -> buf <> [] ->
  exists p, most_common set_iter buf = Some p.
Proof.
  intros Hs Hne. destruct (Hs buf) as [_ Hel]. unfold most_common.
  destruct (set_iter buf) as [| a t]; [| eauto].
  destruct buf as [| h rest]; [congruence |].
  assert (H : h ∈ @nil Phase) by (apply Hel; left). inversion H.
Qed.

Lemma py_max_some (l : list Q) : l <> [] -> exists x, py_max l = Some x.
Proof. destruct l; [congruence | simpl; eauto]. Qed.

Lemma py_min_some (l : list Q) : l <> [] -> exists x, py_min l = Some x.
Proof. destruct l; [congruence | simpl; eauto]. Qed.

Lemma universal_body_raises set_iter angles timestamp s :
  set_iteration set_iter ->
  (9 <= length (angle_buffer s))%nat ->
  (3 <= length (phase_history s))%nat ->
  snd (universal_body set_iter angles timestamp s) = inl TypeError.
Proof.
  intros Hs Hbuf Hhist. unfold universal_body.
  unfold bind at 1. unfold get at 1.
  destruct (primary_movement _ angles (angle_buffer s)) as [primary thresholds].
  unfold bind at 1. unfold modify at 1.
  set (s1 := set_angle_buffer _ s).
  assert (Hlen1 : (10 <= length (angle_buffer s1))%nat).
  { subst s1. simpl. rewrite length_deque_append. lia. }
  unfold bind at 1. unfold get at 1.
  destruct (Nat.ltb_spec (length (angle_buffer s1)) 10) as [Hlt | _]; [lia |].
  unfold bind at 1.
  destruct (all_scalars (last_n 10 (angle_buffer s1))) as [recent |] eqn:Hrec;
    [| reflexivity].
  assert (Hne : recent <> []).
  { apply length_mapM in Hrec. unfold last_n in Hrec.
    cbn [Nat.eqb] in Hrec. rewrite length_drop in Hrec. intros ->.
    cbn [length] in Hrec. lia. }
  simpl orraise. unfold ret at 1.
  destruct (py_max_some recent Hne) as [hi Hhi].
  destruct (py_min_some recent Hne) as [lo Hlo].
  unfold bind at 1. rewrite Hhi. simpl orraise. unfold ret at 1.
  unfold bind at 1. rewrite Hlo. simpl orraise. unfold ret at 1.
  unfold bind at 1. unfold modify at 1.
  set (s2 := set_phase_buffer _ s1).
  unfold bind at 1. unfold get at 1.
  unfold bind at 1.
  assert (Hv : exists s3,
    (if (3 <=? length (phase_buffer s2))%nat
     then most <- orraise ValueError (most_common set_iter (phase_buffer s2)) ;;
          if bool_decide (most = current_phase s2) then ret tt
          else modify (commit_phase most 0)
     else ret tt) s2 = (s3, inr tt)
    /\ (3 <= length (phase_history s3))%nat).
  { destruct (3 <=? _)%nat; [| exists s2; split; [reflexivity | exact Hhist]].
    destruct (most_common_some set_iter (phase_buffer s2) Hs) as [most Hmost].
    { subst s2. simpl. unfold deque_append. intros Hnil.
      apply (f_equal length) in Hnil. rewrite length_drop, length_app in Hnil.
      simpl in Hnil. lia. }
    unfold bind. rewrite Hmost. simpl orraise. unfold ret at 1.
    destruct (bool_decide (most = current_phase s2)).
    - exists s2. split; [reflexivity | exact Hhist].
    - eexists. split; [reflexivity |]. simpl.
      rewrite length_deque_append. lia. }
  destruct Hv as (s3 & -> & Hh3).
  unfold bind at 1. unfold get at 1.
  unfold bind at 1.
  apply Nat.leb_le in Hh3. rewrite Hh3.
  reflexivity.
Qed.

End SliceRaises.

(** X6. Once three phases are committed and nine angles buffered, every
    further call of [universal_rep_detection] with features and angles
    raises [TypeError] (the slice of the deque), and the frame of
    [process_frame] that makes the call ends there: no repetition is counted
    and no form score is stored. *)
Theorem X6_detection_raises_once_three_phases_committed :
  forall set_iter features angles timestamp (s : Professional.State),
    Professional.set_iteration set_iter ->
    features <> [] -> angles <> ∅ ->
    (9 <= length (Professional.angle_buffer s))%nat ->
    (3 <= length (Professional.phase_history s))%nat ->
    snd (Professional.universal_rep_detection set_iter features angles
           timestamp s) = inl TypeError
    /\ Professional.form_scores
         (Professional.process_frame set_iter s (features, angles, timestamp))
       = Professional.form_scores s
    /\ Professional.rep_count
         (Professional.process_frame set_iter s (features, angles, timestamp))
       = Professional.rep_count s.
Proof.
  intros set_iter features angles timestamp s Hs Hf Ha Hbuf Hhist.
  assert (Hr : snd (Professional.universal_rep_detection set_iter features
                      angles timestamp s) = inl TypeError).
  { unfold Professional.universal_rep_detection.
    rewrite (bool_decide_eq_false_2 _ Hf), (bool_decide_eq_false_2 _ Ha).
    simpl. apply universal_body_raises; assumption. }
  split; [exact Hr |]. split; [| apply professional_process_frame_rep].
  unfold Professional.process_frame.
  destruct (_ && _); [| reflexivity].
  assert (Hfs : Professional.form_scores
                  (fst (Professional.universal_rep_detection set_iter features
                          angles timestamp s)) = Professional.form_scores s).
  { unfold Professional.universal_rep_detection.
    rewrite (bool_decide_eq_false_2 _ Hf), (bool_decide_eq_false_2 _ Ha).
    simpl.
    apply (universal_body_form_scores set_iter angles timestamp
             (Professional.form_scores s) s). reflexivity. }
  destruct (Professional.universal_rep_detection _ _ _ _ _) as [s' [e | r]];
    simpl in *; [exact Hfs | discriminate].
Qed.

(** The theorem at the engine that has gone through one whole curl. *)
Lemma X6_detection_raises_once_three_phases_committed_witness :
  Professional.set_iteration Samples.hash_order
  /\ (9 <= length (Professional.angle_buffer Samples.after_cycle))%nat
  /\ (3 <= length (Professional.phase_history Samples.after_cycle))%nat
  /\ snd (Professional.universal_rep_detection Samples.hash_order
            [160; 160; 90; 90; 90; 90; 90; 90]%Q (Samples.angles_of 160) 21
            Samples.after_cycle) = inl TypeError.
Proof.
  assert (H1 : ([160; 160; 90; 90; 90; 90; 90; 90]%Q : list Q) <> [])
    by discriminate.
  assert (H2 : Samples.angles_of 160 <> ∅).
  { intros H. apply (f_equal (fun m : gmap string Q => m !! "left_elbow"%string)) in H.
    vm_compute in H. discriminate. }
  assert (H3 : (9 <= length (Professional.angle_buffer Samples.after_cycle))%nat)
    by (vm_compute; lia).
  assert (H4 : (3 <= length (Professional.phase_history Samples.after_cycle))%nat)
    by (vm_compute; lia).
  split; [exact ProfessionalFacts.hash_order_set_iteration |].
  split; [exact H3 |]. split; [exact H4 |].
  exact (proj1 (X6_detection_raises_once_three_phases_committed
                  Samples.hash_order _ _ 21 Samples.after_cycle
                  ProfessionalFacts.hash_order_set_iteration H1 H2 H3 H4)).
Defined.

(** X7. Without a bound exercise ([current_exercise_id] None or empty, as on
    a fresh engine) [process_frame] ignores every frame: a run of frames
    leaves the whole session state as it was. *)
Theorem X7_unbound_engine_ignores_frames :
  forall set_iter (frames : list (list Q * gmap string Q * Q))
         (s : Professional.State),
    Professional.exercise_bound s = false ->
    Professional.run set_iter s frames = s.
Proof.
  intros set_iter frames s H.
  unfold Professional.run.
  induction frames as [| [[features angles] t] rest IH]; cbn [fold_left];
    [reflexivity |].
  assert (Hf : Professional.process_frame set_iter s (features, angles, t) = s)
    by (unfold Professional.process_frame; rewrite H; reflexivity).
  rewrite Hf. exact IH.
Qed.

(** The theorem at a fresh engine and the twelve sample frames. *)
Lemma X7_unbound_engine_ignores_frames_witness :
  Professional.exercise_bound (Professional.init 0) = false
  /\ Professional.run Samples.hash_order (Professional.init 0) Samples.bent
     = Professional.init 0.
Proof.
  assert (H : Professional.exercise_bound (Professional.init 0) = false)
    by reflexivity.
  split; [exact H |].
  exact (X7_unbound_engine_ignores_frames Samples.hash_order Samples.bent
           (Professional.init 0) H).
Defined.

(* ------------------------------------------------------------------------- *)
(** ** What the classifiers can propose *)
(* ------------------------------------------------------------------------- *)

Lemma phase_rules_in_table cur position velocity vthresh :
  let p := Comprehensive.phase_rules cur position velocity vthresh in
  p = cur \/ allowed cur p = true.
Proof.
  destruct cur; simpl;
    repeat match goal with
           | |- context [Qltb ?a ?b] => destruct (Qltb a b); simpl
           end; auto.
Qed.

(** X8. Whatever the measurements, a classifier proposes either the current
    phase or a phase the allowed-transition table lists as reachable from
    it, and it changes no attribute; this holds for
    [determine_exercise_phase] of the comprehensive engine and for
    [determine_movement_phase] of the professional one. *)
Theorem X8_classifiers_propose_table_edges :
  (forall primary_angle velocity angle_range thresholds recent_angles angle_idx
          (s : Comprehensive.State),
      match Comprehensive.determine_exercise_phase primary_angle velocity
              angle_range thresholds recent_angles angle_idx s with
      | (s', inr p) =>
          s' = s
          /\ (p = Comprehensive.current_phase s
              \/ allowed (Comprehensive.current_phase s) p = true)
      | (s', inl _) => s' = s
      end)
  /\ (forall current_angle angle_range velocity recent_values
             (s : Professional.State),
        match Professional.determine_movement_phase current_angle angle_range
                velocity recent_values s with
        | (s', inr p) =>
            s' = s
            /\ (p = Professional.current_phase s
                \/ allowed (Professional.current_phase s) p = true)
        | (s', inl _) => s' = s
        end).
Proof.
  split.
  - intros. unfold Comprehensive.determine_exercise_phase, bind, get, orraise,
      ret, raise.
    destruct (Qltb angle_range _); [auto |].
    destruct (column angle_idx recent_angles); [| auto].
    destruct (py_min l); [| auto]. destruct (py_max l); [| auto].
    split; [reflexivity | apply phase_rules_in_table].
  - intros. unfold Professional.determine_movement_phase, bind, get, orraise,
      ret, raise.
    destruct (Qltb angle_range _); [auto |].
    destruct (py_min recent_values); [| auto].
    destruct (py_max recent_values); [| auto].
    destruct (Qleb _ _); [auto |].
    split; [reflexivity |].
    destruct (Professional.current_phase s);
      repeat match goal with
             | |- context [Qltb ?a ?b] => destruct (Qltb a b); simpl
             end; auto.
Qed.

(* ------------------------------------------------------------------------- *)
(** ** The primary angle and its bands *)
(* ------------------------------------------------------------------------- *)

(** X9. For an exercise whose name contains "raise" (and none of "curl",
    "squat", "lunge", "press"), the primary angle is the larger shoulder
    angle and the band classifier knows two phases only: Start when that
    angle is above 30 degrees and Peak otherwise; Quarter, Return and End are
    never proposed. *)
Theorem X9_raise_exercises_have_two_phases :
  forall (exercise_name : string) (angles : gmap string Q)
         (buffer : list Professional.Entry),
    contains "curl" exercise_name = false ->
    contains "squat" exercise_name = false ->
    contains "lunge" exercise_name = false ->
    contains "press" exercise_name = false ->
    contains "raise" exercise_name = true ->
    let '(primary_angle, thresholds) :=
      Professional.primary_movement exercise_name angles buffer in
    primary_angle = Professional.max2 (Professional.angle angles "left_shoulder")
                      (Professional.angle angles "right_shoulder")
    /\ Professional.phase_of_angle primary_angle thresholds
       = if Qltb 30 primary_angle then Start else Peak.
Proof.
  intros exercise_name angles buffer Hc Hs Hl Hp Hr.
  unfold Professional.primary_movement. rewrite Hc, Hs, Hl, Hp, Hr. simpl.
  split; [reflexivity |].
  unfold Professional.phase_of_angle. simpl.
  destruct (Qltb 30 _) eqn:E1; [reflexivity |].
  destruct (Qltb 60 _) eqn:E2.
  - apply ComprehensiveFacts.Qltb_ge in E1. apply ComprehensiveFacts.Qltb_lt in E2.
    exfalso. lra.
  - destruct (Qltb _ 120) eqn:E3; [reflexivity |].
    apply ComprehensiveFacts.Qltb_ge in E1. apply ComprehensiveFacts.Qltb_ge in E3.
    exfalso. lra.
Qed.

(** The theorem at a lateral raise with the arms at 20 degrees. *)
Lemma X9_raise_exercises_have_two_phases_witness :
  contains "raise" "lateral raise" = true
  /\ Professional.phase_of_angle 20
       {| Professional.extended := 30; Professional.quarter := 60;
          Professional.peak := 120; Professional.return_ := 90 |} = Peak.
Proof.
  assert (H1 : contains "curl" "lateral raise" = false) by reflexivity.
  assert (H2 : contains "squat" "lateral raise" = false) by reflexivity.
  assert (H3 : contains "lunge" "lateral raise" = false) by reflexivity.
  assert (H4 : contains "press" "lateral raise" = false) by reflexivity.
  assert (H5 : contains "raise" "lateral raise" = true) by reflexivity.
  split; [exact H5 |].
  pose proof (X9_raise_exercises_have_two_phases "lateral raise"
                {[ "left_shoulder"%string := 20%Q; "right_shoulder"%string := 20%Q ]}
                [] H1 H2 H3 H4 H5) as H.
  vm_compute in H. exact (proj2 H).
Defined.

Section Generic.
Import Professional.
Local Open Scope Q_scope.

Lemma Qltb_irrefl (x : Q) : Qltb x x = false.
Proof. apply ComprehensiveFacts.Qltb_ge. apply Qle_refl. Qed.

Lemma pair_lt_same_range (r : Q) (i j : nat) :
  pair_lt (r, i) (r, j) = (i <? j)%nat.
Proof.
  unfold pair_lt. simpl. rewrite Qltb_irrefl.
  assert (H : Qeq_bool r r = true) by (apply Qeq_bool_iff, Qeq_refl).
  rewrite H. reflexivity.
Qed.

End Generic.

(** X10. For an exercise of the generic family, once ten angles are buffered
    of which at least two among the last ten are floats, the primary angle
    is always the right knee angle: every joint gets the same range, and
    the largest (range, joint) tuple is that of the last joint. *)
Theorem X10_generic_primary_angle_is_right_knee :
  forall (angles : gmap string Q) (buffer : list Professional.Entry),
    (10 <= length buffer)%nat ->
    (2 <= length (Professional.scalars (last_n 10 buffer)))%nat ->
    Professional.generic_primary_angle angles buffer
    = Professional.angle angles "right_knee".
Proof.
  intros angles buffer Hlen Hsc. unfold Professional.generic_primary_angle.
  apply Nat.leb_le in Hlen. rewrite Hlen.
  set (joint_values := Professional.scalars (last_n 10 buffer)) in *.
  assert (Hne : joint_values <> []) by (intros E; rewrite E in Hsc; simpl in Hsc; lia).
  destruct (py_max_some joint_values Hne) as [hi ->].
  destruct (py_min_some joint_values Hne) as [lo ->].
  assert (H1 : (1 <? length joint_values)%nat = true) by (apply Nat.ltb_lt; lia).
  rewrite H1. cbn [length seq omap list_omap].
  unfold Professional.max_pair. cbn [fold_left].
  repeat (rewrite pair_lt_same_range; cbn [Nat.ltb Nat.leb]).
  reflexivity.
Qed.

(** The theorem at ten buffered floats. *)
Lemma X10_generic_primary_angle_is_right_knee_witness :
  (10 <= length (Professional.angle_buffer Samples.after12))%nat
  /\ Professional.generic_primary_angle (Samples.angles_of 60)
       (Professional.angle_buffer Samples.after12) = 90%Q.
Proof.
  assert (H1 : (10 <= length (Professional.angle_buffer Samples.after12))%nat)
    by (vm_compute; lia).
  assert (H2 : (2 <= length (Professional.scalars
                   (last_n 10 (Professional.angle_buffer Samples.after12))))%nat)
    by (vm_compute; lia).
  split; [exact H1 |].
  rewrite (X10_generic_primary_angle_is_right_knee (Samples.angles_of 60) _ H1 H2).
  reflexivity.
Defined.

(* ------------------------------------------------------------------------- *)
(** ** The form score *)
(* ------------------------------------------------------------------------- *)

(** X11. [analyze_exercise_form] stores a form score exactly when the
    feature list is 8 long and the angles dictionary has all eight joint
    angles, and the score it stores lies within [0.2, 1]. *)
Theorem X11_form_score_stored_and_clamped :
  forall (features : list Q) (angles : gmap string Q),
    (is_Some (Professional.form_score features angles) <->
     length features = 8%nat
     /\ Forall (fun name : string => is_Some (angles !! name))
          ["left_elbow"; "right_elbow"; "left_shoulder"; "right_shoulder";
           "left_hip"; "right_hip"; "left_knee"; "right_knee"]%string)
    /\ match Professional.form_score features angles with
       | Some x => (2#10 <= x /\ x <= 1)%Q
       | None => True
       end.
Proof.
  intros features angles. split.
  - unfold Professional.form_score. split.
    + destruct (bool_decide (length features = 8%nat)) eqn:E;
        [| intros [? [=]]].
      apply bool_decide_eq_true in E. intros H. split; [exact E |].
      repeat (match goal with
              | H : is_Some (?o ≫= _) |- _ =>
                  let v := fresh "v" in
                  destruct o as [v |] eqn:?; [simpl in H | destruct H as [? [=]]]
              end).
      repeat constructor; eauto.
    + intros [Hlen Hall].
      rewrite (bool_decide_eq_true_2 _ Hlen).
      repeat (match goal with
              | H : Forall _ (_ :: _) |- _ =>
                  let H1 := fresh "H" in
                  let v := fresh "v" in
                  let E := fresh "E" in
                  apply Forall_cons in H as [[v E] H]; rewrite E; simpl
              end).
      eauto.
  - destruct (Professional.form_score features angles) as [x |] eqn:E;
      [| exact I].
    eapply form_score_range; eauto.
Qed.

(* ------------------------------------------------------------------------- *)
(** ** Binding an exercise *)
(* ------------------------------------------------------------------------- *)

(** X12. For an exercise id of the database, [set_target_exercise] returns
    True, binds id, name and pattern, zeroes the rep count and the time of
    the last rep, sets the phase to Start and clears the vote buffer, the
    phase history and both score buffers, but keeps the buffered angles; it
    is idempotent, and the start-exercise handler answers "started" with the
    exercise's name. *)
Theorem X12_known_exercise_binds_and_resets :
  forall (db : Professional.Database) (id name : string) (s : Professional.State),
    Professional.exercise_mapping db !! id = Some name ->
    let s' := fst (Professional.set_target_exercise db id s) in
    snd (Professional.set_target_exercise db id s) = true
    /\ Professional.current_exercise_id s' = Some id
    /\ Professional.current_exercise_name s' = name
    /\ Professional.target_exercise_pattern s'
       = Professional.exercise_patterns db !! id
    /\ Professional.rep_count s' = 0%nat
    /\ Professional.last_rep_time s' = 0%Q
    /\ Professional.current_phase s' = Start
    /\ Professional.phase_buffer s' = []
    /\ Professional.phase_history s' = []
    /\ Professional.form_scores s' = []
    /\ Professional.confidence_scores s' = []
    /\ Professional.angle_buffer s' = Professional.angle_buffer s
    /\ Professional.set_target_exercise db id s' = (s', true)
    /\ snd (Api.start_exercise db id s)
       = Api.Response
           {| Api.status := "started"; Api.exercise_id := id;
              Api.exercise_name := name;
              Api.message := "Exercise session started: " +:+ name |}.
Proof.
  intros db id name s H s'. subst s'.
  unfold Api.start_exercise, Professional.set_target_exercise.
  rewrite H. simpl. repeat split.
Qed.

(** The theorem at the sample database and a session after twelve frames. *)
Lemma X12_known_exercise_binds_and_resets_witness :
  Professional.exercise_mapping Samples.db !! "curl01"%string
  = Some "Dumbbell Curl"%string
  /\ Professional.angle_buffer
       (fst (Professional.set_target_exercise Samples.db "curl01" Samples.after12))
     = Professional.angle_buffer Samples.after12.
Proof.
  assert (H : Professional.exercise_mapping Samples.db !! "curl01"%string
              = Some "Dumbbell Curl"%string) by (vm_compute; reflexivity).
  split; [exact H |].
  destruct (X12_known_exercise_binds_and_resets Samples.db "curl01"
              "Dumbbell Curl" Samples.after12 H)
    as (_ & _ & _ & _ & _ & _ & _ & _ & _ & _ & _ & Hkept & _).
  exact Hkept.
Defined.

Section ByName.
Import Professional Service.

Lemma replace_spaces_no_space (s : string) :
  contains " " (replace_spaces s) = false.
Proof.
  induction s as [| c t IH]; [reflexivity |].
  cbn [replace_spaces contains]. rewrite IH.
  destruct (bool_decide (c = " "%char)) eqn:E; [reflexivity |].
  apply bool_decide_eq_false in E.
  cbn [String.prefix]. rewrite orb_false_r.
  destruct (Ascii.ascii_dec " " c) as [Heq | Hne]; [congruence | reflexivity].
Qed.

Lemma append_bound (a : string) :
  bool_decide ((a +:+ "_001")%string = EmptyString) = false.
Proof. destruct a; reflexivity. Qed.

End ByName.

Section AsciiNames.
Import Service.

Lemma lower_ascii_is_ascii (c : ascii) :
  is_ascii_char c = true -> is_ascii_char (lower_ascii c) = true.
Proof.
  destruct c as [[] [] [] [] [] [] [] []]; intros H;
    first [discriminate H | reflexivity].
Qed.

Lemma is_ascii_app (a b : string) :
  is_ascii a = true -> is_ascii b = true -> is_ascii (a +:+ b) = true.
Proof.
  intros Ha Hb. induction a as [| c t IH]; [exact Hb |].
  cbn [is_ascii] in Ha. apply andb_true_iff in Ha as [Hc Ht].
  change (String c t +:+ b)%string with (String c (t +:+ b)).
  cbn [is_ascii]. rewrite Hc, (IH Ht). reflexivity.
Qed.

(** An ASCII name gives an ASCII id. *)
Lemma generated_id_is_ascii (name : string) :
  is_ascii name = true ->
  is_ascii (replace_spaces (lower name) +:+ "_001") = true.
Proof.
  intros H. apply is_ascii_app; [| reflexivity].
  induction name as [| c t IH]; [reflexivity |].
  cbn [is_ascii] in H. apply andb_true_iff in H as [Hc Ht].
  cbn [lower replace_spaces is_ascii]. rewrite (IH Ht), andb_true_r.
  destruct (bool_decide (lower_ascii c = " "%char)); [reflexivity |].
  apply lower_ascii_is_ascii, Hc.
Qed.

End AsciiNames.

(** X13. The websocket message set_exercise with a name of ASCII characters
    and no id binds the lower-cased name under the id made of that name with
    every space replaced by an underscore, followed by "_001", without
    looking the exercise up and without resetting anything: rep count, phase,
    buffers and history stay as they were, and frames are processed from
    then on. *)
Theorem X13_set_exercise_by_name_binds_without_reset :
  forall (db : Professional.Database) (name : string) (s : Professional.State),
    is_ascii name = true ->
    name <> EmptyString ->
    let s' := fst (Service.set_exercise db (Some name) None s) in
    Professional.current_exercise_id s'
    = Some (Service.replace_spaces (lower name) +:+ "_001")
    /\ contains " " (Service.replace_spaces (lower name)) = false
    /\ is_ascii (Service.replace_spaces (lower name) +:+ "_001") = true
    /\ Professional.current_exercise_name s' = lower name
    /\ Professional.exercise_bound s' = true
    /\ Professional.rep_count s' = Professional.rep_count s
    /\ Professional.current_phase s' = Professional.current_phase s
    /\ Professional.last_rep_time s' = Professional.last_rep_time s
    /\ Professional.angle_buffer s' = Professional.angle_buffer s
    /\ Professional.phase_buffer s' = Professional.phase_buffer s
    /\ Professional.phase_history s' = Professional.phase_history s
    /\ Professional.form_scores s' = Professional.form_scores s
    /\ Professional.confidence_scores s' = Professional.confidence_scores s
    /\ snd (Service.set_exercise db (Some name) None s)
       = (Some (Service.replace_spaces (lower name) +:+ "_001"), lower name).
Proof.
  intros db name s Hascii H s'. subst s'. unfold Service.set_exercise.
  rewrite (bool_decide_eq_false_2 _ H). simpl.
  unfold Professional.exercise_bound. simpl. rewrite append_bound.
  repeat split.
  - apply replace_spaces_no_space.
  - apply generated_id_is_ascii. exact Hascii.
Qed.

(** The theorem at the name "Bicep Curl", on a session after twelve frames. *)
Lemma X13_set_exercise_by_name_binds_without_reset_witness :
  is_ascii "Bicep Curl" = true
  /\ "Bicep Curl"%string <> EmptyString
  /\ Professional.current_exercise_id
       (fst (Service.set_exercise Samples.db (Some "Bicep Curl"%string) None
               Samples.after12))
     = Some "bicep_curl_001"%string.
Proof.
  assert (Ha : is_ascii "Bicep Curl" = true) by reflexivity.
  assert (H : "Bicep Curl"%string <> EmptyString) by discriminate.
  split; [exact Ha |]. split; [exact H |].
  exact (proj1 (X13_set_exercise_by_name_binds_without_reset Samples.db
                  "Bicep Curl" Samples.after12 Ha H)).
Defined.

(* ------------------------------------------------------------------------- *)
(** ** The ends of one comprehensive detection *)
(* ------------------------------------------------------------------------- *)

Section Returns.
Import Comprehensive ComprehensiveFacts.

(** A [try] block that returns has either skipped the inner [if] or gone
    through every line of it. *)
Lemma detection_body_returns current_angles timestamp s s' r :
  detection_body current_angles timestamp s = (s', inr r) ->
  let s1 := set_angle_buffer (deque_append 60 current_angles (angle_buffer s)) s in
  ((length (angle_buffer s1) < 15)%nat /\ s' = s1 /\ r = None)
  \/ exists p s2 metrics max_range,
       forM (channel_metrics (last_n 15 (angle_buffer s1)))
            (get_primary_angles_for_exercise (current_category s1)) s1
         = (s1, inr metrics)
       /\ py_max (map fst metrics) = Some max_range
       /\ stabilize p (category_thresholds s1) s1 = (s2, inr tt)
       /\ let s3 := if check_rep_completion s2 timestamp max_range
                         (category_thresholds s1)
                    then count_rep timestamp s2 else s2 in
          let q := movement_quality (map Q2R (map fst metrics))
                     (map Q2R (map snd metrics)) (phase_history_buffer s3) in
          s' = push_quality q s3
          /\ r = Some (rep_count s3, current_phase s3, 8#10, q).
Proof.
  intros H s1. subst s1. set (s1 := set_angle_buffer _ s).
  unfold detection_body in H.
  unfold bind at 1 in H. unfold modify at 1 in H. fold s1 in H.
  unfold bind at 1 in H. unfold get at 1 in H.
  destruct (Nat.leb_spec 15 (length (angle_buffer s1))) as [Hlen | Hlen].
  2:{ left. inversion H. auto. }
  right.
  unfold bind at 1 in H.
  destruct (read_only_run (forM (channel_metrics (last_n 15 (angle_buffer s1)))
              (get_primary_angles_for_exercise (current_category s1))) s1)
    as [rm Hr].
  { apply read_only_forM. intros a. apply channel_metrics_read_only. }
  rewrite Hr in H. destruct rm as [e | metrics]; [discriminate |].
  unfold bind at 1 in H.
  destruct (get_primary_angles_for_exercise (current_category s1) !! _)
    as [actual |]; [| discriminate].
  simpl orraise in H. unfold ret at 1 in H.
  unfold bind at 1 in H.
  destruct (current_angles !! actual) as [pav |]; [| discriminate].
  simpl orraise in H. unfold ret at 1 in H.
  unfold bind at 1 in H.
  destruct (map fst metrics !! _) as [range_at |]; [| discriminate].
  simpl orraise in H. unfold ret at 1 in H.
  unfold bind at 1 in H.
  match type of H with context [determine_exercise_phase ?a ?b ?c ?d ?e ?f s1] =>
    destruct (read_only_run (determine_exercise_phase a b c d e f) s1) as [rp Hp];
    [apply determine_exercise_phase_read_only | rewrite Hp in H]
  end.
  destruct rp as [e | p]; [discriminate |].
  unfold bind at 1 in H.
  destruct (stabilize p (category_thresholds s1) s1) as [s2 [e | []]] eqn:Hst;
    [discriminate |].
  unfold bind at 1 in H.
  destruct (py_max (map fst metrics)) as [max_range |] eqn:Hmax;
    [| discriminate].
  simpl orraise in H. unfold ret at 1 in H.
  exists p, s2, metrics, max_range.
  split; [exact Hr |]. split; [exact Hmax |]. split; [exact Hst |].
  unfold calculate_movement_quality, bind, get, modify, ret in H.
  destruct (check_rep_completion s2 timestamp max_range (category_thresholds s1));
    simpl in H; inversion H; subst; split; reflexivity.
Qed.

(** Past the early return the inner [if] is never skipped. *)
Lemma buffer_full_after_append current_angles s :
  (length (angle_buffer s) <? 15)%nat = false ->
  (15 <= length (deque_append 60 current_angles (angle_buffer s)))%nat.
Proof.
  intros H. apply Nat.ltb_ge in H. rewrite length_deque_append. lia.
Qed.

End Returns.

(* ------------------------------------------------------------------------- *)
(** ** The thresholds of a category *)
(* ------------------------------------------------------------------------- *)

Section Categories.
Import Comprehensive ComprehensiveFacts.

(** No dictionary of ['category_specific'] has the key ['phase_stability']. *)
Lemma exercise_specific_no_stability category thr :
  exercise_specific !! category = Some thr -> phase_stability thr = None.
Proof.
  unfold exercise_specific. intros H.
  repeat (apply lookup_insert_Some in H as [[_ <-] | [_ H]]; [reflexivity |]).
  apply lookup_singleton_Some in H as [_ <-]. reflexivity.
Qed.

End Categories.

(** X14. While the session's category is one of the four with thresholds of
    their own (upper_body, lower_body, core, cardio), a call of the
    comprehensive [advanced_rep_detection] never commits a phase, never
    counts a rep and never scores the movement: the thresholds lack the key
    'phase_stability', so the phase stabilisation raises, and the call
    reports confidence 0.5 and quality 0.5. *)
Theorem X14_category_thresholds_never_commit :
  forall (current_angles : list Q) (timestamp : Q) (s : Comprehensive.State)
         (thr : Comprehensive.Thresholds),
    Comprehensive.exercise_specific !! Comprehensive.current_category s = Some thr ->
    let s' := fst (Comprehensive.advanced_rep_detection current_angles timestamp s) in
    Comprehensive.current_phase s' = Comprehensive.current_phase s
    /\ Comprehensive.phase_history_buffer s' = Comprehensive.phase_history_buffer s
    /\ Comprehensive.rep_count s' = Comprehensive.rep_count s
    /\ Comprehensive.total_reps s' = Comprehensive.total_reps s
    /\ Comprehensive.last_rep_time s' = Comprehensive.last_rep_time s
    /\ Comprehensive.movement_quality_history s'
       = Comprehensive.movement_quality_history s
    /\ exists p,
         (p = Start \/ p = Comprehensive.current_phase s)
         /\ snd (Comprehensive.advanced_rep_detection current_angles timestamp s)
            = Some (Comprehensive.rep_count s, p, 1#2, (1 / 2)%R).
Proof.
  intros a t s thr Hthr s'. subst s'.
  unfold Comprehensive.advanced_rep_detection.
  destruct (bool_decide (a = []) || _) eqn:Hguard.
  { simpl. repeat split. exists Start. auto. }
  apply orb_false_iff in Hguard as [_ Hlen].
  pose proof (buffer_full_after_append a s Hlen) as Hfull.
  assert (Hnone : Comprehensive.phase_stability
                    (Comprehensive.category_thresholds
                       (Comprehensive.set_angle_buffer
                          (deque_append 60 a (Comprehensive.angle_buffer s)) s))
                  = None).
  { unfold Comprehensive.category_thresholds. simpl. rewrite Hthr. simpl.
    eapply exercise_specific_no_stability; eauto. }
  destruct (Comprehensive.detection_body a t s) as [s2 [e | r]] eqn:Hb.
  - apply ComprehensiveFacts.detection_body_end in Hb.
    inversion Hb as [r0 | p s3 e0 Hst | p s3 e0 Hst |]; subst.
    + simpl. repeat split. eauto.
    + rewrite ComprehensiveFacts.stabilize_eq, Hnone in Hst.
      injection Hst as <- _. simpl. repeat split. eauto.
    + rewrite ComprehensiveFacts.stabilize_eq, Hnone in Hst. discriminate.
  - apply detection_body_returns in Hb.
    destruct Hb as [(Hshort & _) | (p & s3 & m & mr & _ & _ & Hst & _)].
    + simpl in Hshort. lia.
    + rewrite ComprehensiveFacts.stabilize_eq, Hnone in Hst. discriminate.
Qed.

(** The theorem at the rising arm of an upper-body exercise. *)
Lemma X14_category_thresholds_never_commit_witness :
  Comprehensive.exercise_specific
    !! Comprehensive.current_category Scenes.pressing
  = Some {| Comprehensive.min_angle_range := 30;
            Comprehensive.phase_stability := None;
            Comprehensive.rep_cooldown := 15;
            Comprehensive.confidence_threshold := None;
            Comprehensive.velocity_threshold := 2 |}
  /\ Comprehensive.current_phase
       (fst (Comprehensive.advanced_rep_detection (Samples.frame_of 150) 1
               Scenes.pressing))
     = Comprehensive.current_phase Scenes.pressing.
Proof.
  assert (H : Comprehensive.exercise_specific
                !! Comprehensive.current_category Scenes.pressing
              = Some {| Comprehensive.min_angle_range := 30;
                        Comprehensive.phase_stability := None;
                        Comprehensive.rep_cooldown := 15;
                        Comprehensive.confidence_threshold := None;
                        Comprehensive.velocity_threshold := 2 |})
    by (vm_compute; reflexivity).
  split; [exact H |].
  exact (proj1 (X14_category_thresholds_never_commit (Samples.frame_of 150) 1
                  Scenes.pressing _ H)).
Defined.

(* ------------------------------------------------------------------------- *)
(** ** A frame that lacks a primary channel *)
(* ------------------------------------------------------------------------- *)

Section ShortFrame.
Import Comprehensive ComprehensiveFacts.

(** The loop over the primary channels raises as soon as one channel is
    missing from a frame of the window. *)
Lemma forM_channel_metrics_raises recent l s idx :
  idx ∈ l -> column idx recent = None ->
  exists e, forM (channel_metrics recent) l s = (s, inl e).
Proof.
  intros Hin Hcol. induction l as [| a t IH]; [inversion Hin |].
  simpl. unfold bind at 1.
  destruct (read_only_run (channel_metrics recent a) s) as [rm Hm];
    [apply channel_metrics_read_only |].
  rewrite Hm. destruct rm as [e | m]; [eauto |].
  apply elem_of_cons in Hin as [<- | Hin].
  - unfold channel_metrics in Hm. rewrite Hcol in Hm. discriminate.
  - destruct (IH Hin) as [e He]. unfold bind at 1. rewrite He. eauto.
Qed.

End ShortFrame.

(** X15. When a frame among the trailing 15 (the new one included) is too
    short to hold one of the category's primary channels, the comprehensive
    [advanced_rep_detection] only appends the new frame to the angle buffer:
    the indexing raises inside the [try] block before any vote, and the call
    reports the unchanged rep count and phase with confidence 0.5 and
    quality 0.5.  Such a frame keeps doing so for the 15 calls it stays in
    the window. *)
Theorem X15_short_frame_is_only_buffered :
  forall (current_angles : list Q) (timestamp : Q) (s : Comprehensive.State)
         (idx : nat) (frame : list Q),
    current_angles <> [] ->
    (15 <= length (Comprehensive.angle_buffer s))%nat ->
    idx ∈ Comprehensive.get_primary_angles_for_exercise
            (Comprehensive.current_category s) ->
    frame ∈ last_n 15 (deque_append 60 current_angles (Comprehensive.angle_buffer s)) ->
    (length frame <= idx)%nat ->
    Comprehensive.advanced_rep_detection current_angles timestamp s
    = (Comprehensive.set_angle_buffer
         (deque_append 60 current_angles (Comprehensive.angle_buffer s)) s,
       Some (Comprehensive.rep_count s, Comprehensive.current_phase s, 1#2,
             (1 / 2)%R)).
Proof.
  intros a t s idx frame Hne Hlen Hidx Hframe Hshort.
  unfold Comprehensive.advanced_rep_detection.
  rewrite (bool_decide_eq_false_2 _ Hne).
  assert (Hlt : (length (Comprehensive.angle_buffer s) <? 15)%nat = false)
    by (apply Nat.ltb_ge; exact Hlen).
  rewrite Hlt. cbn [orb].
  pose proof (buffer_full_after_append a s Hlt) as Hfull.
  unfold Comprehensive.detection_body.
  unfold bind at 1. unfold modify at 1.
  set (s1 := Comprehensive.set_angle_buffer _ s).
  unfold bind at 1. unfold get at 1.
  change (Comprehensive.angle_buffer s1)
    with (deque_append 60 a (Comprehensive.angle_buffer s)).
  destruct (Nat.leb_spec 15
              (length (deque_append 60 a (Comprehensive.angle_buffer s))))
    as [_ | Hbad]; [| lia].
  unfold bind at 1.
  destruct (forM_channel_metrics_raises
              (last_n 15 (deque_append 60 a (Comprehensive.angle_buffer s)))
              (Comprehensive.get_primary_angles_for_exercise
                 (Comprehensive.current_category s1)) s1 idx Hidx) as [e He].
  { apply mapM_None_2. apply Exists_exists. exists frame.
    split; [exact Hframe |]. apply lookup_ge_None_2. exact Hshort. }
  rewrite He. reflexivity.
Qed.

(** The theorem at a new frame of one channel, for the rising arm. *)
Lemma X15_short_frame_is_only_buffered_witness :
  length (Comprehensive.angle_buffer
            (fst (Comprehensive.advanced_rep_detection [150%Q] 1 Samples.rising)))
  = 16%nat
  /\ snd (Comprehensive.advanced_rep_detection [150%Q] 1 Samples.rising)
     = Some (0%nat, Start, 1#2, (1 / 2)%R).
Proof.
  assert (H : Comprehensive.advanced_rep_detection [150%Q] 1 Samples.rising
              = (Comprehensive.set_angle_buffer
                   (deque_append 60 [150%Q]
                      (Comprehensive.angle_buffer Samples.rising)) Samples.rising,
                 Some (Comprehensive.rep_count Samples.rising,
                       Comprehensive.current_phase Samples.rising, 1#2,
                       (1 / 2)%R))).
  { apply (X15_short_frame_is_only_buffered [150%Q] 1 Samples.rising 1%nat [150%Q]).
    - discriminate.
    - simpl. lia.
    - vm_compute. repeat constructor.
    - vm_compute. repeat constructor.
    - simpl. lia. }
  rewrite H. split; reflexivity.
Defined.

(* ------------------------------------------------------------------------- *)
(** ** The committed history is a path of the table *)
(* ------------------------------------------------------------------------- *)

Section TablePath.
Import Comprehensive ComprehensiveFacts Invariant.

Lemma follows_table_tail a t : follows_table (a :: t) -> follows_table t.
Proof. destruct t; simpl; tauto. Qed.

Lemma follows_table_drop k h : follows_table h -> follows_table (drop k h).
Proof.
  revert h. induction k as [| k IH]; intros h H; [rewrite drop_0; exact H |].
  destruct h as [| a t]; [exact H |].
  simpl drop. apply IH. eapply follows_table_tail; eauto.
Qed.

Lemma follows_table_snoc h c p :
  follows_table h -> h = [] \/ last h = Some c -> allowed c p = true ->
  follows_table (h ++ [p]).
Proof.
  intros Hf Hl Ha. induction h as [| a t IH]; [exact I |].
  destruct Hl as [Hl | Hl]; [discriminate |].
  destruct t as [| b t'].
  - simpl in Hl. injection Hl as ->. simpl. auto.
  - destruct Hf as [Hab Hf]. split; [exact Hab |].
    apply IH; [exact Hf | right; exact Hl].
Qed.

Lemma last_deque_append {A} (n : nat) (x : A) (d : list A) :
  last (deque_append (S n) x d) = Some x.
Proof.
  unfold deque_append. rewrite last_lookup, length_drop, lookup_drop.
  rewrite length_app. simpl.
  replace (length d + 1 - S n + pred (length d + 1 - (length d + 1 - S n)))%nat
    with (length d) by lia.
  rewrite lookup_app_r by lia. rewrite Nat.sub_diag. reflexivity.
Qed.

Lemma table_path_moved s s' :
  table_path s -> phase_kept_or_moved s s' -> table_path s'.
Proof.
  intros [Hf Hl] [[Hp Hh] | [Ha Hh]]; unfold table_path.
  - rewrite Hh, Hp. auto.
  - rewrite Hh. split.
    + unfold deque_append. apply follows_table_drop.
      eapply follows_table_snoc; eauto.
    + right. apply last_deque_append.
Qed.

Lemma table_path_step s e : table_path s -> table_path (step s e).
Proof.
  intros H. destruct e as [[[name similarity] category] features t |];
    [| exact H].
  unfold step, process_frame.
  destruct (bool_decide (features = [])); [exact H |].
  match goal with
  | |- table_path (fst (advanced_rep_detection features t ?s1)) =>
      assert (H1 : table_path s1) by (destruct (_ && _); exact H);
      destruct (advanced_rep_detection features t s1) as [s' r] eqn:Hd
  end.
  apply advanced_rep_detection_step in Hd as (_ & Hmoved & _).
  eapply table_path_moved; eauto.
Qed.

End TablePath.

(** X16. In the comprehensive engine the committed-phase history is a path
    of the transition table that ends at the current phase: if consecutive
    entries of [phase_history_buffer] are joined by allowed transitions and
    its last entry (if any) is [current_phase], the same holds after any
    sequence of frames and 'r' key presses, also once the deque has dropped
    its oldest entries. *)
Theorem X16_history_is_a_table_path :
  forall (events : list Comprehensive.Event) (s : Comprehensive.State),
    Invariant.table_path s ->
    Invariant.table_path (Comprehensive.run s events).
Proof.
  unfold Comprehensive.run.
  induction events as [| e rest IH]; intros s H; [exact H |].
  simpl. apply IH. apply table_path_step. exact H.
Qed.

(** The theorem at the engine resting in End, for one frame and a key
    press. *)
Lemma X16_history_is_a_table_path_witness :
  Invariant.table_path Samples.resting
  /\ Invariant.table_path
       (Comprehensive.run Samples.resting
          [Comprehensive.Frame ("unknown"%string, 0%Q, "general"%string)
             (Samples.frame_of 100) 100;
           Comprehensive.KeyR]).
Proof.
  assert (H : Invariant.table_path Samples.resting).
  { unfold Invariant.table_path. simpl. repeat split; auto. }
  split; [exact H |].
  apply X16_history_is_a_table_path. exact H.
Defined.

(* ------------------------------------------------------------------------- *)
(** ** What a comprehensive detection reports *)
(* ------------------------------------------------------------------------- *)

Section Reported.
Import Comprehensive ComprehensiveFacts.
Local Open Scope R_scope.

Lemma movement_quality_unit angle_ranges velocities history :
  Forall (fun r => 0 <= r) angle_ranges ->
  0 <= movement_quality angle_ranges velocities history <= 1.
Proof.
  intros Hpos. unfold movement_quality.
  assert (Hrange : 0 <= match angle_ranges with
                        | [] => 1 / 2
                        | _ => Rmin (Stats.Rmax_list angle_ranges / 60) 1
                        end <= 1).
  { destruct angle_ranges as [| r0 rs]; [Lra.lra |].
    inversion Hpos as [| ? ? Hr0 _]; subst.
    pose proof (fold_Rmax_ge rs r0) as Hge. simpl.
    split; [| apply Rmin_r]. apply Rmin_glb; Lra.lra. }
  assert (Hvel : 0 <= (if (1 <? length velocities)%nat
                       then Rmax 0 (Rmin 1 (1 - Stats.np_std velocities
                              / (Stats.np_mean velocities + / 1000000)))
                       else 1 / 2) <= 1).
  { destruct (1 <? length velocities)%nat; [apply clamp_unit | Lra.lra]. }
  assert (Hseq : 0 <= (if (5 <=? length history)%nat
                       then INR (positional_matches (last_n 5 history)
                                   expected_sequence) / 5
                       else 1 / 2) <= 1).
  { destruct (5 <=? length history)%nat; [| Lra.lra].
    pose proof (positional_matches_le (last_n 5 history) expected_sequence) as Hle.
    change (length expected_sequence) with 5%nat in Hle.
    apply le_INR in Hle. change (INR 5) with (2 + 1 + 1 + 1) in Hle.
    pose proof (pos_INR (positional_matches (last_n 5 history) expected_sequence)).
    split; Lra.lra. }
  Lra.lra.
Qed.

(** The ranges of the loop are non-negative. *)
Lemma forM_channel_metrics_nonneg recent l s metrics :
  forM (channel_metrics recent) l s = (s, inr metrics) ->
  Forall (fun r => 0 <= r) (map Q2R (map fst metrics)).
Proof.
  intros H. apply Forall_forall. intros x Hx.
  apply list_elem_of_fmap in Hx as (r & -> & Hr).
  destruct (forM_channel_metrics_ranges _ _ _ _ H r Hr) as (idx & _ & Hrange).
  destruct (column idx recent) as [values |]; [| discriminate].
  simpl in Hrange.
  destruct (py_max values) as [hi |] eqn:Hhi; [| discriminate].
  simpl in Hrange.
  destruct (py_min values) as [lo |] eqn:Hlo; [| discriminate].
  simpl in Hrange. injection Hrange as <-.
  pose proof (py_max_in _ _ Hhi) as Hin.
  pose proof (py_min_lower _ _ _ Hlo Hin) as Hle.
  rewrite <- RMicromega.Q2R_0. apply Qreals.Qle_Rle. Lqa.lra.
Qed.

End Reported.

(** X17. The comprehensive [advanced_rep_detection] always returns a tuple
    (its implicit return of None is never reached), with the rep count of
    the object as the call leaves it, a phase that is the current phase or
    the literal start, a confidence of 0.5 or 0.8 and a movement quality
    within [0, 1]; with confidence 0.8 the phase is the current one and the
    quality is the newest entry of the quality history. *)
Theorem X17_detection_reports_a_bounded_tuple :
  forall (current_angles : list Q) (timestamp : Q) (s : Comprehensive.State),
    let s' := fst (Comprehensive.advanced_rep_detection current_angles timestamp s) in
    exists (p : Phase) (c : Q) (q : R),
      snd (Comprehensive.advanced_rep_detection current_angles timestamp s)
      = Some (Comprehensive.rep_count s', p, c, q)
      /\ (p = Comprehensive.current_phase s' \/ p = Start)
      /\ (0 <= q <= 1)%R
      /\ ((c = 1#2 /\ q = (1 / 2)%R)
          \/ (c = 8#10 /\ p = Comprehensive.current_phase s'
              /\ last (Comprehensive.movement_quality_history s') = Some q)).
Proof.
  intros a t s s'. subst s'.
  unfold Comprehensive.advanced_rep_detection.
  destruct (bool_decide (a = []) || _) eqn:Hguard.
  { exists Start, (1#2), (1 / 2)%R. simpl.
    split; [reflexivity |]. split; [auto |]. split; [Lra.lra | auto]. }
  apply orb_false_iff in Hguard as [_ Hlen].
  pose proof (buffer_full_after_append a s Hlen) as Hfull.
  destruct (Comprehensive.detection_body a t s) as [s2 [e | r]] eqn:Hb.
  - exists (Comprehensive.current_phase s2), (1#2), (1 / 2)%R. simpl.
    split; [reflexivity |]. split; [auto |]. split; [Lra.lra | auto].
  - apply detection_body_returns in Hb.
    destruct Hb as [(Hshort & _) | (p & s3 & m & mr & Hm & _ & _ & Hs' & Hr)].
    { simpl in Hshort. lia. }
    cbv zeta in Hs', Hr. subst s2 r.
    eexists _, _, _. simpl.
    split; [reflexivity |]. split; [auto |]. split.
    + apply movement_quality_unit. eapply forM_channel_metrics_nonneg; eauto.
    + right. split; [reflexivity |]. split; [reflexivity |].
      apply last_deque_append.
Qed.

(* ------------------------------------------------------------------------- *)
(** ** Reps of the professional state machine *)
(* ------------------------------------------------------------------------- *)

Section ProfessionalReps.
Import Professional ProfessionalFacts.

Lemma detect_rep_completion_true s timestamp angle_range velocity :
  detect_rep_completion s timestamp angle_range velocity = true ->
  current_phase s = End
  /\ (1 < timestamp - last_rep_time s)%Q
  /\ (3 <= phase_transition_count s)%nat
  /\ (4 <= length (phase_history s))%nat.
Proof.
  unfold detect_rep_completion. rewrite !andb_true_iff.
  intros [[[[H1 H2] _] H4] H5].
  apply bool_decide_eq_true in H1. apply ComprehensiveFacts.Qltb_lt in H2.
  apply Nat.leb_le in H4. apply Nat.leb_le in H5. auto.
Qed.

Lemma advanced_body_rep features timestamp s s' r :
  advanced_body features timestamp s = (s', r) ->
  rep_kept_or_counted timestamp s s'.
Proof.
  unfold advanced_body. intros H.
  unfold bind at 1 in H. unfold modify at 1 in H.
  set (s1 := set_angle_buffer _ s) in H.
  assert (Hk : forall x, rep_kept_or_counted timestamp s1 x ->
                         rep_kept_or_counted timestamp s x)
    by (intros x Hx; exact Hx).
  apply Hk. clear Hk.
  assert (Hrefl : rep_kept_or_counted timestamp s1 s1)
    by (left; repeat split; lia).
  unfold bind at 1 in H. unfold get at 1 in H.
  unfold bind at 1 in H.
  match type of H with context [foldM ?f ?l ?b s1] =>
    destruct (read_only_run (foldM f l b) s1) as [rg Hg];
    [apply read_only_foldM; intros; apply gather_read_only | rewrite Hg in H]
  end.
  destruct rg as [e | [primary_values velocities]];
    [inversion H; subst; exact Hrefl |].
  destruct (bool_decide (primary_values = []));
    [inversion H; subst; exact Hrefl |].
  unfold bind at 1 in H.
  destruct (py_max primary_values) as [hi |];
    [| inversion H; subst; exact Hrefl].
  simpl orraise in H. unfold ret at 1 in H.
  unfold bind at 1 in H.
  destruct (py_min primary_values) as [lo |];
    [| inversion H; subst; exact Hrefl].
  simpl orraise in H. unfold ret at 1 in H.
  unfold bind at 1 in H.
  match type of H with context [determine_movement_phase ?a ?b ?c ?d s1] =>
    destruct (read_only_run (determine_movement_phase a b c d) s1) as [rp Hp];
    [apply determine_movement_phase_read_only | rewrite Hp in H]
  end.
  destruct rp as [e | p]; [inversion H; subst; exact Hrefl |].
  unfold bind at 1 in H. unfold modify at 1 in H.
  set (s2 := set_phase_buffer _ s1) in H.
  unfold bind at 1 in H. unfold get at 1 in H.
  unfold bind at 1 in H.
  assert (Hv : exists s3,
    (if (phase_stability_frames <=? length (phase_buffer s2))%nat
     then validate_phase_transition p else ret tt) s2 = (s3, inr tt)
    /\ rep_count s3 = rep_count s1 /\ last_rep_time s3 = last_rep_time s1
    /\ (phase_transition_count s3 <= phase_transition_count s1 + 1)%nat).
  { destruct (phase_stability_frames <=? _)%nat.
    - rewrite validate_phase_transition_eq.
      destruct (_ && _ && _);
        (eexists; split; [reflexivity |]; simpl; repeat split; lia).
    - eexists. split; [reflexivity |]. simpl. repeat split; lia. }
  destruct Hv as (s3 & Hv & Hrep & Hlast & Htrans). rewrite Hv in H.
  unfold bind at 1 in H. unfold get at 1 in H.
  unfold bind, get, modify, ret in H.
  destruct (detect_rep_completion s3 timestamp (hi - lo) _) eqn:Hd;
    inversion H; subst; simpl.
  - apply detect_rep_completion_true in Hd as (He & Hcool & Hthree & Hfour).
    right. simpl. rewrite Hrep. rewrite Hlast in Hcool.
    repeat split; auto. unfold s1 in Htrans. simpl in Htrans. lia.
  - left. simpl. auto.
Qed.

Lemma advanced_rep_detection_rep features timestamp s :
  rep_kept_or_counted timestamp s
    (fst (advanced_rep_detection features timestamp s)).
Proof.
  unfold advanced_rep_detection.
  destruct (bool_decide (features = []) || _);
    [left; simpl; repeat split; lia |].
  destruct (negb _ && _); [left; simpl; repeat split; lia |].
  destruct (advanced_body features timestamp s) as [s2 [e | r]] eqn:Hb;
    simpl; eapply advanced_body_rep; eauto.
Qed.

End ProfessionalReps.

(** X18. One call of the professional [advanced_rep_detection] counts at
    most one rep, and counts it only when the call leaves the phase End,
    more than the one-second cooldown after the last rep, with at least 2
    transitions counted before the call and at least 4 phases in the
    history; the rep zeroes the transition counter and stamps the time, so
    that the two calls that follow a counted rep count nothing, whatever
    their frames. *)
Theorem X18_professional_reps_are_three_calls_apart :
  forall (features : list Q) (timestamp : Q) (s : Professional.State),
    let s' := fst (Professional.advanced_rep_detection features timestamp s) in
    rep_kept_or_counted timestamp s s'
    /\ (Professional.rep_count s' = (Professional.rep_count s + 1)%nat ->
        forall f1 t1 f2 t2,
          let s1 := fst (Professional.advanced_rep_detection f1 t1 s') in
          Professional.rep_count s1 = Professional.rep_count s'
          /\ Professional.rep_count
               (fst (Professional.advanced_rep_detection f2 t2 s1))
             = Professional.rep_count s').
Proof.
  intros features t s s'.
  pose proof (advanced_rep_detection_rep features t s) as H. fold s' in H.
  split; [exact H |]. intros Hcounted f1 t1 f2 t2 s1.
  assert (Hzero : Professional.phase_transition_count s' = 0%nat).
  { destruct H as [(Hk & _) | (_ & _ & _ & _ & _ & Hz & _)]; [lia | exact Hz]. }
  pose proof (advanced_rep_detection_rep f1 t1 s') as H1. fold s1 in H1.
  destruct H1 as [(Hk1 & _ & Ht1) | (_ & _ & _ & Hbad & _)]; [| lia].
  split; [exact Hk1 |].
  pose proof (advanced_rep_detection_rep f2 t2 s1) as H2.
  destruct H2 as [(Hk2 & _) | (_ & _ & _ & Hbad & _)]; lia.
Qed.
(** The theorem at the end of a press: the frame at two seconds counts a rep,
    the two frames after it none. *)
Lemma X18_professional_reps_are_three_calls_apart_witness :
  Professional.rep_count
    (fst (Professional.advanced_rep_detection (Samples.frame_of 100) 2
            Scenes.finishing)) = 1%nat
  /\ Professional.rep_count
       (fst (Professional.advanced_rep_detection (Samples.frame_of 100) 5
          (fst (Professional.advanced_rep_detection (Samples.frame_of 100) 4
             (fst (Professional.advanced_rep_detection (Samples.frame_of 100) 2
                     Scenes.finishing)))))) = 1%nat.
Proof.
  assert (H : Professional.rep_count
                (fst (Professional.advanced_rep_detection (Samples.frame_of 100) 2
                        Scenes.finishing))
              = (Professional.rep_count Scenes.finishing + 1)%nat)
    by (vm_compute; reflexivity).
  split; [exact H |].
  destruct (X18_professional_reps_are_three_calls_apart (Samples.frame_of 100) 2
              Scenes.finishing) as [_ Hnext].
  destruct (Hnext H (Samples.frame_of 100) 4%Q (Samples.frame_of 100) 5%Q)
    as [_ Hsecond].
  rewrite Hsecond. exact H.
Defined.

(* ------------------------------------------------------------------------- *)
(** ** The vote of the universal detection *)
(* ------------------------------------------------------------------------- *)

Section Plurality.
Import Professional ProfessionalFacts.

Lemma fold_argmax (key : Phase -> nat) (t : list Phase) (x : Phase) :
  let m := fold_left (fun m y => if (key m <? key y)%nat then y else m) t x in
  m ∈ x :: t /\ (key x <= key m)%nat /\ forall y, y ∈ t -> (key y <= key m)%nat.
Proof.
  revert x. induction t as [| z t IH]; intros x; simpl.
  - split; [left |]. split; [lia |]. intros y Hy. inversion Hy.
  - destruct (Nat.ltb_spec (key x) (key z)) as [Hlt | Hge].
    + destruct (IH z) as (Hin & Hz & Ht). split; [right; exact Hin |].
      split; [lia |]. intros y Hy.
      apply elem_of_cons in Hy as [-> | Hy]; auto.
    + destruct (IH x) as (Hin & Hx & Ht). split.
      * apply elem_of_cons in Hin as [-> | Hin]; [left | right; right; exact Hin].
      * split; [exact Hx |]. intros y Hy.
        apply elem_of_cons in Hy as [-> | Hy]; [lia | auto].
Qed.

Lemma py_count_absent (q : Phase) (buf : list Phase) :
  q ∉ buf -> py_count q buf = 0%nat.
Proof.
  intros H. unfold py_count. induction buf as [| a t IH]; [reflexivity |].
  rewrite filter_cons_False.
  - apply IH. intros Hq. apply H. right. exact Hq.
  - intros ->. apply H. left.
Qed.

(** The most common phase is a vote, and no phase has more votes. *)
Lemma most_common_plurality set_iter (buf : list Phase) (p : Phase) :
  set_iteration set_iter ->
  most_common set_iter buf = Some p ->
  p ∈ buf /\ forall q, (py_count q buf <= py_count p buf)%nat.
Proof.
  intros Hs. destruct (Hs buf) as [_ Hel]. unfold most_common.
  destruct (set_iter buf) as [| x t] eqn:Hit; [discriminate |].
  intros [= <-].
  destruct (fold_argmax (fun y => py_count y buf) t x) as (Hin & Hx & Ht).
  split; [apply Hel; exact Hin |].
  intros q. destruct (decide (q ∈ buf)) as [Hq | Hq].
  - apply Hel in Hq. apply elem_of_cons in Hq as [-> | Hq]; auto.
  - rewrite (py_count_absent q buf Hq). lia.
Qed.

Lemma universal_body_plurality set_iter angles timestamp s :
  set_iteration set_iter ->
  phase_kept_or_plurality s (fst (universal_body set_iter angles timestamp s)).
Proof.
  intros Hs. unfold universal_body.
  unfold bind at 1. unfold get at 1.
  destruct (primary_movement _ angles (angle_buffer s)) as [primary thresholds].
  unfold bind at 1. unfold modify at 1.
  set (s1 := set_angle_buffer _ s).
  assert (Hk : forall x, phase_kept_or_plurality s1 x -> phase_kept_or_plurality s x)
    by (intros x Hx; exact Hx).
  apply Hk. clear Hk.
  unfold bind at 1. unfold get at 1.
  destruct (length (angle_buffer s1) <? 10)%nat; [left; reflexivity |].
  unfold bind at 1.
  destruct (all_scalars _) as [recent |]; [| left; reflexivity].
  simpl orraise. unfold ret at 1.
  unfold bind at 1. destruct (py_max recent) as [hi |]; [| left; reflexivity].
  simpl orraise. unfold ret at 1.
  unfold bind at 1. destruct (py_min recent) as [lo |]; [| left; reflexivity].
  simpl orraise. unfold ret at 1.
  unfold bind at 1. unfold modify at 1.
  set (s2 := set_phase_buffer _ s1).
  assert (Hk : forall x, phase_kept_or_plurality s2 x -> phase_kept_or_plurality s1 x)
    by (intros x Hx; exact Hx).
  apply Hk. clear Hk.
  unfold bind at 1. unfold get at 1.
  unfold bind at 1.
  assert (Hv : exists s3 r3,
    (if (3 <=? length (phase_buffer s2))%nat
     then most <- orraise ValueError (most_common set_iter (phase_buffer s2)) ;;
          if bool_decide (most = current_phase s2) then ret tt
          else modify (commit_phase most 0)
     else ret tt) s2 = (s3, r3)
    /\ phase_kept_or_plurality s2 s3).
  { destruct (Nat.leb_spec 3 (length (phase_buffer s2))) as [Hlen | Hlen];
      [| eexists _, _; split; [reflexivity | left; reflexivity]].
    unfold bind. destruct (most_common _ _) as [most |] eqn:Hmost;
      [| eexists _, _; split; [reflexivity | left; reflexivity]].
    simpl orraise. unfold ret at 1.
    destruct (bool_decide _);
      [eexists _, _; split; [reflexivity | left; reflexivity] |].
    eexists _, _. split; [reflexivity |]. right.
    destruct (most_common_plurality _ _ _ Hs Hmost) as [Hin Hmax].
    simpl. auto. }
  destruct Hv as (s3 & r3 & -> & Hp).
  destruct r3 as [e | []]; [exact Hp |].
  unfold bind at 1. unfold get at 1.
  unfold bind at 1.
  destruct (3 <=? length (phase_history s3))%nat.
  - unfold bind at 1. unfold deque_slice. exact Hp.
  - unfold ret at 1. simpl andb. cbv beta iota.
    unfold bind, ret, modify, get. exact Hp.
Qed.

End Plurality.

(** X19. One call of [universal_rep_detection] leaves the committed phase
    as it was or replaces it by a phase that stands in the vote buffer and
    that no other phase outnumbers there, the buffer holding at least 3
    votes; the transition table plays no part.  This holds for every
    iteration order of the set of votes. *)
Theorem X19_universal_commit_is_a_plurality_vote :
  forall (set_iter : list Phase -> list Phase) (features : list Q)
         (angles : gmap string Q) (timestamp : Q) (s : Professional.State),
    Professional.set_iteration set_iter ->
    phase_kept_or_plurality s
      (fst (Professional.universal_rep_detection set_iter features angles
              timestamp s)).
Proof.
  intros set_iter features angles t s Hs.
  unfold Professional.universal_rep_detection.
  destruct (_ || _); [left; reflexivity |].
  apply universal_body_plurality. exact Hs.
Qed.

(** The theorem at the twelfth frame of the bent elbows, which commits
    Peak. *)
Lemma X19_universal_commit_is_a_plurality_vote_witness :
  Professional.set_iteration Samples.hash_order
  /\ phase_kept_or_plurality Samples.after11
       (fst (Professional.universal_rep_detection Samples.hash_order
               [60; 60; 90; 90; 90; 90; 90; 90]%Q (Samples.angles_of 60) 12
               Samples.after11)).
Proof.
  split; [exact ProfessionalFacts.hash_order_set_iteration |].
  apply X19_universal_commit_is_a_plurality_vote.
  exact ProfessionalFacts.hash_order_set_iteration.
Defined.

(* ------------------------------------------------------------------------- *)
(** ** The two rep counters of the comprehensive engine *)
(* ------------------------------------------------------------------------- *)

Section Counters.
Import Comprehensive ComprehensiveFacts.

Lemma counters_step s e :
  total_reps s = rep_count s -> total_reps (step s e) = rep_count (step s e).
Proof.
  intros H. destruct e as [[[name similarity] category] features t |];
    [| reflexivity].
  unfold step, process_frame.
  destruct (bool_decide (features = [])); [exact H |].
  match goal with
  | |- context [advanced_rep_detection features t ?s1] =>
      assert (H1 : total_reps s1 = rep_count s1)
        by (destruct (_ && _); exact H);
      destruct (advanced_rep_detection features t s1) as [s' r] eqn:Hd
  end.
  apply advanced_rep_detection_step in Hd
    as (_ & _ & [(Hr & Ht & _) | (Hr & Ht & _)]); simpl; lia.
Qed.

End Counters.

(** X20. The counter [session_stats['total_reps']], which the session
    summary of the comprehensive engine reports, and the attribute
    [rep_count], which each frame reports, stay equal: they are counted
    together and zeroed together by the 'r' key, through any sequence of
    frames and key presses. *)
Theorem X20_total_reps_is_rep_count :
  forall (events : list Comprehensive.Event) (s : Comprehensive.State),
    Comprehensive.total_reps s = Comprehensive.rep_count s ->
    Comprehensive.total_reps (Comprehensive.run s events)
    = Comprehensive.rep_count (Comprehensive.run s events).
Proof.
  unfold Comprehensive.run.
  induction events as [| e rest IH]; intros s H; [exact H |].
  simpl. apply IH. apply counters_step. exact H.
Qed.

(** The theorem at the engine resting in End: a frame that counts a rep,
    then a key press. *)
Lemma X20_total_reps_is_rep_count_witness :
  Comprehensive.total_reps Samples.resting = Comprehensive.rep_count Samples.resting
  /\ Comprehensive.total_reps
       (Comprehensive.run Samples.resting
          [Comprehensive.Frame ("unknown"%string, 0%Q, "general"%string)
             (Samples.frame_of 100) 100;
           Comprehensive.KeyR])
     = Comprehensive.rep_count
         (Comprehensive.run Samples.resting
            [Comprehensive.Frame ("unknown"%string, 0%Q, "general"%string)
               (Samples.frame_of 100) 100;
             Comprehensive.KeyR]).
Proof.
  assert (H : Comprehensive.total_reps Samples.resting
              = Comprehensive.rep_count Samples.resting) by reflexivity.
  split; [exact H |].
  apply X20_total_reps_is_rep_count. exact H.
Defined.

(* ------------------------------------------------------------------------- *)
(** * Repetitions and commits, call by call *)
(* ------------------------------------------------------------------------- *)

(** ** Sequencing *)

Section Sequencing.
Context {S : Type}.

Lemma bind_assoc {A B C} (m : M S A) (f : A -> M S B) (k : B -> M S C) (s : S) :
  bind (bind m f) k s = bind m (fun x => bind (f x) k) s.
Proof. unfold bind. destruct (m s) as [s' [e | a]]; reflexivity. Qed.

Lemma bind_ext {A B} (m : M S A) (k k' : A -> M S B) (s : S) :
  (forall a s', k a s' = k' a s') -> bind m k s = bind m k' s.
Proof.
  intros H. unfold bind. destruct (m s) as [s' [e | a]]; [reflexivity | apply H].
Qed.

Lemma bind_ret_l {A B} (a : A) (k : A -> M S B) (s : S) :
  bind (ret a) k s = k a s.
Proof. reflexivity. Qed.

Lemma bind_modify {B} (f : S -> S) (k : unit -> M S B) (s : S) :
  bind (modify f) k s = k tt (f s).
Proof. reflexivity. Qed.

Lemma bind_get {B} (k : S -> M S B) (s : S) : bind get k s = k s s.
Proof. reflexivity. Qed.

End Sequencing.

(** ** The completion test decides the increment *)

Section Detected.
Import Comprehensive ComprehensiveFacts Completion.

(** The [try] block of [advanced_rep_detection] is the lines above the
    completion test followed by the lines from the test on. *)
Lemma detection_body_split current_angles timestamp s :
  detection_body current_angles timestamp s
  = bind (before_completion current_angles)
         (fun reached =>
            match reached with
            | Some (metrics, max_range) =>
                from_completion timestamp (category_thresholds s) metrics max_range
            | None => ret None
            end) s.
Proof.
  unfold detection_body, before_completion. symmetry.
  rewrite bind_assoc, bind_modify. rewrite bind_modify.
  rewrite bind_assoc, bind_get. rewrite bind_get.
  cbv zeta.
  change (category_thresholds (set_angle_buffer _ s))
    with (category_thresholds s).
  match goal with
  | |- bind (if ?c then _ else _) _ _ = _ => destruct c; [| reflexivity]
  end.
  repeat (rewrite bind_assoc; apply bind_ext; intros ? ?).
  reflexivity.
Qed.

(** The lines above the test leave the rep count alone. *)
Lemma before_completion_rep_count current_angles (n : nat) :
  preserves (fun x => rep_count x = n) (before_completion current_angles).
Proof.
  unfold before_completion, stabilize, validate_and_update_phase.
  preserves_tac;
    try (apply preserves_read_only;
         first [ apply read_only_forM; intros; apply channel_metrics_read_only
               | apply determine_exercise_phase_read_only ]);
    try (apply preserves_modify; intros s0 H0; exact H0).
Qed.

Lemma advanced_rep_detection_detected current_angles timestamp s :
  rep_count (fst (advanced_rep_detection current_angles timestamp s))
  = (rep_count s
     + if completion_detected current_angles timestamp s then 1 else 0)%nat.
Proof.
  unfold advanced_rep_detection, completion_detected.
  destruct (bool_decide (current_angles = []) || _); [simpl; lia |].
  rewrite detection_body_split. unfold bind at 1.
  pose proof (before_completion_rep_count current_angles (rep_count s) s
                eq_refl) as Hkeep.
  destruct (before_completion current_angles s)
    as [s2 [e | [[metrics max_range] |]]]; simpl in Hkeep.
  - simpl. lia.
  - unfold from_completion, calculate_movement_quality, bind, get, modify, ret.
    destruct (check_rep_completion s2 timestamp max_range (category_thresholds s));
      simpl; lia.
  - simpl. lia.
Qed.

Lemma process_frame_follow_match ident features timestamp s :
  process_frame ident features timestamp s
  = if bool_decide (features = []) then (s, None)
    else advanced_rep_detection features timestamp (follow_match ident s).
Proof. destruct ident as [[name similarity] category]. reflexivity. Qed.

Lemma follow_match_rep_count ident s :
  rep_count (follow_match ident s) = rep_count s.
Proof.
  destruct ident as [[name similarity] category]. unfold follow_match.
  destruct (_ && _); reflexivity.
Qed.

Lemma ingest_detected s f :
  rep_count (ingest s f)
  = (rep_count s + if detected_at s f then 1 else 0)%nat.
Proof.
  destruct f as [[ident features] timestamp]. unfold ingest, detected_at.
  rewrite process_frame_follow_match.
  destruct (bool_decide (features = [])); [simpl; lia |].
  rewrite advanced_rep_detection_detected, follow_match_rep_count.
  reflexivity.
Qed.

Lemma ingest_all_completions frames s :
  rep_count (ingest_all s frames) = (rep_count s + completions s frames)%nat.
Proof.
  unfold ingest_all. revert s.
  induction frames as [| f rest IH]; intros s; simpl; [lia |].
  rewrite IH, ingest_detected. lia.
Qed.

End Detected.

(** A completion is detected on an object that rests in End with a full
    window (and none on a fresh one, whose window is empty). *)
Example completion_detected_at_rest :
  Completion.completion_detected (Samples.frame_of 100) 100 Samples.resting = true
  /\ Completion.completion_detected (Samples.frame_of 100) 100 Comprehensive.init
     = false.
Proof. vm_compute. auto. Qed.

(** ** The rep test of the universal detection decides the increment *)

Section GoodRepDetected.
Import Professional ProfessionalFacts GoodRep.

Variable set_iter : list Phase -> list Phase.

(** The body of [universal_rep_detection] is the lines above [is_good_rep]
    followed by the lines from it on. *)
Lemma universal_body_split angles timestamp s :
  universal_body set_iter angles timestamp s
  = bind (before_good_rep set_iter angles timestamp)
         (fun reached =>
            match reached with
            | inl result => ret result
            | inr (angle_range, is_good_rep) =>
                from_good_rep timestamp angle_range is_good_rep
            end) s.
Proof.
  unfold universal_body, before_good_rep. symmetry.
  rewrite bind_assoc, bind_get. rewrite bind_get.
  destruct (primary_movement _ angles (angle_buffer s)) as [primary thresholds].
  rewrite bind_assoc, bind_modify. rewrite bind_modify.
  rewrite bind_assoc, bind_get. rewrite bind_get.
  match goal with
  | |- bind (if ?c then _ else _) _ _ = _ => destruct c; [reflexivity |]
  end.
  do 4 (rewrite bind_assoc; apply bind_ext; intros ? ?).
  rewrite bind_assoc, bind_get. rewrite bind_get.
  rewrite bind_assoc. apply bind_ext. intros ? s3.
  rewrite bind_assoc, bind_get. rewrite bind_get.
  destruct (3 <=? length (phase_history s3))%nat; [reflexivity |].
  reflexivity.
Qed.

(** The lines above the test leave the rep count alone. *)
Lemma before_good_rep_rep_count angles timestamp (n : nat) :
  preserves (fun x => rep_count x = n) (before_good_rep set_iter angles timestamp).
Proof.
  unfold before_good_rep.
  apply preserves_bind; [apply preserves_get | intros s0].
  destruct (primary_movement _ angles (angle_buffer s0)) as [primary thresholds].
  preserves_tac; apply preserves_modify; intros s1 H1; exact H1.
Qed.

Lemma universal_rep_detection_detected features angles timestamp s :
  rep_count (fst (universal_rep_detection set_iter features angles timestamp s))
  = (rep_count s
     + if good_rep_detected set_iter features angles timestamp s
       then 1 else 0)%nat.
Proof.
  unfold universal_rep_detection, good_rep_detected.
  destruct (bool_decide (features = []) || _); [simpl; lia |].
  rewrite universal_body_split. unfold bind at 1.
  pose proof (before_good_rep_rep_count angles timestamp (rep_count s) s
                eq_refl) as Hkeep.
  destruct (before_good_rep set_iter angles timestamp s)
    as [s2 [e | [result | [angle_range is_good_rep]]]]; simpl in Hkeep.
  - simpl. lia.
  - simpl. lia.
  - unfold from_good_rep, bind, get, modify, ret.
    destruct is_good_rep; simpl; lia.
Qed.

(** [is_good_rep] is never True: the count it would raise never moves. *)
Lemma good_rep_never_detected features angles timestamp s :
  good_rep_detected set_iter features angles timestamp s = false.
Proof.
  pose proof (universal_rep_detection_detected features angles timestamp s) as H.
  assert (Hsame : rep_count (fst (universal_rep_detection set_iter features
                                    angles timestamp s)) = rep_count s).
  { unfold universal_rep_detection. destruct (_ || _); [reflexivity |].
    apply universal_body_rep_count. }
  rewrite Hsame in H.
  destruct (good_rep_detected set_iter features angles timestamp s);
    [lia | reflexivity].
Qed.

Lemma process_frame_detected s f :
  rep_count (process_frame set_iter s f)
  = (rep_count s + if detected_at set_iter s f then 1 else 0)%nat.
Proof.
  destruct f as [[features angles] timestamp]. unfold process_frame, detected_at.
  destruct (exercise_bound s && negb (bool_decide (features = [])));
    [| simpl; lia].
  cbn [andb].
  pose proof (universal_rep_detection_detected features angles timestamp s) as H.
  destruct (universal_rep_detection set_iter features angles timestamp s)
    as [s' [e | r]]; simpl in H; [exact H |].
  destruct (form_score features angles); simpl; exact H.
Qed.

End GoodRepDetected.

(** C3. With no reset in between, the repetition count never decreases from
    one ingested frame to the next, and it grows exactly with the completions
    detected.  In the comprehensive engine a frame at which
    [check_rep_completion] is reached and returns True raises the count by
    exactly 1, any other frame leaves it as it is, and along a sequence of
    frames the count grows by the number of frames that detected a
    completion.  In the professional engine a frame at which
    [universal_rep_detection] reaches [is_good_rep] and finds it True raises
    the count by exactly 1 and any other frame leaves it as it is; no frame
    ever finds it True (with fewer than three committed phases
    [cycle_complete] is False, with three or more the slice of the deque
    raises before), so the count stays as it is along every sequence. *)
Theorem C3_rep_count_grows_by_one_per_detected_completion :
  (forall ident features timestamp s,
      Comprehensive.rep_count
        (fst (Comprehensive.process_frame ident features timestamp s))
      = (Comprehensive.rep_count s
         + if Completion.detected_at s (ident, features, timestamp)
           then 1 else 0)%nat)
  /\ (forall frames s,
        Comprehensive.rep_count (Comprehensive.ingest_all s frames)
        = (Comprehensive.rep_count s + Completion.completions s frames)%nat)
  /\ (forall s f frames,
        (Comprehensive.rep_count s
         <= Comprehensive.rep_count (Comprehensive.ingest s f)
         <= Comprehensive.rep_count s + 1)%nat
        /\ (Comprehensive.rep_count s
            <= Comprehensive.rep_count (Comprehensive.ingest_all s frames))%nat)
  /\ (forall set_iter s f,
        Professional.rep_count (Professional.process_frame set_iter s f)
        = (Professional.rep_count s
           + if GoodRep.detected_at set_iter s f then 1 else 0)%nat
        /\ GoodRep.detected_at set_iter s f = false)
  /\ (forall set_iter frames s,
        Professional.rep_count (Professional.run set_iter s frames)
        = Professional.rep_count s).
Proof.
  assert (Hnever : forall set_iter s f, GoodRep.detected_at set_iter s f = false).
  { intros set_iter s [[features angles] timestamp]. unfold GoodRep.detected_at.
    rewrite good_rep_never_detected. apply andb_false_r. }
  split.
  { intros ident features timestamp s.
    exact (ingest_detected s (ident, features, timestamp)). }
  split; [exact ingest_all_completions |].
  split.
  { intros s f frames. rewrite ingest_detected, ingest_all_completions.
    destruct (Completion.detected_at s f); lia. }
  split.
  { intros set_iter s f. split; [apply process_frame_detected | apply Hnever]. }
  intros set_iter frames. unfold Professional.run.
  induction frames as [| f rest IH]; intros s; simpl; [reflexivity |].
  rewrite IH, process_frame_detected, Hnever. lia.
Qed.

(* ------------------------------------------------------------------------- *)
(** ** When a repetition is counted *)
(* ------------------------------------------------------------------------- *)

Section ReachedPeak.
Import Comprehensive Invariant.





End ReachedPeak.

(** An object that rests in End with a full window counts a rep at time 100
    and another at time 101, although the second frame commits no phase:
    [check_rep_completion] looks at the length of the committed history, which
    no counted rep clears.  No sequence of calls gets there: the window of an
    object made by [__init__] never fills. *)
Example warm_object_counts_again_at_rest :
  Comprehensive.rep_count Samples.resting1
  = (Comprehensive.rep_count Samples.resting + 1)%nat
  /\ Comprehensive.rep_count Samples.resting2
     = (Comprehensive.rep_count Samples.resting1 + 1)%nat
  /\ Comprehensive.phase_history_buffer Samples.resting2
     = Comprehensive.phase_history_buffer Samples.resting1.
Proof. vm_compute. auto. Qed.



(* ------------------------------------------------------------------------- *)
(** ** When a candidate phase is committed *)
(* ------------------------------------------------------------------------- *)

(** The caller, [advanced_rep_detection], buffers the candidate and calls
    [validate_and_update_phase] once [k] votes are buffered: through it the
    candidate is committed if and only if at least [k] votes are buffered, it
    appears at least 2 times among the last [k], and the table lists it as
    reachable from the current phase. *)
Lemma stabilize_commits_iff_gate_and_consensus new_phase thresholds k s :
  Comprehensive.phase_stability thresholds = Some k ->
  let voted := Comprehensive.vote new_phase s in
  let gate :=
    (k <= length (Comprehensive.phase_buffer voted))%nat
    /\ (2 <= py_count new_phase (last_n k (Comprehensive.phase_buffer voted)))%nat
    /\ new_phase ∈ valid_transitions (Comprehensive.current_phase s) in
  (gate ->
   Comprehensive.stabilize new_phase thresholds s
   = (Comprehensive.commit_phase new_phase voted, inr tt))
  /\ (~ gate ->
      Comprehensive.stabilize new_phase thresholds s = (voted, inr tt)).
Proof.
  intros Hk voted gate.
  assert (Hgate : Comprehensive.consensus k new_phase voted = true <-> gate).
  { unfold Comprehensive.consensus, gate, allowed.
    rewrite !andb_true_iff, !Nat.leb_le, bool_decide_eq_true.
    subst voted. simpl. tauto. }
  rewrite ComprehensiveFacts.stabilize_eq, Hk. fold voted.
  split.
  - intros Hg. apply Hgate in Hg. rewrite Hg. reflexivity.
  - intros Hg.
    destruct (Comprehensive.consensus k new_phase voted) eqn:Hc;
      [exfalso; apply Hg, Hgate; reflexivity | reflexivity].
Qed.

(** C4. [validate_and_update_phase], for thresholds that hold the consensus
    frame count [k]: the candidate is committed (it replaces the current
    phase and is appended to the committed-phase history) if and only if it
    appears at least 2 times among the last [k] votes of the buffer and the
    allowed-transition table lists it as reachable from the current phase.
    A candidate that fails either test, in particular one with a single
    vote among the last [k], changes nothing.  No exception is raised either
    way. *)
Theorem C4_candidate_committed_iff_consensus_and_edge :
  forall new_phase thresholds k s,
    Comprehensive.phase_stability thresholds = Some k ->
    let votes := last_n k (Comprehensive.phase_buffer s) in
    let accepted :=
      (2 <= py_count new_phase votes)%nat
      /\ new_phase ∈ valid_transitions (Comprehensive.current_phase s) in
    let s' := fst (Comprehensive.validate_and_update_phase new_phase thresholds s) in
    snd (Comprehensive.validate_and_update_phase new_phase thresholds s) = inr tt
    /\ (accepted ->
        s' = Comprehensive.commit_phase new_phase s
        /\ Comprehensive.current_phase s' = new_phase
        /\ Comprehensive.current_phase s' <> Comprehensive.current_phase s
        /\ Comprehensive.phase_history_buffer s'
           = deque_append 10 new_phase (Comprehensive.phase_history_buffer s))
    /\ (~ accepted -> s' = s)
    /\ (accepted <-> s' <> s)
    /\ ((py_count new_phase votes <= 1)%nat -> s' = s).
Proof.
  intros new_phase thresholds k s Hk votes accepted s'.
  assert (Hdec : (2 <=? py_count new_phase votes)%nat
                 && allowed (Comprehensive.current_phase s) new_phase = true
                 <-> accepted).
  { unfold accepted, allowed.
    rewrite andb_true_iff, Nat.leb_le, bool_decide_eq_true. tauto. }
  assert (Hrun : Comprehensive.validate_and_update_phase new_phase thresholds s
                 = (if (2 <=? py_count new_phase votes)%nat
                       && allowed (Comprehensive.current_phase s) new_phase
                    then Comprehensive.commit_phase new_phase s else s, inr tt)).
  { unfold Comprehensive.validate_and_update_phase. rewrite Hk.
    unfold bind, orraise, ret, get, modify. fold votes.
    destruct (2 <=? py_count new_phase votes)%nat; [| reflexivity].
    destruct (allowed _ _); reflexivity. }
  assert (Hloop : allowed (Comprehensive.current_phase s) new_phase = true ->
                  new_phase <> Comprehensive.current_phase s).
  { intros Ha ->. destruct (Comprehensive.current_phase s); discriminate. }
  subst s'. rewrite Hrun. cbn [fst snd].
  destruct ((2 <=? py_count new_phase votes)%nat
            && allowed (Comprehensive.current_phase s) new_phase) eqn:Hc.
  - assert (Hacc : accepted) by (apply Hdec; reflexivity).
    apply andb_true_iff in Hc as [_ Hedge].
    assert (Hne : Comprehensive.commit_phase new_phase s <> s).
    { intros Heq. apply (Hloop Hedge).
      change new_phase
        with (Comprehensive.current_phase (Comprehensive.commit_phase new_phase s))
        at 1.
      rewrite Heq. reflexivity. }
    split; [reflexivity |]. split.
    { intros _. repeat split. simpl. apply Hloop, Hedge. }
    split; [intros Hn; contradiction |].
    split; [split; auto |].
    intros Hone. destruct Hacc as [Htwo _]. lia.
  - assert (Hnot : ~ accepted).
    { intros Hacc. apply Hdec in Hacc. congruence. }
    split; [reflexivity |]. split; [intros Hacc; contradiction |].
    split; [reflexivity |]. split; [| reflexivity].
    split; [intros Hacc; contradiction | intros Hn; congruence].
Qed.

(** The theorem at the default thresholds and the object that holds two votes
    for Quarter: the call commits Quarter. *)
Lemma C4_candidate_committed_iff_consensus_and_edge_witness :
  Comprehensive.phase_stability Comprehensive.default_thresholds = Some 3%nat
  /\ Comprehensive.current_phase
       (fst (Comprehensive.validate_and_update_phase Quarter
               Comprehensive.default_thresholds Samples.rising2)) = Quarter.
Proof.
  assert (H : Comprehensive.phase_stability Comprehensive.default_thresholds
              = Some 3%nat) by reflexivity.
  split; [exact H |].
  destruct (C4_candidate_committed_iff_consensus_and_edge Quarter
              Comprehensive.default_thresholds 3%nat Samples.rising2 H)
    as (_ & Hcommit & _).
  apply Hcommit. split.
  - vm_compute. lia.
  - vm_compute. repeat constructor.
Defined.
